(** * manipdraw: the per-frame manipulator pick pass

    A shallow embedding of the frame callback of [src/manipdraw.c]
    ([draw_cb], [resolve_manip], [resolve_manip_complete], [paint_manip])
    together with the part of the OpenGL state machine these functions
    drive.  The C globals live in a record, the GL context in a second one,
    and every statement of the callback is a step of a state-and-abort
    monad, so that the definitions can be read next to the C text. *)

From Stdlib Require Import ZArith QArith Qround Qminmax List Bool Lia.
From Stdlib Require Ascii String DecimalString.
Import ListNotations.

Local Open Scope Z_scope.

(** ** Machine integers *)

Definition UINT16_MAX : Z := 65535.

(** C [int] is 32 bits wide.  Signed overflow is undefined in C; the model
    gives it the two's complement result, and the theorems that speak of
    exact sums and differences carry the range of their operands. *)
Definition int_wrap (z : Z) : Z := (z + 2 ^ 31) mod 2 ^ 32 - 2 ^ 31.
Definition int_add (a b : Z) : Z := int_wrap (a + b).
Definition int_sub (a b : Z) : Z := int_wrap (a - b).
Definition is_int (z : Z) : Prop := - 2 ^ 31 <= z < 2 ^ 31.

(** [unsigned] arithmetic wraps modulo 2^32. *)
Definition uint_wrap (z : Z) : Z := z mod 2 ^ 32.

(** ** Data of the plugin *)

(** [manip_click], lines 51-54. *)
Record manip_click : Type := Build_manip_click {
  index : Z;    (* uint16_t *)
  start_t : Z   (* uint64_t *)
}.

(** The file-level variables that the frame callback reads or writes
    (lines 121-164, 276-278).  [obj] records whether the [obj8_t] pointer
    is non-NULL. *)
Record plugin : Type := Build_plugin {
  manip_clicks : list manip_click;
  xpver : Z;
  cursor_fbo : Z;
  cursor_pbo : Z;
  cursor_xfer : bool;
  manip_idx : Z;
  last_draw_t : Z;
  prev_manip_idx : Z;
  obj : bool;
  indexToPaint : Z;
  countup : Z;
  todraw : Z
}.

(** The static initialisers of the source. *)
Definition plugin_init : plugin := {|
  manip_clicks := [];
  xpver := 0;
  cursor_fbo := 0;
  cursor_pbo := 0;
  cursor_xfer := false;
  manip_idx := UINT16_MAX;
  last_draw_t := 0;
  prev_manip_idx := UINT16_MAX;
  obj := false;
  indexToPaint := 2 ^ 32 - 1;
  countup := 0;
  todraw := 0
|}.

(** ** The OpenGL context *)

Inductive depth_func : Type :=
  GL_NEVER | GL_LESS | GL_EQUAL | GL_LEQUAL
| GL_GREATER | GL_NOTEQUAL | GL_GEQUAL | GL_ALWAYS.

Inductive capability : Type := GL_DEPTH_TEST | GL_BLEND.

Inductive shader : Type := resolve_shader | paint_shader.

Inductive render_mode : Type :=
  OBJ8_RENDER_MODE_MANIP_ONLY | OBJ8_RENDER_MODE_NONMANIP_ONLY_ONE.

Record rect : Type := Build_rect {
  rect_x : Z; rect_y : Z; rect_w : Z; rect_h : Z
}.

Record color : Type := Build_color {
  red : Q; green : Q; blue : Q; alpha : Q
}.

(** The state the callback touches.  [gl_fb_texel f] is the content of the
    window pixel (0,0) of the colour attachment of framebuffer object [f],
    and [gl_buf_data b] the 16-bit content of buffer object [b]; the
    cursor framebuffer is 1x1 with an R16 attachment and the cursor buffer
    holds one [uint16_t] (lines 439-463), so one number each is all there
    is to them. *)
Record gl_state : Type := Build_gl_state {
  gl_framebuffer : Z;
  gl_viewport : rect;
  gl_depth_test : bool;
  gl_depth_mask : bool;
  gl_depth_func : depth_func;
  gl_clear_depth : Q;
  gl_clear_color : color;
  gl_blend : bool;
  gl_pixel_pack_buffer : Z;
  gl_fb_texel : Z -> Z;
  gl_buf_data : Z -> Z
}.

(** Every call into OpenGL, the shader helper or the scene adapter, in the
    order in which the callback makes it. *)
Inductive gl_call : Type :=
| GlBindFramebuffer (fbo : Z)
| GlViewport (x y w h : Z)
| GlEnable (c : capability)
| GlDisable (c : capability)
| GlDepthMask (b : bool)
| GlDepthFunc (f : depth_func)
| GlClearDepth (d : Q)
| GlClearColor (r g b a : Q)
| GlClear
| GlBindBuffer (buf : Z)
| GlMapBuffer
| GlUnmapBuffer
| GlReadPixels
| GlUniformMatrix4fv (s : shader)
| GlUniform4f (s : shader) (r g b a : Q)
| GlUseProgram (prog : Z)
| ShaderObjBind (s : shader)
| ShaderObjReloadCheck (s : shader)
| Obj8SetRenderMode (m : render_mode)
| Obj8SetRenderMode2 (m : render_mode) (arg : Z)
| Obj8DrawGroup (s : shader)
| Obj8DrawGroupByCmdidx (idx : Z) (s : shader).

(** ** What the host supplies to one callback *)

(** The datarefs, the pointer position and the two collaborators whose
    answers the plugin cannot compute: whether the driver hands out the
    mapping of the transfer buffer, and which manipulator index, if any,
    the scene adapter's manip-only geometry leaves in the texel at the
    origin of the bound framebuffer. *)
Record host : Type := Build_host {
  mouse_location : Z * Z;       (* XPLMGetMouseLocationGlobal *)
  dr_viewport : list Z;         (* sim/graphics/view/viewport *)
  dr_fbo : Z;                   (* sim/graphics/view/current_gl_fbo *)
  dr_rev_float_z : Z;           (* sim/graphics/view/is_reverse_float_z *)
  dr_modern_drv : Z;            (* sim/graphics/view/using_modern_driver *)
  map_ready : bool;             (* glMapBuffer returns non-NULL *)
  manip_hit : option Z;         (* texel written by obj8_draw_group *)
  clock_resolve : Z;            (* microclock() at line 200 *)
  clock_paint : Z               (* microclock() at line 283 *)
}.

Record world : Type := Build_world {
  plug : plugin;
  gl : gl_state;
  calls : list gl_call
}.

(** ** Field updates *)

Definition set_manip_clicks (v : list manip_click) (p : plugin) : plugin :=
  Build_plugin v (xpver p) (cursor_fbo p) (cursor_pbo p) (cursor_xfer p)
    (manip_idx p) (last_draw_t p) (prev_manip_idx p) (obj p)
    (indexToPaint p) (countup p) (todraw p).

Definition set_cursor_xfer (v : bool) (p : plugin) : plugin :=
  Build_plugin (manip_clicks p) (xpver p) (cursor_fbo p) (cursor_pbo p) v
    (manip_idx p) (last_draw_t p) (prev_manip_idx p) (obj p)
    (indexToPaint p) (countup p) (todraw p).

Definition set_manip_idx (v : Z) (p : plugin) : plugin :=
  Build_plugin (manip_clicks p) (xpver p) (cursor_fbo p) (cursor_pbo p)
    (cursor_xfer p) v (last_draw_t p) (prev_manip_idx p) (obj p)
    (indexToPaint p) (countup p) (todraw p).

Definition set_last_draw_t (v : Z) (p : plugin) : plugin :=
  Build_plugin (manip_clicks p) (xpver p) (cursor_fbo p) (cursor_pbo p)
    (cursor_xfer p) (manip_idx p) v (prev_manip_idx p) (obj p)
    (indexToPaint p) (countup p) (todraw p).

Definition set_prev_manip_idx (v : Z) (p : plugin) : plugin :=
  Build_plugin (manip_clicks p) (xpver p) (cursor_fbo p) (cursor_pbo p)
    (cursor_xfer p) (manip_idx p) (last_draw_t p) v (obj p)
    (indexToPaint p) (countup p) (todraw p).

Definition set_countup (v : Z) (p : plugin) : plugin :=
  Build_plugin (manip_clicks p) (xpver p) (cursor_fbo p) (cursor_pbo p)
    (cursor_xfer p) (manip_idx p) (last_draw_t p) (prev_manip_idx p) (obj p)
    (indexToPaint p) v (todraw p).

Definition set_todraw (v : Z) (p : plugin) : plugin :=
  Build_plugin (manip_clicks p) (xpver p) (cursor_fbo p) (cursor_pbo p)
    (cursor_xfer p) (manip_idx p) (last_draw_t p) (prev_manip_idx p) (obj p)
    (indexToPaint p) (countup p) v.

Definition set_gl_framebuffer (v : Z) (g : gl_state) : gl_state :=
  Build_gl_state v (gl_viewport g) (gl_depth_test g) (gl_depth_mask g)
    (gl_depth_func g) (gl_clear_depth g) (gl_clear_color g) (gl_blend g)
    (gl_pixel_pack_buffer g) (gl_fb_texel g) (gl_buf_data g).

Definition set_gl_viewport (v : rect) (g : gl_state) : gl_state :=
  Build_gl_state (gl_framebuffer g) v (gl_depth_test g) (gl_depth_mask g)
    (gl_depth_func g) (gl_clear_depth g) (gl_clear_color g) (gl_blend g)
    (gl_pixel_pack_buffer g) (gl_fb_texel g) (gl_buf_data g).

Definition set_gl_depth_test (v : bool) (g : gl_state) : gl_state :=
  Build_gl_state (gl_framebuffer g) (gl_viewport g) v (gl_depth_mask g)
    (gl_depth_func g) (gl_clear_depth g) (gl_clear_color g) (gl_blend g)
    (gl_pixel_pack_buffer g) (gl_fb_texel g) (gl_buf_data g).

Definition set_gl_depth_mask (v : bool) (g : gl_state) : gl_state :=
  Build_gl_state (gl_framebuffer g) (gl_viewport g) (gl_depth_test g) v
    (gl_depth_func g) (gl_clear_depth g) (gl_clear_color g) (gl_blend g)
    (gl_pixel_pack_buffer g) (gl_fb_texel g) (gl_buf_data g).

Definition set_gl_depth_func (v : depth_func) (g : gl_state) : gl_state :=
  Build_gl_state (gl_framebuffer g) (gl_viewport g) (gl_depth_test g)
    (gl_depth_mask g) v (gl_clear_depth g) (gl_clear_color g) (gl_blend g)
    (gl_pixel_pack_buffer g) (gl_fb_texel g) (gl_buf_data g).

Definition set_gl_clear_depth (v : Q) (g : gl_state) : gl_state :=
  Build_gl_state (gl_framebuffer g) (gl_viewport g) (gl_depth_test g)
    (gl_depth_mask g) (gl_depth_func g) v (gl_clear_color g) (gl_blend g)
    (gl_pixel_pack_buffer g) (gl_fb_texel g) (gl_buf_data g).

Definition set_gl_clear_color (v : color) (g : gl_state) : gl_state :=
  Build_gl_state (gl_framebuffer g) (gl_viewport g) (gl_depth_test g)
    (gl_depth_mask g) (gl_depth_func g) (gl_clear_depth g) v (gl_blend g)
    (gl_pixel_pack_buffer g) (gl_fb_texel g) (gl_buf_data g).

Definition set_gl_blend (v : bool) (g : gl_state) : gl_state :=
  Build_gl_state (gl_framebuffer g) (gl_viewport g) (gl_depth_test g)
    (gl_depth_mask g) (gl_depth_func g) (gl_clear_depth g) (gl_clear_color g)
    v (gl_pixel_pack_buffer g) (gl_fb_texel g) (gl_buf_data g).

Definition set_gl_pixel_pack_buffer (v : Z) (g : gl_state) : gl_state :=
  Build_gl_state (gl_framebuffer g) (gl_viewport g) (gl_depth_test g)
    (gl_depth_mask g) (gl_depth_func g) (gl_clear_depth g) (gl_clear_color g)
    (gl_blend g) v (gl_fb_texel g) (gl_buf_data g).

Definition set_gl_fb_texel (v : Z -> Z) (g : gl_state) : gl_state :=
  Build_gl_state (gl_framebuffer g) (gl_viewport g) (gl_depth_test g)
    (gl_depth_mask g) (gl_depth_func g) (gl_clear_depth g) (gl_clear_color g)
    (gl_blend g) (gl_pixel_pack_buffer g) v (gl_buf_data g).

Definition set_gl_buf_data (v : Z -> Z) (g : gl_state) : gl_state :=
  Build_gl_state (gl_framebuffer g) (gl_viewport g) (gl_depth_test g)
    (gl_depth_mask g) (gl_depth_func g) (gl_clear_depth g) (gl_clear_color g)
    (gl_blend g) (gl_pixel_pack_buffer g) (gl_fb_texel g) v.

(** Point update of an object store. *)
Definition upd (m : Z -> Z) (k v : Z) : Z -> Z :=
  fun k' => if k' =? k then v else m k'.

(** ** The monad of the callback: state, with abort for a failed
    [ASSERT] or [VERIFY] *)

Definition M (A : Type) : Type := world -> option (A * world).

Definition ret {A : Type} (a : A) : M A := fun w => Some (a, w).

Definition bind {A B : Type} (m : M A) (k : A -> M B) : M B :=
  fun w => match m w with
           | Some (a, w') => k a w'
           | None => None
           end.

Declare Scope manip_scope.
Delimit Scope manip_scope with manip.
Notation "x <- m ;; k" := (bind m (fun x => k))
  (at level 61, m at next level, right associativity) : manip_scope.
Notation "m ;; k" := (bind m (fun _ => k))
  (at level 61, right associativity) : manip_scope.
Local Open Scope manip_scope.

(** [ASSERT(c)] and [VERIFY(c)]: the process stops when [c] is false. *)
Definition ASSERT (c : bool) : M unit :=
  fun w => if c then Some (tt, w) else None.

(** Read a C global. *)
Definition load {A : Type} (f : plugin -> A) : M A :=
  fun w => Some (f (plug w), w).

(** Assign a C global. *)
Definition store (f : plugin -> plugin) : M unit :=
  fun w => Some (tt, Build_world (f (plug w)) (gl w) (calls w)).

(** A call: it is logged, and changes the GL context by [f]. *)
Definition call (c : gl_call) (f : gl_state -> gl_state) : M unit :=
  fun w => Some (tt, Build_world (plug w) (f (gl w)) (calls w ++ [c])).

(** ** OpenGL as the callback uses it *)

(** Conversion of a clamped colour component to the 16-bit normalised
    representation of an R16 texel: 0 goes to 0 and 1 to 0xFFFF. *)
Definition unorm16 (q : Q) : Z :=
  Qfloor (Qmin 1 (Qmax 0 q) * 65535 + (1 # 2))%Q.

Definition glBindFramebufferEXT (fbo : Z) : M unit :=
  call (GlBindFramebuffer fbo) (set_gl_framebuffer fbo).

Definition glViewport (x y w h : Z) : M unit :=
  call (GlViewport x y w h) (set_gl_viewport (Build_rect x y w h)).

Definition set_capability (c : capability) (v : bool) : gl_state -> gl_state :=
  match c with
  | GL_DEPTH_TEST => set_gl_depth_test v
  | GL_BLEND => set_gl_blend v
  end.

Definition glEnable (c : capability) : M unit :=
  call (GlEnable c) (set_capability c true).

Definition glDisable (c : capability) : M unit :=
  call (GlDisable c) (set_capability c false).

Definition glDepthMask (b : bool) : M unit :=
  call (GlDepthMask b) (set_gl_depth_mask b).

Definition glDepthFunc (f : depth_func) : M unit :=
  call (GlDepthFunc f) (set_gl_depth_func f).

Definition glClearDepth (d : Q) : M unit :=
  call (GlClearDepth d) (set_gl_clear_depth d).

Definition glClearColor (r g b a : Q) : M unit :=
  call (GlClearColor r g b a) (set_gl_clear_color (Build_color r g b a)).

(** [glClear(GL_COLOR_BUFFER_BIT | GL_DEPTH_BUFFER_BIT)]: the colour
    attachment of the bound framebuffer takes the clear colour; of an R16
    attachment only the red component is kept. *)
Definition glClear : M unit :=
  call GlClear
    (fun g => set_gl_fb_texel
                (upd (gl_fb_texel g) (gl_framebuffer g)
                     (unorm16 (red (gl_clear_color g)))) g).

Definition glBindBuffer (buf : Z) : M unit :=
  call (GlBindBuffer buf) (set_gl_pixel_pack_buffer buf).

(** [glReadPixels(0, 0, 1, 1, GL_RED, GL_UNSIGNED_SHORT, NULL)] with a
    buffer bound to [GL_PIXEL_PACK_BUFFER]: the texel at the origin of the
    bound framebuffer is copied to offset 0 of that buffer. *)
Definition glReadPixels : M unit :=
  call GlReadPixels
    (fun g => set_gl_buf_data
                (upd (gl_buf_data g) (gl_pixel_pack_buffer g)
                     (gl_fb_texel g (gl_framebuffer g))) g).

(** ** The callback *)

Section Callback.

(** The host's answers during the callback at hand. *)
Variable h : host.

(** [glMapBuffer(GL_PIXEL_PACK_BUFFER, GL_READ_ONLY)]: NULL, or the content
    of the buffer bound to the pack target. *)
Definition glMapBuffer : M (option Z) :=
  fun w =>
    Some (if map_ready h
          then Some (gl_buf_data (gl w) (gl_pixel_pack_buffer (gl w)))
          else None,
          Build_world (plug w) (gl w) (calls w ++ [GlMapBuffer])).

Definition glUnmapBuffer : M unit := call GlUnmapBuffer (fun g => g).

Definition glUniformMatrix4fv (s : shader) : M unit :=
  call (GlUniformMatrix4fv s) (fun g => g).

Definition glUniform4f (s : shader) (r g b a : Q) : M unit :=
  call (GlUniform4f s r g b a) (fun g => g).

Definition glUseProgram (prog : Z) : M unit :=
  call (GlUseProgram prog) (fun g => g).

Definition shader_obj_bind (s : shader) : M unit :=
  call (ShaderObjBind s) (fun g => g).

Definition shader_obj_reload_check (s : shader) : M unit :=
  call (ShaderObjReloadCheck s) (fun g => g).

Definition obj8_set_render_mode (m : render_mode) : M unit :=
  call (Obj8SetRenderMode m) (fun g => g).

Definition obj8_set_render_mode2 (m : render_mode) (arg : Z) : M unit :=
  call (Obj8SetRenderMode2 m arg) (fun g => g).

(** [obj8_draw_group] under the resolve shader and the manip-only render
    mode: a manipulator that covers the texel at the origin of the bound
    framebuffer leaves its index there, otherwise the texel keeps what it
    held. *)
Definition obj8_draw_group (s : shader) : M unit :=
  call (Obj8DrawGroup s)
    (fun g => match manip_hit h with
              | Some k => set_gl_fb_texel
                            (upd (gl_fb_texel g) (gl_framebuffer g) k) g
              | None => g
              end).

(** [obj8_draw_group_by_cmdidx] paints into the host's framebuffer, whose
    pixels are not followed here. *)
Definition obj8_draw_group_by_cmdidx (idx : Z) (s : shader) : M unit :=
  call (Obj8DrawGroupByCmdidx idx s) (fun g => g).

(** [dr_getvi(dr, vp, off, num)]: the values copied into [vp]; their number
    is the return value. *)
Definition dr_getvi (dr : list Z) (off num : nat) : list Z :=
  firstn num (skipn off dr).

(** [vp[i]] of the local [int vp[4]]. *)
Definition at_ (vp : list Z) (i : nat) : Z := nth i vp 0.

(** [resolve_manip_complete], lines 176-212.  [glBindBuffer] is always
    called on [GL_PIXEL_PACK_BUFFER]; the message to the log has no
    counterpart. *)
Definition resolve_manip_complete : M unit :=
  xfer <- load cursor_xfer ;;
  if negb xfer then ret tt
  else
    pbo <- load cursor_pbo ;;
    ASSERT (negb (pbo =? 0)) ;;
    glBindBuffer pbo ;;
    data <- glMapBuffer ;;
    match data with
    | Some d =>
        store (set_manip_idx d) ;;
        glUnmapBuffer ;;
        idx <- load manip_idx ;;
        prev <- load prev_manip_idx ;;
        if negb (idx =? UINT16_MAX) && negb (idx =? prev) then
          store (set_prev_manip_idx idx) ;;
          let now := clock_resolve h in
          let click := {| index := idx; start_t := now |} in
          clicks <- load manip_clicks ;;
          store (set_manip_clicks (clicks ++ [click]))
        else ret tt
    | None => ret tt
    end ;;
    glBindBuffer 0 ;;
    store (set_cursor_xfer false).

(** [is_rev_float_z], lines 214-219. *)
Definition is_rev_float_z : M bool :=
  v <- load xpver ;;
  ret ((12000 <=? v) || negb (dr_modern_drv h =? 0)
       || negb (dr_rev_float_z h =? 0)).

(** [resolve_manip], lines 221-273, in three parts.  The first runs from
    the drain to the draw of the manipulator geometry (lines 228-255) and
    returns the local [vp].  [ASSERT(pvm != NULL)] is about an array of the
    caller and always holds. *)
Definition resolve_manip_render (mouse_x mouse_y : Z) : M (list Z) :=
  resolve_manip_complete ;;
  let vp := dr_getvi (dr_viewport h) 0 4 in
  ASSERT (length vp =? 4)%nat ;;
  fbo <- load cursor_fbo ;;
  ASSERT (negb (fbo =? 0)) ;;
  glBindFramebufferEXT fbo ;;
  glViewport (int_sub (at_ vp 0) mouse_x) (int_sub (at_ vp 1) mouse_y)
             (at_ vp 2) (at_ vp 3) ;;
  glEnable GL_DEPTH_TEST ;;
  glDepthMask true ;;
  rev <- is_rev_float_z ;;
  (if rev then glDepthFunc GL_GREATER ;; glClearDepth 0 else ret tt) ;;
  glClearColor 1 0 0 1 ;;
  glClear ;;
  glClearColor 0 0 0 0 ;;
  shader_obj_bind resolve_shader ;;
  glUniformMatrix4fv resolve_shader ;;
  o <- load obj ;;
  ASSERT o ;;
  obj8_set_render_mode OBJ8_RENDER_MODE_MANIP_ONLY ;;
  obj8_draw_group resolve_shader ;;
  ret vp.

(** The second issues the copy of the texel into the transfer buffer
    (lines 257-261). *)
Definition resolve_manip_readback : M unit :=
  pbo <- load cursor_pbo ;;
  ASSERT (negb (pbo =? 0)) ;;
  glBindBuffer pbo ;;
  glReadPixels ;;
  glBindBuffer 0 ;;
  store (set_cursor_xfer true).

(** The third puts the host's state back (lines 262-272). *)
Definition resolve_manip_restore (vp : list Z) : M unit :=
  glDisable GL_DEPTH_TEST ;;
  glDepthMask false ;;
  rev <- is_rev_float_z ;;
  (if rev then glDepthFunc GL_LESS ;; glClearDepth 1 else ret tt) ;;
  glBindFramebufferEXT (dr_fbo h) ;;
  glViewport (at_ vp 0) (at_ vp 1) (at_ vp 2) (at_ vp 3).

Definition resolve_manip (mouse_x mouse_y : Z) : M unit :=
  vp <- resolve_manip_render mouse_x mouse_y ;;
  resolve_manip_readback ;;
  resolve_manip_restore vp.

(** [paint_manip], lines 280-376, without the message to the log and
    the copy of [pvm] that is never read. *)
Definition paint_manip : M unit :=
  let now := clock_paint h in
  let vp := dr_getvi (dr_viewport h) 0 4 in
  ASSERT (length vp =? 4)%nat ;;
  c <- load countup ;;
  store (set_countup (uint_wrap (c + 1))) ;;
  c <- load countup ;;
  let newtodraw := (c / 2) mod 200 in
  t <- load todraw ;;
  (if negb (newtodraw =? t) then store (set_todraw newtodraw) else ret tt) ;;
  shader_obj_bind paint_shader ;;
  glUniformMatrix4fv paint_shader ;;
  glUniform4f paint_shader 1 0 0 (1 # 2) ;;
  o <- load obj ;;
  ASSERT o ;;
  glEnable GL_BLEND ;;
  i <- load indexToPaint ;;
  obj8_set_render_mode2 OBJ8_RENDER_MODE_NONMANIP_ONLY_ONE i ;;
  obj8_draw_group_by_cmdidx i paint_shader ;;
  glViewport (at_ vp 0) (at_ vp 1) (at_ vp 2) (at_ vp 3) ;;
  store (set_last_draw_t now).

(** The test of lines 404-405. *)
Definition mouse_off_screen (vp : list Z) (mouse_x mouse_y : Z) : bool :=
  (mouse_x <? at_ vp 0) || (mouse_x >? int_add (at_ vp 0) (at_ vp 2))
  || (mouse_y <? at_ vp 1) || (mouse_y >? int_add (at_ vp 1) (at_ vp 3)).

(** [draw_cb], lines 390-427.  The two matrices read from the datarefs and
    their product [pvm] go to the shaders and to the scene adapter only;
    what the adapter draws with them is the host's [manip_hit]. *)
Definition draw_cb : M Z :=
  let '(mouse_x, mouse_y) := mouse_location h in
  let vp := dr_getvi (dr_viewport h) 0 4 in
  ASSERT (length vp =? 4)%nat ;;
  if mouse_off_screen vp mouse_x mouse_y then ret 1
  else
    shader_obj_reload_check resolve_shader ;;
    shader_obj_reload_check paint_shader ;;
    resolve_manip mouse_x mouse_y ;;
    paint_manip ;;
    glUseProgram 0 ;;
    ret 1.

End Callback.

(** The host calls [draw_cb] once per frame; a failed assertion ends the
    run. *)
Fixpoint run_frames (hs : list host) (w : world) : option world :=
  match hs with
  | [] => Some w
  | h :: hs' =>
      match draw_cb h w with
      | Some (_, w') => run_frames hs' w'
      | None => None
      end
  end.

(** * The plugin's entry points *)

(** ** C strings *)

(** A C string is the list of its characters before the terminating NUL;
    [std::string] is read the same way. *)
Definition cstring : Type := list Ascii.ascii.

(** The string constants of the source. *)
Module Names.
Import Ascii String.
Definition lit (s : string) : cstring := list_ascii_of_string s.
Definition dir_64 : cstring := lit "64".
Definition dir_32 : cstring := lit "32".
Definition dir_win_x64 : cstring := lit "win_x64".
Definition dir_mac_x64 : cstring := lit "mac_x64".
Definition dir_lin_x64 : cstring := lit "lin_x64".
Definition knobs_obj : cstring := lit "knobs.obj".
Definition objects_dir : cstring := lit "/objects/".
Definition obja_prefix : cstring := lit "_obja/".
Definition att_file_stl : cstring := lit "/_v10_att_file_stl".
Definition att_x_acf_prt_ref : cstring := lit "/_v10_att_x_acf_prt_ref".
Definition att_y_acf_prt_ref : cstring := lit "/_v10_att_y_acf_prt_ref".
Definition att_z_acf_prt_ref : cstring := lit "/_v10_att_z_acf_prt_ref".
Definition pushbutton_39 : cstring := lit "ckpt/pushbutton/39".
Definition slash : ascii := "/"%char.
Definition backslash : ascii := "\"%char.
End Names.

(** [strcmp(a, b) == 0]. *)
Fixpoint strcmp_eq (a b : cstring) : bool :=
  match a, b with
  | [], [] => true
  | x :: a', y :: b' => Ascii.eqb x y && strcmp_eq a' b'
  | _, _ => false
  end.

(** [strrchr(s, c)]: the offset of the last [c] in [s]; [None] is NULL. *)
Fixpoint strrchr (s : cstring) (c : Ascii.ascii) : option nat :=
  match s with
  | [] => None
  | a :: s' =>
      match strrchr s' c with
      | Some p => Some (S p)
      | None => if Ascii.eqb a c then Some 0%nat else None
      end
  end.

(** ** [XPluginStart]: the plugin's root directory *)

(** Lines 516-528, from the path that [XPLMGetPluginInfo] and
    [fix_pathsep] leave in [plugindir].  [DIRSEP] is the separator of the
    platform; [*p = 0] cuts the string at [p]. *)
Definition cut_plugindir (DIRSEP : Ascii.ascii) (plugindir : cstring)
  : cstring :=
  let plugindir :=
    match strrchr plugindir DIRSEP with
    | Some p => firstn p plugindir
    | None => plugindir
    end in
  match strrchr plugindir DIRSEP with
  | Some p =>
      let tail := skipn (S p) plugindir in
      if strcmp_eq tail Names.dir_64 || strcmp_eq tail Names.dir_32
         || strcmp_eq tail Names.dir_win_x64
         || strcmp_eq tail Names.dir_mac_x64
         || strcmp_eq tail Names.dir_lin_x64
      then firstn p plugindir
      else plugindir
  | None => plugindir
  end.

(** ** The cursor objects and the session *)

Definition set_cursor_fbo (v : Z) (p : plugin) : plugin :=
  Build_plugin (manip_clicks p) (xpver p) v (cursor_pbo p) (cursor_xfer p)
    (manip_idx p) (last_draw_t p) (prev_manip_idx p) (obj p)
    (indexToPaint p) (countup p) (todraw p).

Definition set_cursor_pbo (v : Z) (p : plugin) : plugin :=
  Build_plugin (manip_clicks p) (xpver p) (cursor_fbo p) v (cursor_xfer p)
    (manip_idx p) (last_draw_t p) (prev_manip_idx p) (obj p)
    (indexToPaint p) (countup p) (todraw p).

Definition set_obj (v : bool) (p : plugin) : plugin :=
  Build_plugin (manip_clicks p) (xpver p) (cursor_fbo p) (cursor_pbo p)
    (cursor_xfer p) (manip_idx p) (last_draw_t p) (prev_manip_idx p) v
    (indexToPaint p) (countup p) (todraw p).

Definition set_indexToPaint (v : Z) (p : plugin) : plugin :=
  Build_plugin (manip_clicks p) (xpver p) (cursor_fbo p) (cursor_pbo p)
    (cursor_xfer p) (manip_idx p) (last_draw_t p) (prev_manip_idx p) (obj p)
    v (countup p) (todraw p).

Inductive tex_format : Type := GL_R16 | GL_DEPTH_COMPONENT32F.

(** The calls of the entry points into OpenGL, the SDK and the helper
    libraries, in the order in which they are made. *)
Inductive object_call : Type :=
| GlGenTextures (n0 n1 : Z)
| SetupTexture (tex : Z) (fmt : tex_format)
| GlGenFramebuffers (n : Z)
| SetupColorFboForTex (fbo tex depth : Z)
| GlGenBuffers (n : Z)
| BindPixelPackBuffer (buf : Z)
| GlBufferData (size : Z)
| GlDeleteBuffers (buf : Z)
| GlDeleteFramebuffers (fbo : Z)
| GlDeleteTextures (n0 n1 : Z)
| ShaderObjInit (s : shader)
| ShaderObjFini (s : shader)
| XPLMRegisterDrawCallback
| XPLMUnregisterDrawCallback
| Obj8Parse (path : cstring)
| Obj8Free.

(** The file-level variables between the frames: those of the callback,
    the two texture names [cursor_tex], and the calls made so far.  The
    OpenGL context is not followed here: what [setup_texture] and
    [setup_color_fbo_for_tex] leave bound is theirs to say. *)
Record session : Type := Build_session {
  plugin_of : plugin;
  cursor_tex : Z * Z;
  object_calls : list object_call
}.

Definition with_plugin (f : plugin -> plugin) (s : session) : session :=
  Build_session (f (plugin_of s)) (cursor_tex s) (object_calls s).

Definition with_cursor_tex (t : Z * Z) (s : session) : session :=
  Build_session (plugin_of s) t (object_calls s).

Definition logged (c : list object_call) (s : session) : session :=
  Build_session (plugin_of s) (cursor_tex s) (object_calls s ++ c).

(** The names the driver hands out to [create_cursor_objects]. *)
Record gl_names : Type := Build_gl_names {
  gen_textures : Z * Z;
  gen_framebuffer : Z;
  gen_buffer : Z
}.

(** [create_cursor_objects], lines 429-464; a failed [VERIFY] ends the
    process. *)
Definition create_cursor_objects (n : gl_names) (s : session)
  : option session :=
  let s := logged [GlGenTextures (fst (gen_textures n))
                                 (snd (gen_textures n))]
             (with_cursor_tex (gen_textures n) s) in
  if fst (cursor_tex s) =? 0 then None
  else
    let s := logged [SetupTexture (fst (cursor_tex s)) GL_R16;
                     SetupTexture (snd (cursor_tex s)) GL_DEPTH_COMPONENT32F]
               s in
    let s := logged [GlGenFramebuffers (gen_framebuffer n)]
               (with_plugin (set_cursor_fbo (gen_framebuffer n)) s) in
    if cursor_fbo (plugin_of s) =? 0 then None
    else
      let s := logged [SetupColorFboForTex (cursor_fbo (plugin_of s))
                         (fst (cursor_tex s)) (snd (cursor_tex s))] s in
      let s := logged [GlGenBuffers (gen_buffer n)]
                 (with_plugin (set_cursor_pbo (gen_buffer n)) s) in
      if cursor_pbo (plugin_of s) =? 0 then None
      else
        Some (logged [BindPixelPackBuffer (cursor_pbo (plugin_of s));
                      GlBufferData 2; BindPixelPackBuffer 0] s).

(** [destroy_cursor_objects], lines 466-481. *)
Definition destroy_cursor_objects (s : session) : session :=
  let s :=
    if negb (cursor_pbo (plugin_of s) =? 0)
    then with_plugin (set_cursor_pbo 0)
           (logged [GlDeleteBuffers (cursor_pbo (plugin_of s))] s)
    else s in
  let s :=
    if negb (cursor_fbo (plugin_of s) =? 0)
    then with_plugin (set_cursor_fbo 0)
           (logged [GlDeleteFramebuffers (cursor_fbo (plugin_of s))] s)
    else s in
  if negb (fst (cursor_tex s) =? 0)
  then with_cursor_tex (0, 0)
         (logged [GlDeleteTextures (fst (cursor_tex s))
                                   (snd (cursor_tex s))] s)
  else s.

(** What the host answers during [XPluginEnable]: whether the datarefs
    exist, the names of the new objects, and whether the two shader
    programs build. *)
Record enable_host : Type := Build_enable_host {
  found_view_datarefs : bool;     (* the five fdr_find of lines 576-580 *)
  found_rev_float_z : bool;
  found_modern_drv : bool;
  names : gl_names;
  resolve_shader_builds : bool;
  paint_shader_builds : bool
}.

(** [XPluginEnable], lines 570-604.  [fdr_find] stops the process when
    the dataref is missing, as does the assertion on [xpver]. *)
Definition XPluginEnable (e : enable_host) (s : session)
  : option (Z * session) :=
  if negb (found_view_datarefs e) then None
  else if (negb (found_rev_float_z e) || negb (found_modern_drv e))
          && negb (12000 <=? xpver (plugin_of s))
  then None
  else
    match create_cursor_objects (names e) s with
    | None => None
    | Some s =>
        let s := logged [ShaderObjInit resolve_shader] s in
        if negb (resolve_shader_builds e) then Some (0, s)
        else
          let s := logged [ShaderObjInit paint_shader] s in
          if negb (paint_shader_builds e) then Some (0, s)
          else Some (1, s)
    end.


(** ** [new_aircraft_loaded] *)

(** [p] is a prefix of [s]. *)
Fixpoint is_prefix (p s : cstring) : bool :=
  match p, s with
  | [], _ => true
  | x :: p', y :: s' => Ascii.eqb x y && is_prefix p' s'
  | _ :: _, [] => false
  end.

(** [s.find(sub) != std::string::npos]. *)
Fixpoint contains (s sub : cstring) : bool :=
  is_prefix sub s
  || match s with
     | [] => false
     | _ :: s' => contains s' sub
     end.

(** [s.rfind(key)]: the last position at which [key] occurs in [s];
    [None] is [npos]. *)
Fixpoint rfind (s key : cstring) : option nat :=
  match s with
  | [] => if is_prefix key [] then Some 0%nat else None
  | _ :: s' =>
      match rfind s' key with
      | Some p => Some (S p)
      | None => if is_prefix key s then Some 0%nat else None
      end
  end.

(** [s.replace(pos, len, "")]. *)
Definition erase (s : cstring) (pos len : nat) : cstring :=
  firstn pos s ++ skipn (pos + len) s.

(** [std::to_string(idx)] of an [unsigned int]. *)
Definition to_string (idx : Z) : cstring :=
  String.list_ascii_of_string
    (DecimalString.NilZero.string_of_uint (N.to_uint (Z.to_N idx))).

(** Lines 617-632: the folder of the aircraft, which is the path of its
    file without the last occurrence of the file's name.  [None] is the
    failed [assert]. *)
Definition aircraft_folder (aircraftPath aircraftFileName : cstring)
  : option cstring :=
  match rfind aircraftPath aircraftFileName with
  | Some found => Some (erase aircraftPath found (length aircraftFileName))
  | None => None
  end.

(** An aircraft file as [acf_prop_find] shows it: a property's value, or
    NULL. *)
Definition acf_file : Type := cstring -> option cstring.

(** The key ["_obja/" + std::to_string(idx) + suffix]. *)
Definition obja_key (idx : Z) (suffix : cstring) : cstring :=
  Names.obja_prefix ++ to_string idx ++ suffix.

(** What the search of lines 650-681 hands on: the path of the cockpit
    object and the three attachment offsets as the file spells them (the
    source turns them into metres with [std::stof]). *)
Record cockpit_object : Type := Build_cockpit_object {
  co_path : cstring;
  co_x_acf_prt : option cstring;
  co_y_acf_prt : option cstring;
  co_z_acf_prt : option cstring
}.

(** How a piece of code with a loop ends within a given number of
    iterations. *)
Inductive run (A : Type) : Type :=
| Returns (a : A)
| Aborts
| Unfinished.
Arguments Returns {A} a.
Arguments Aborts {A}.
Arguments Unfinished {A}.

(** The loop of lines 650-681 from [idx] on, for at most [fuel]
    iterations; it returns the object found, if any. *)
Fixpoint find_cockpit_object (fuel : nat) (acf : acf_file)
    (folder : cstring) (idx : Z) : run (option cockpit_object) :=
  match fuel with
  | O => Unfinished
  | S fuel' =>
      match acf (obja_key idx Names.att_file_stl) with
      | None => Returns None
      | Some obj_in_acf =>
          if contains obj_in_acf Names.knobs_obj
          then Returns (Some {|
                 co_path := folder ++ Names.objects_dir ++ obj_in_acf;
                 co_x_acf_prt := acf (obja_key idx Names.att_x_acf_prt_ref);
                 co_y_acf_prt := acf (obja_key idx Names.att_y_acf_prt_ref);
                 co_z_acf_prt := acf (obja_key idx Names.att_z_acf_prt_ref)
               |})
          else find_cockpit_object fuel' acf folder (uint_wrap (idx + 1))
      end
  end.

(** A command of the parsed object: the name of its dataref and the index
    [obj8_nearest_tris_for_cmd] gives for it. *)
Record obj8_cmd : Type := Build_obj8_cmd {
  cmd_dr_name : cstring;
  cmd_nearest_tris : Z
}.

(** The loop of lines 708-737 over the commands: the value of
    [indexToPaint] after it. *)
Definition paint_target (cmds : list obj8_cmd) (indexToPaint : Z) : Z :=
  fold_left
    (fun idx cmd =>
       if strcmp_eq (cmd_dr_name cmd) Names.pushbutton_39
       then cmd_nearest_tris cmd
       else idx)
    cmds indexToPaint.

(** What the host answers during [new_aircraft_loaded]. *)
Record load_host : Type := Build_load_host {
  register_ok : bool;               (* XPLMRegisterDrawCallback *)
  aircraft_file_name : cstring;     (* XPLMGetNthAircraftModel *)
  aircraft_path : cstring;
  acf_read : option acf_file;       (* acf_file_read *)
  obj8_parse : cstring -> option (list obj8_cmd)
}.

(** [new_aircraft_loaded], lines 607-807.  A failed [VERIFY] or [assert]
    aborts.  The wait for [obj8_is_load_complete] and the two reports to
    the log change no variable and are left out. *)
Definition new_aircraft_loaded (fuel : nat) (l : load_host) (s : session)
  : run session :=
  if negb (register_ok l) then Aborts
  else
    let s := logged [XPLMRegisterDrawCallback] s in
    match aircraft_folder (aircraft_path l) (aircraft_file_name l) with
    | None => Aborts
    | Some folder =>
        let found :=
          match acf_read l with
          | Some acf => find_cockpit_object fuel acf folder 0
          | None => Returns None
          end in
        match found with
        | Unfinished => Unfinished
        | Aborts => Aborts
        | Returns None => Aborts
        | Returns (Some co) =>
            let s := logged [Obj8Parse (co_path co)] s in
            match obj8_parse l (co_path co) with
            | None => Aborts
            | Some cmds =>
                Returns
                  (with_plugin
                     (fun p => set_indexToPaint
                                 (paint_target cmds (indexToPaint p))
                                 (set_obj true p))
                     s)
            end
        end
    end.

(** * Vocabulary of the properties *)

(** ** The state of the protocol *)

(** The index a pending transfer delivers: the content of the transfer
    buffer. *)
Definition transferred (w : world) : Z :=
  gl_buf_data (gl w) (cursor_pbo (plug w)).

(** The test of line 194 on a delivered index. *)
Definition is_new_click (d : Z) (w : world) : bool :=
  negb (d =? UINT16_MAX) && negb (d =? prev_manip_idx (plug w)).

(** The value of [is_rev_float_z]. *)
Definition rev_float_z (h : host) (w : world) : bool :=
  (12000 <=? xpver (plug w)) || negb (dr_modern_drv h =? 0)
  || negb (dr_rev_float_z h =? 0).

(** What the transfer will deliver for the frame at hand: the index of
    the manipulator under the pointer, or the cleared texel. *)
Definition pick_texel (h : host) : Z :=
  match manip_hit h with
  | Some k => k
  | None => UINT16_MAX
  end.

(** The plugin between [XPluginEnable] with a loaded aircraft object and
    [XPluginDisable]: the cursor objects exist ([VERIFY] at lines 451 and
    459) and [obj] is set. *)
Definition enabled (w : world) : Prop :=
  cursor_fbo (plug w) <> 0 /\ cursor_pbo (plug w) <> 0 /\
  obj (plug w) = true.

(** The pointer and the viewport as [draw_cb] reads them. *)
Definition pointer_x (h : host) : Z := fst (mouse_location h).
Definition pointer_y (h : host) : Z := snd (mouse_location h).
Definition off_screen (h : host) : bool :=
  mouse_off_screen (dr_getvi (dr_viewport h) 0 4)
    (pointer_x h) (pointer_y h).

(** A frame that passes the [VERIFY] of line 402 and the bounds test. *)
Definition on_screen_frame (h : host) : Prop :=
  length (dr_viewport h) = 4%nat /\ off_screen h = false.

(** The world after the two reload checks of lines 412-413. *)
Definition reloaded (w : world) : world :=
  Build_world (plug w) (gl w)
    (calls w ++ [ShaderObjReloadCheck resolve_shader;
                 ShaderObjReloadCheck paint_shader]).

(** The world after the copy has been issued (lines 257-261). *)
Definition issued (w : world) : world :=
  Build_world
    (set_cursor_xfer true (plug w))
    (set_gl_pixel_pack_buffer 0
       (set_gl_buf_data
          (upd (gl_buf_data (gl w)) (cursor_pbo (plug w))
               (gl_fb_texel (gl w) (gl_framebuffer (gl w))))
          (gl w)))
    (calls w ++ [GlBindBuffer (cursor_pbo (plug w)); GlReadPixels;
                 GlBindBuffer 0]).

(** ** The calls of the passes *)

(** The calls of lines 233-255. *)
Definition render_calls (h : host) (mouse_x mouse_y : Z) (w1 : world)
  : list gl_call :=
  let vp := dr_getvi (dr_viewport h) 0 4 in
  [GlBindFramebuffer (cursor_fbo (plug w1));
   GlViewport (int_sub (at_ vp 0) mouse_x) (int_sub (at_ vp 1) mouse_y)
              (at_ vp 2) (at_ vp 3);
   GlEnable GL_DEPTH_TEST; GlDepthMask true]
  ++ (if rev_float_z h w1 then [GlDepthFunc GL_GREATER; GlClearDepth 0]
      else [])
  ++ [GlClearColor 1 0 0 1; GlClear; GlClearColor 0 0 0 0;
      ShaderObjBind resolve_shader; GlUniformMatrix4fv resolve_shader;
      Obj8SetRenderMode OBJ8_RENDER_MODE_MANIP_ONLY;
      Obj8DrawGroup resolve_shader].

(** The calls of lines 265-272. *)
Definition restore_calls (h : host) (vp : list Z) (w : world)
  : list gl_call :=
  [GlDisable GL_DEPTH_TEST; GlDepthMask false]
  ++ (if rev_float_z h w then [GlDepthFunc GL_LESS; GlClearDepth 1] else [])
  ++ [GlBindFramebuffer (dr_fbo h);
      GlViewport (at_ vp 0) (at_ vp 1) (at_ vp 2) (at_ vp 3)].

(** The context after lines 265-272. *)
Definition restored_gl (h : host) (vp : list Z) (w : world) : gl_state :=
  let g := set_gl_depth_mask false (set_gl_depth_test false (gl w)) in
  let g := if rev_float_z h w
           then set_gl_clear_depth 1 (set_gl_depth_func GL_LESS g)
           else g in
  set_gl_viewport (Build_rect (at_ vp 0) (at_ vp 1) (at_ vp 2) (at_ vp 3))
    (set_gl_framebuffer (dr_fbo h) g).

(** The calls of [paint_manip]. *)
Definition paint_calls (h : host) (w : world) : list gl_call :=
  let vp := dr_getvi (dr_viewport h) 0 4 in
  [ShaderObjBind paint_shader; GlUniformMatrix4fv paint_shader;
   GlUniform4f paint_shader 1 0 0 (1 # 2); GlEnable GL_BLEND;
   Obj8SetRenderMode2 OBJ8_RENDER_MODE_NONMANIP_ONLY_ONE
     (indexToPaint (plug w));
   Obj8DrawGroupByCmdidx (indexToPaint (plug w)) paint_shader;
   GlViewport (at_ vp 0) (at_ vp 1) (at_ vp 2) (at_ vp 3)].

(** ** A weakest-precondition reading of the monad *)

(** [wp Q m w P]: run from [w], either [m] returns a value and a world
    that satisfy [P], or it aborts and [Q] holds.  With [Q := False] the
    run returns; with [Q := True] nothing is said of an aborted run. *)
Definition wp {A : Type} (Q : Prop) (m : M A) (w : world)
    (P : A -> world -> Prop) : Prop :=
  match m w with
  | Some (a, w') => P a w'
  | None => Q
  end.

(** ** What each part of the callback establishes *)

(** The drain writes [cursor_xfer], [manip_idx], [prev_manip_idx] and
    [manip_clicks], and rebinds the pack target; nothing else. *)
Record drain_frame (w w1 : world) : Prop := {
  df_xfer : cursor_xfer (plug w1) = false;
  df_fbo : cursor_fbo (plug w1) = cursor_fbo (plug w);
  df_pbo : cursor_pbo (plug w1) = cursor_pbo (plug w);
  df_obj : obj (plug w1) = obj (plug w);
  df_xpver : xpver (plug w1) = xpver (plug w);
  df_paint : indexToPaint (plug w1) = indexToPaint (plug w);
  df_framebuffer : gl_framebuffer (gl w1) = gl_framebuffer (gl w);
  df_viewport : gl_viewport (gl w1) = gl_viewport (gl w);
  df_depth_test : gl_depth_test (gl w1) = gl_depth_test (gl w);
  df_depth_mask : gl_depth_mask (gl w1) = gl_depth_mask (gl w);
  df_depth_func : gl_depth_func (gl w1) = gl_depth_func (gl w);
  df_clear_depth : gl_clear_depth (gl w1) = gl_clear_depth (gl w);
  df_fb_texel : gl_fb_texel (gl w1) = gl_fb_texel (gl w);
  df_buf_data : gl_buf_data (gl w1) = gl_buf_data (gl w);
  df_calls : exists dc,
      calls w1 = calls w ++ dc /\
      (cursor_xfer (plug w) = true ->
       exists dc', dc = GlBindBuffer (cursor_pbo (plug w))
                        :: GlMapBuffer :: dc') /\
      forall c, In c dc ->
        c = GlMapBuffer \/ c = GlUnmapBuffer \/ exists b, c = GlBindBuffer b
}.

(** The state in which the copy is issued, [w2], against the state the
    drain left, [w1]. *)
Record render_facts (h : host) (mouse_x mouse_y : Z) (w1 w2 : world)
  : Prop := {
  rf_plug : plug w2 = plug w1;
  rf_framebuffer : gl_framebuffer (gl w2) = cursor_fbo (plug w1);
  rf_viewport :
    gl_viewport (gl w2) =
    let vp := dr_getvi (dr_viewport h) 0 4 in
    Build_rect (int_sub (at_ vp 0) mouse_x) (int_sub (at_ vp 1) mouse_y)
               (at_ vp 2) (at_ vp 3);
  rf_texel : gl_fb_texel (gl w2) (cursor_fbo (plug w1)) = pick_texel h;
  rf_buf_data : gl_buf_data (gl w2) = gl_buf_data (gl w1);
  rf_depth_func :
    gl_depth_func (gl w2) =
    if rev_float_z h w1 then GL_GREATER else gl_depth_func (gl w1);
  rf_clear_depth :
    gl_clear_depth (gl w2) =
    if rev_float_z h w1 then 0%Q else gl_clear_depth (gl w1);
  rf_calls : calls w2 = calls w1 ++ render_calls h mouse_x mouse_y w1
}.

(** The paint pass counts its calls, switches blending on and sets the
    viewport; the protocol state and the object stores are not its
    business. *)
Record paint_facts (h : host) (w w' : world) : Prop := {
  pf_clicks : manip_clicks (plug w') = manip_clicks (plug w);
  pf_xpver : xpver (plug w') = xpver (plug w);
  pf_fbo : cursor_fbo (plug w') = cursor_fbo (plug w);
  pf_pbo : cursor_pbo (plug w') = cursor_pbo (plug w);
  pf_xfer : cursor_xfer (plug w') = cursor_xfer (plug w);
  pf_manip_idx : manip_idx (plug w') = manip_idx (plug w);
  pf_prev : prev_manip_idx (plug w') = prev_manip_idx (plug w);
  pf_obj : obj (plug w') = obj (plug w);
  pf_countup : countup (plug w') = uint_wrap (countup (plug w) + 1);
  pf_todraw : todraw (plug w') = (countup (plug w') / 2) mod 200;
  pf_last_draw_t : last_draw_t (plug w') = clock_paint h;
  pf_blend : gl_blend (gl w') = true;
  pf_buf_data : gl_buf_data (gl w') = gl_buf_data (gl w);
  pf_fb_texel : gl_fb_texel (gl w') = gl_fb_texel (gl w);
  pf_calls : calls w' = calls w ++ paint_calls h w
}.

(** One on-screen frame, [w'], against the state its drain left, [w1]. *)
Record frame_facts (h : host) (w1 w' : world) : Prop := {
  ff_manip_idx : manip_idx (plug w') = manip_idx (plug w1);
  ff_prev : prev_manip_idx (plug w') = prev_manip_idx (plug w1);
  ff_clicks : manip_clicks (plug w') = manip_clicks (plug w1);
  ff_xfer : cursor_xfer (plug w') = true;
  ff_fbo : cursor_fbo (plug w') = cursor_fbo (plug w1);
  ff_pbo : cursor_pbo (plug w') = cursor_pbo (plug w1);
  ff_obj : obj (plug w') = obj (plug w1);
  ff_xpver : xpver (plug w') = xpver (plug w1);
  ff_transferred : transferred w' = pick_texel h;
  ff_calls : exists post,
      calls w' = calls w1 ++ post /\
      In GlReadPixels post /\
      In (Obj8DrawGroup resolve_shader) post /\
      In (Obj8DrawGroupByCmdidx (indexToPaint (plug w1)) paint_shader) post
}.

(** ** The click log *)

(** No two neighbours of the log carry the same index. *)
Definition no_equal_neighbours (l : list manip_click) : Prop :=
  forall l1 a b l2, l = l1 ++ a :: b :: l2 -> index a <> index b.

(** The index of the last entry, if there is one. *)
Definition last_index_is (l : list manip_click) (i : Z) : Prop :=
  forall l1 a, l = l1 ++ [a] -> index a = i.

(** The invariant behind the dedup law: [prev_manip_idx] is the index of
    the last entry of the log. *)
Definition dedup_inv (w : world) : Prop :=
  no_equal_neighbours (manip_clicks (plug w)) /\
  last_index_is (manip_clicks (plug w)) (prev_manip_idx (plug w)).

(** What a frame does to the log: nothing, or it appends the index just
    resolved, which then is neither the sentinel nor the index recorded
    before. *)
Definition click_step (h : host) (w w' : world) : Prop :=
  (manip_clicks (plug w') = manip_clicks (plug w) /\
   prev_manip_idx (plug w') = prev_manip_idx (plug w)) \/
  (manip_idx (plug w') <> UINT16_MAX /\
   manip_idx (plug w') <> prev_manip_idx (plug w) /\
   prev_manip_idx (plug w') = manip_idx (plug w') /\
   manip_clicks (plug w') =
   manip_clicks (plug w) ++ [{| index := manip_idx (plug w');
                                start_t := clock_resolve h |}]).

(** ** The viewport transformation *)

(** The viewport transformation of OpenGL along one axis: a normalised
    device coordinate [d] in [-1, 1] lands on the window coordinate
    [origin + extent / 2 * (d + 1)]; the pixel is its integer part. *)
Definition window_coord (origin extent : Z) (d : Q) : Q :=
  (inject_Z origin + (inject_Z extent / 2) * (d + 1))%Q.

(** The pixel a point is drawn to under the viewport [r]. *)
Definition pixel_of (r : rect) (xd yd : Q) : Z * Z :=
  (Qfloor (window_coord (rect_x r) (rect_w r) xd),
   Qfloor (window_coord (rect_y r) (rect_h r) yd)).

(** ** A concrete session *)

(** The context in which X-Plane calls a window-phase callback: its own
    framebuffer bound, the full viewport, no depth test. *)
Definition xp_gl : gl_state := {|
  gl_framebuffer := 0;
  gl_viewport := Build_rect 0 0 800 600;
  gl_depth_test := false;
  gl_depth_mask := false;
  gl_depth_func := GL_LESS;
  gl_clear_depth := 1;
  gl_clear_color := Build_color 0 0 0 0;
  gl_blend := false;
  gl_pixel_pack_buffer := 0;
  gl_fb_texel := fun _ => 0;
  gl_buf_data := fun _ => 0
|}.

(** The plugin after [XPluginEnable] and [new_aircraft_loaded] on
    X-Plane 11.50. *)
Definition xp_plugin : plugin := {|
  manip_clicks := [];
  xpver := 11500;
  cursor_fbo := 1;
  cursor_pbo := 1;
  cursor_xfer := false;
  manip_idx := UINT16_MAX;
  last_draw_t := 0;
  prev_manip_idx := UINT16_MAX;
  obj := true;
  indexToPaint := 5;
  countup := 0;
  todraw := 0
|}.

(** The session before its first frame. *)
Definition xp_world : world := Build_world xp_plugin xp_gl [].

(** The same with a transfer in flight. *)
Definition xp_pending : world :=
  Build_world (set_cursor_xfer true xp_plugin) xp_gl [].

(** A session that has read index 3 and then meets a driver that never
    hands out the mapping again. *)
Definition xp_read_3 : world :=
  Build_world (set_cursor_xfer true (set_manip_idx 3 xp_plugin)) xp_gl [].

(** The session called with the depth test switched on. *)
Definition xp_depth_tested : world :=
  Build_world xp_plugin (set_gl_depth_test true xp_gl) [].

(** A frame on an 800x600 window. *)
Definition xp_frame (pointer : Z * Z) (hit : option Z) (ready : bool)
    (now : Z) : host := {|
  mouse_location := pointer;
  dr_viewport := [0; 0; 800; 600];
  dr_fbo := 0;
  dr_rev_float_z := 0;
  dr_modern_drv := 0;
  map_ready := ready;
  manip_hit := hit;
  clock_resolve := now;
  clock_paint := now + 1
|}.

(** ** Frames and runs compared *)

(** The frame [h] with another outcome of the draw. *)
Definition with_manip_hit (k : option Z) (h : host) : host :=
  Build_host (mouse_location h) (dr_viewport h) (dr_fbo h)
    (dr_rev_float_z h) (dr_modern_drv h) (map_ready h) k
    (clock_resolve h) (clock_paint h).


(** An entry that a frame of [hs] has logged: its index is not the
    sentinel and its time is that frame's reading of the clock. *)
Definition logged_by (hs : list host) (c : manip_click) : Prop :=
  index c <> UINT16_MAX /\
  exists h, In h hs /\ start_t c = clock_resolve h.

(** ** Directory names *)

(** The names of the per-architecture directories that [XPluginStart]
    cuts off. *)
Definition arch_dirs : list cstring :=
  [Names.dir_64; Names.dir_32; Names.dir_win_x64; Names.dir_mac_x64;
   Names.dir_lin_x64].

(** The separators of the platforms X-Plane runs on. *)
Definition is_dirsep (c : Ascii.ascii) : Prop :=
  c = Names.slash \/ c = Names.backslash.

(** Paths of a session on Linux. *)
Module Paths.
Import Ascii String.
Definition plugin_root : cstring :=
  Names.lit "/xp/Resources/plugins/manipdraw".
Definition plugins : cstring := Names.lit "/xp/Resources/plugins".
Definition manipdraw : cstring := Names.lit "manipdraw".
Definition lin_xpl : cstring := Names.lit "lin.xpl".
Definition binary_in_64 : cstring :=
  Names.lit "/xp/Resources/plugins/manipdraw/64/lin.xpl".
Definition binary_in_root : cstring :=
  Names.lit "/xp/Resources/plugins/manipdraw/lin.xpl".
End Paths.

(** ** A session of the entry points *)

(** An aircraft whose second object is the cockpit object, and a parsed
    object with two commands on the dataref of the push button. *)
Module Aircraft.
Import Ascii String.
Definition folder : cstring := Names.lit "/xp/Aircraft/B738/".
Definition file_name : cstring := Names.lit "b738.acf".
Definition fuselage : cstring := Names.lit "fuselage.obj".
Definition knobs : cstring := Names.lit "cockpit/knobs.obj".
Definition wings : cstring := Names.lit "wings.obj".
Definition anim_dr : cstring := Names.lit "ckpt/anim/1".
Definition offset_x : cstring := Names.lit "1.5".
End Aircraft.

Definition xp_acf : acf_file := fun key =>
  if strcmp_eq key (obja_key 0 Names.att_file_stl)
  then Some Aircraft.fuselage
  else if strcmp_eq key (obja_key 1 Names.att_file_stl)
  then Some Aircraft.knobs
  else if strcmp_eq key (obja_key 1 Names.att_x_acf_prt_ref)
  then Some Aircraft.offset_x
  else None.

(** An aircraft whose cockpit object comes after an index that is not
    used. *)
Definition xp_acf_gap : acf_file := fun key =>
  if strcmp_eq key (obja_key 0 Names.att_file_stl)
  then Some Aircraft.fuselage
  else if strcmp_eq key (obja_key 2 Names.att_file_stl)
  then Some Aircraft.knobs
  else None.

Definition xp_cmds : list obj8_cmd :=
  [Build_obj8_cmd Names.pushbutton_39 4;
   Build_obj8_cmd Aircraft.anim_dr 6;
   Build_obj8_cmd Names.pushbutton_39 9;
   Build_obj8_cmd Aircraft.anim_dr 11].

Definition xp_load : load_host := {|
  register_ok := true;
  aircraft_file_name := Aircraft.file_name;
  aircraft_path := Aircraft.folder ++ Aircraft.file_name;
  acf_read := Some xp_acf;
  obj8_parse := fun _ => Some xp_cmds
|}.

Definition xp_enable : enable_host := {|
  found_view_datarefs := true;
  found_rev_float_z := true;
  found_modern_drv := true;
  names := Build_gl_names (7, 8) 3 5;
  resolve_shader_builds := true;
  paint_shader_builds := true
|}.

(** The plugin before its first [XPluginEnable]. *)
Definition xp_session : session := Build_session plugin_init (0, 0) [].


(** The context in which the callback meets the plugin of a session. *)
Definition in_context (s : session) (g : gl_state) (c : list gl_call)
  : world := Build_world (plugin_of s) g c.

(** Every call in [post] that draws a single command draws command [i],
    with the paint program. *)
Definition paints_only (i : Z) (post : list gl_call) : Prop :=
  forall j s, In (Obj8DrawGroupByCmdidx j s) post ->
              j = i /\ s = paint_shader.

(** The search of lines 650-681 passes index [i] without taking it: the
    aircraft has an object there and its name lacks the one looked for. *)
Definition passed_over (acf : acf_file) (i : Z) : Prop :=
  exists o, acf (obja_key i Names.att_file_stl) = Some o /\
            contains o Names.knobs_obj = false.

(** The command on the dataref of the push button. *)
Definition is_pushbutton (cmd : obj8_cmd) : bool :=
  strcmp_eq (cmd_dr_name cmd) Names.pushbutton_39.

(** * Properties *)

Arguments int_wrap : simpl never.
Arguments int_add : simpl never.
Arguments int_sub : simpl never.
Arguments uint_wrap : simpl never.
Arguments unorm16 : simpl never.
Arguments UINT16_MAX : simpl never.

(** Unfolding of the monad and of the calls, and a world taken apart into
    its fields, so that a run of the callback computes. *)
Ltac unfold_calls :=
  cbv beta iota delta
    [bind ret load store call ASSERT
     glBindFramebufferEXT glViewport glEnable glDisable glDepthMask
     glDepthFunc glClearDepth glClearColor glClear glBindBuffer glReadPixels
     glMapBuffer glUnmapBuffer glUniformMatrix4fv glUniform4f glUseProgram
     shader_obj_bind shader_obj_reload_check obj8_set_render_mode
     obj8_set_render_mode2 obj8_draw_group obj8_draw_group_by_cmdidx
     is_rev_float_z] in *.

Ltac break_world w :=
  let p := fresh "p" in
  let g := fresh "g" in
  let tr := fresh "tr" in
  destruct w as [p g tr]; destruct p, g; simpl in *.

Ltac flatten_calls := rewrite <- ?app_assoc; cbn [app].

(** Membership in a list written out. *)
Ltac find_in := first [reflexivity | left; find_in | right; find_in].

(** ** Arithmetic of [int] *)

Lemma int_wrap_id (z : Z) : is_int z -> int_wrap z = z.
Proof.
  unfold is_int, int_wrap. intros Hz.
  rewrite Z.mod_small by lia. lia.
Qed.

Lemma unorm16_one : unorm16 1 = UINT16_MAX.
Proof. reflexivity. Qed.

Lemma upd_same (m : Z -> Z) (k v : Z) : upd m k v k = v.
Proof. unfold upd. now rewrite Z.eqb_refl. Qed.

(** ** The drain, case by case *)

Lemma drain_idle (h : host) (w : world) :
  cursor_xfer (plug w) = false ->
  resolve_manip_complete h w = Some (tt, w).
Proof.
  intros Hx. unfold resolve_manip_complete. unfold_calls.
  now rewrite Hx.
Qed.

Lemma drain_no_buffer (h : host) (w : world) :
  cursor_xfer (plug w) = true -> cursor_pbo (plug w) = 0 ->
  resolve_manip_complete h w = None.
Proof.
  intros Hx Hp. unfold resolve_manip_complete. unfold_calls.
  rewrite Hx. simpl. now rewrite Hp.
Qed.

Lemma drain_map_failed (h : host) (w : world) :
  cursor_xfer (plug w) = true -> cursor_pbo (plug w) <> 0 ->
  map_ready h = false ->
  resolve_manip_complete h w =
  Some (tt, Build_world
              (set_cursor_xfer false (plug w))
              (set_gl_pixel_pack_buffer 0 (gl w))
              (calls w ++ [GlBindBuffer (cursor_pbo (plug w)); GlMapBuffer;
                           GlBindBuffer 0])).
Proof.
  intros Hx Hp Hm. apply Z.eqb_neq in Hp.
  unfold resolve_manip_complete. unfold_calls.
  break_world w. subst. simpl. rewrite Hp. simpl. rewrite Hm. simpl.
  flatten_calls. reflexivity.
Qed.

Lemma drain_map_new (h : host) (w : world) :
  cursor_xfer (plug w) = true -> cursor_pbo (plug w) <> 0 ->
  map_ready h = true -> is_new_click (transferred w) w = true ->
  resolve_manip_complete h w =
  Some (tt, Build_world
              (set_cursor_xfer false
                 (set_manip_clicks
                    (manip_clicks (plug w) ++
                     [{| index := transferred w;
                         start_t := clock_resolve h |}])
                    (set_prev_manip_idx (transferred w)
                       (set_manip_idx (transferred w) (plug w)))))
              (set_gl_pixel_pack_buffer 0 (gl w))
              (calls w ++ [GlBindBuffer (cursor_pbo (plug w)); GlMapBuffer;
                           GlUnmapBuffer; GlBindBuffer 0])).
Proof.
  intros Hx Hp Hm Hn. apply Z.eqb_neq in Hp.
  unfold resolve_manip_complete, is_new_click, transferred in *.
  unfold_calls. break_world w. subst. simpl. rewrite Hp. simpl.
  rewrite Hm. simpl. rewrite Hn. simpl. flatten_calls. reflexivity.
Qed.

Lemma drain_map_old (h : host) (w : world) :
  cursor_xfer (plug w) = true -> cursor_pbo (plug w) <> 0 ->
  map_ready h = true -> is_new_click (transferred w) w = false ->
  resolve_manip_complete h w =
  Some (tt, Build_world
              (set_cursor_xfer false (set_manip_idx (transferred w) (plug w)))
              (set_gl_pixel_pack_buffer 0 (gl w))
              (calls w ++ [GlBindBuffer (cursor_pbo (plug w)); GlMapBuffer;
                           GlUnmapBuffer; GlBindBuffer 0])).
Proof.
  intros Hx Hp Hm Hn. apply Z.eqb_neq in Hp.
  unfold resolve_manip_complete, is_new_click, transferred in *.
  unfold_calls. break_world w. subst. simpl. rewrite Hp. simpl.
  rewrite Hm. simpl. rewrite Hn. simpl. flatten_calls. reflexivity.
Qed.

Arguments dr_getvi : simpl never.
Arguments at_ : simpl never.
Arguments mouse_off_screen : simpl never.

(** ** The rules of the weakest precondition *)

Section WpRules.

Context {A B : Type} (Q : Prop).

Lemma wp_ret (a : A) (w : world) (P : A -> world -> Prop) :
  P a w -> wp Q (ret a) w P.
Proof. exact (fun H => H). Qed.

Lemma wp_bind (m : M A) (k : A -> M B) (w : world)
    (P : B -> world -> Prop) :
  wp Q m w (fun a w1 => wp Q (k a) w1 P) -> wp Q (bind m k) w P.
Proof.
  unfold wp, bind. destruct (m w) as [[a w1]|]; auto.
Qed.

Lemma wp_load (f : plugin -> A) (w : world) (P : A -> world -> Prop) :
  P (f (plug w)) w -> wp Q (load f) w P.
Proof. exact (fun H => H). Qed.

Lemma wp_if (c : bool) (m1 m2 : M A) (w : world) (P : A -> world -> Prop) :
  (c = true -> wp Q m1 w P) -> (c = false -> wp Q m2 w P) ->
  wp Q (if c then m1 else m2) w P.
Proof. destruct c; auto. Qed.

Lemma wp_run (m : M A) (w : world) (P : A -> world -> Prop) :
  (forall a w', m w = Some (a, w') -> P a w') -> (m w = None -> Q) ->
  wp Q m w P.
Proof. unfold wp. destruct (m w) as [[a w']|]; auto. Qed.

End WpRules.

Lemma wp_store (Q : Prop) (f : plugin -> plugin) (w : world)
    (P : unit -> world -> Prop) :
  P tt (Build_world (f (plug w)) (gl w) (calls w)) -> wp Q (store f) w P.
Proof. exact (fun H => H). Qed.

Lemma wp_call (Q : Prop) (c : gl_call) (f : gl_state -> gl_state)
    (w : world) (P : unit -> world -> Prop) :
  P tt (Build_world (plug w) (f (gl w)) (calls w ++ [c])) ->
  wp Q (call c f) w P.
Proof. exact (fun H => H). Qed.

Lemma wp_ASSERT (Q : Prop) (c : bool) (w : world)
    (P : unit -> world -> Prop) :
  (c = true -> P tt w) -> (c = false -> Q) -> wp Q (ASSERT c) w P.
Proof. unfold wp, ASSERT. destruct c; auto. Qed.

Lemma wp_returns {A : Type} (m : M A) (w : world) (P : A -> world -> Prop) :
  wp False m w P -> exists a w', m w = Some (a, w') /\ P a w'.
Proof.
  unfold wp. destruct (m w) as [[a w']|]; [eauto | tauto].
Qed.

Lemma wp_post {A : Type} (m : M A) (w : world) (P : A -> world -> Prop)
    (a : A) (w' : world) :
  wp True m w P -> m w = Some (a, w') -> P a w'.
Proof. unfold wp. intros H E. now rewrite E in H. Qed.

(** One statement of the callback at a time.  The drain is not entered:
    its result is named and described by the lemmas above. *)
Ltac head_of t :=
  lazymatch t with
  | ?f _ => head_of f
  | _ => t
  end.

Ltac norm_state :=
  cbv beta iota zeta delta
    [set_manip_clicks set_cursor_xfer set_manip_idx set_last_draw_t
     set_prev_manip_idx set_countup set_todraw
     set_gl_framebuffer set_gl_viewport set_gl_depth_test set_gl_depth_mask
     set_gl_depth_func set_gl_clear_depth set_gl_clear_color set_gl_blend
     set_gl_pixel_pack_buffer set_gl_fb_texel set_gl_buf_data
     set_capability];
  cbn [plug gl calls
       manip_clicks xpver cursor_fbo cursor_pbo cursor_xfer manip_idx
       last_draw_t prev_manip_idx obj indexToPaint countup todraw
       gl_framebuffer gl_viewport gl_depth_test gl_depth_mask gl_depth_func
       gl_clear_depth gl_clear_color gl_blend gl_pixel_pack_buffer
       gl_fb_texel gl_buf_data red green blue alpha].

Ltac wp_step :=
  lazymatch goal with
  | |- wp _ (bind _ _) _ _ => apply wp_bind
  | |- wp _ (ret _) _ _ => apply wp_ret
  | |- wp _ (load _) _ _ => apply wp_load
  | |- wp _ (store _) _ _ => apply wp_store
  | |- wp _ (call _ _) _ _ => apply wp_call
  | |- wp _ (if _ then _ else _) _ _ => apply wp_if; intros ?
  | |- wp _ (ASSERT _) _ _ => apply wp_ASSERT; intros ?
  | |- wp _ (resolve_manip_complete _) _ _ =>
      apply wp_run; [intros [] ? ? | intros ?]
  | |- wp _ ?m _ _ => let hd := head_of m in unfold hd
  end; norm_state.

(** ** What the drain leaves alone *)

Lemma drain_inv (h : host) (w w1 : world) (u : unit) :
  resolve_manip_complete h w = Some (u, w1) ->
  (cursor_xfer (plug w) = false /\ w1 = w) \/
  (cursor_xfer (plug w) = true /\ cursor_pbo (plug w) <> 0 /\
   ((map_ready h = false /\
     w1 = Build_world
            (set_cursor_xfer false (plug w))
            (set_gl_pixel_pack_buffer 0 (gl w))
            (calls w ++ [GlBindBuffer (cursor_pbo (plug w)); GlMapBuffer;
                         GlBindBuffer 0])) \/
    (map_ready h = true /\ is_new_click (transferred w) w = true /\
     w1 = Build_world
            (set_cursor_xfer false
               (set_manip_clicks
                  (manip_clicks (plug w) ++
                   [{| index := transferred w;
                       start_t := clock_resolve h |}])
                  (set_prev_manip_idx (transferred w)
                     (set_manip_idx (transferred w) (plug w)))))
            (set_gl_pixel_pack_buffer 0 (gl w))
            (calls w ++ [GlBindBuffer (cursor_pbo (plug w)); GlMapBuffer;
                         GlUnmapBuffer; GlBindBuffer 0])) \/
    (map_ready h = true /\ is_new_click (transferred w) w = false /\
     w1 = Build_world
            (set_cursor_xfer false (set_manip_idx (transferred w) (plug w)))
            (set_gl_pixel_pack_buffer 0 (gl w))
            (calls w ++ [GlBindBuffer (cursor_pbo (plug w)); GlMapBuffer;
                         GlUnmapBuffer; GlBindBuffer 0])))).
Proof.
  intros Hd.
  destruct (cursor_xfer (plug w)) eqn:Hx.
  - right. split; [reflexivity|].
    destruct (Z.eq_dec (cursor_pbo (plug w)) 0) as [Hp|Hp].
    { rewrite drain_no_buffer in Hd by assumption. discriminate. }
    split; [assumption|].
    destruct (map_ready h) eqn:Hm.
    + destruct (is_new_click (transferred w) w) eqn:Hn.
      * rewrite drain_map_new in Hd by assumption.
        right; left. inversion Hd. auto.
      * rewrite drain_map_old in Hd by assumption.
        right; right. inversion Hd. auto.
    + rewrite drain_map_failed in Hd by assumption.
      left. inversion Hd. auto.
  - rewrite drain_idle in Hd by assumption. left. inversion Hd. auto.
Qed.

Lemma drain_returns (h : host) (w : world) :
  cursor_pbo (plug w) <> 0 ->
  exists w1, resolve_manip_complete h w = Some (tt, w1).
Proof.
  intros Hp.
  destruct (cursor_xfer (plug w)) eqn:Hx.
  - destruct (map_ready h) eqn:Hm.
    + destruct (is_new_click (transferred w) w) eqn:Hn.
      * eexists. now apply drain_map_new.
      * eexists. now apply drain_map_old.
    + eexists. now apply drain_map_failed.
  - eexists. now apply drain_idle.
Qed.

Lemma drain_frame_intro (h : host) (w w1 : world) (u : unit) :
  resolve_manip_complete h w = Some (u, w1) -> drain_frame w w1.
Proof.
  intros Hd. apply drain_inv in Hd.
  destruct Hd as [[Hx ->] | [Hx [Hp [[Hm ->] | [[Hm [Hn ->]] | [Hm [Hn ->]]]]]]].
  - constructor; try reflexivity; try assumption.
    exists []. rewrite app_nil_r. repeat split.
    + intros Hx'. congruence.
    + intros c [].
  - constructor; try reflexivity.
    eexists. split; [reflexivity|]. split; [eauto|].
    simpl. intuition eauto.
  - constructor; try reflexivity.
    eexists. split; [reflexivity|]. split; [eauto|].
    simpl. intuition eauto.
  - constructor; try reflexivity.
    eexists. split; [reflexivity|]. split; [eauto|].
    simpl. intuition eauto.
Qed.

(** ** The pick pass, part by part *)

Lemma is_rev_float_z_eq (h : host) (w : world) :
  is_rev_float_z h w = Some (rev_float_z h w, w).
Proof. reflexivity. Qed.

Lemma render_post (h : host) (mouse_x mouse_y : Z) (w : world) :
  wp True (resolve_manip_render h mouse_x mouse_y) w
    (fun vp w2 =>
       vp = dr_getvi (dr_viewport h) 0 4 /\ length vp = 4%nat /\
       exists w1, resolve_manip_complete h w = Some (tt, w1) /\
                  cursor_fbo (plug w1) <> 0 /\ obj (plug w1) = true /\
                  render_facts h mouse_x mouse_y w1 w2).
Proof.
  unfold resolve_manip_render.
  repeat wp_step; try exact I.
  all: (split; [reflexivity|]); (split; [now apply Nat.eqb_eq|]).
  all: eexists; split; [eassumption|].
  all: (split; [now apply Z.eqb_neq, negb_true_iff|]).
  all: (split; [assumption|]).
  all: constructor; unfold pick_texel, render_calls, rev_float_z;
       cbv zeta; destruct (manip_hit h); norm_state;
       rewrite ?upd_same, ?unorm16_one;
       match goal with
       | H : _ || _ || _ = _ |- _ => rewrite ?H
       end; flatten_calls; reflexivity.
Qed.

Lemma render_returns (h : host) (mouse_x mouse_y : Z) (w : world) :
  (4 <= length (dr_viewport h))%nat ->
  cursor_fbo (plug w) <> 0 -> cursor_pbo (plug w) <> 0 ->
  obj (plug w) = true ->
  exists vp w2, resolve_manip_render h mouse_x mouse_y w = Some (vp, w2).
Proof.
  intros Hv Hf Hp Ho.
  enough (wp False (resolve_manip_render h mouse_x mouse_y) w
            (fun _ _ => True)) as Hwp.
  { apply wp_returns in Hwp. destruct Hwp as (vp & w2 & E & _). eauto. }
  unfold resolve_manip_render.
  wp_step. wp_step.
  - match goal with
    | H : resolve_manip_complete _ _ = Some _ |- _ =>
        pose proof (drain_frame_intro _ _ _ _ H) as F
    end.
    repeat wp_step; try exact I.
    all: rewrite ?(df_obj _ _ F), ?(df_fbo _ _ F) in *; try congruence.
    all: match goal with
         | H : negb (_ =? 0) = false |- _ =>
             apply negb_false_iff, Z.eqb_eq in H; contradiction
         | H : (_ =? 4)%nat = false |- _ =>
             apply Nat.eqb_neq in H; apply H; unfold dr_getvi;
             cbn [skipn]; rewrite length_firstn; lia
         end.
  - destruct (drain_returns h w Hp) as [w1 E]. congruence.
Qed.

Lemma bind_inv {A B : Type} (m : M A) (k : A -> M B) (w w' : world) (b : B) :
  bind m k w = Some (b, w') ->
  exists a w1, m w = Some (a, w1) /\ k a w1 = Some (b, w').
Proof.
  unfold bind. destruct (m w) as [[a w1]|]; [eauto | discriminate].
Qed.

Lemma bind_eq {A B : Type} (m : M A) (k : A -> M B) (w w1 : world) (a : A) :
  m w = Some (a, w1) -> bind m k w = k a w1.
Proof. unfold bind. now intros ->. Qed.

Lemma readback_eq (w : world) :
  resolve_manip_readback w =
  if cursor_pbo (plug w) =? 0 then None else Some (tt, issued w).
Proof.
  unfold resolve_manip_readback, issued. unfold_calls.
  destruct (cursor_pbo (plug w) =? 0); [reflexivity|].
  cbn [negb plug gl calls]. flatten_calls. reflexivity.
Qed.

Lemma restore_eq (h : host) (vp : list Z) (w : world) :
  resolve_manip_restore h vp w =
  Some (tt, Build_world (plug w) (restored_gl h vp w)
              (calls w ++ restore_calls h vp w)).
Proof.
  unfold resolve_manip_restore, restored_gl, restore_calls, rev_float_z.
  unfold_calls. cbn [plug gl calls].
  destruct (_ || _ || _); cbn [plug gl calls]; flatten_calls; reflexivity.
Qed.

(** The pick pass as a whole: the worlds it goes through. *)
Lemma resolve_manip_inv (h : host) (mouse_x mouse_y : Z) (w w' : world)
    (u : unit) :
  resolve_manip h mouse_x mouse_y w = Some (u, w') ->
  exists w1 w2,
    let vp := dr_getvi (dr_viewport h) 0 4 in
    resolve_manip_complete h w = Some (tt, w1) /\
    resolve_manip_render h mouse_x mouse_y w = Some (vp, w2) /\
    length vp = 4%nat /\
    cursor_fbo (plug w1) <> 0 /\ cursor_pbo (plug w1) <> 0 /\
    obj (plug w1) = true /\
    render_facts h mouse_x mouse_y w1 w2 /\
    resolve_manip_readback w2 = Some (tt, issued w2) /\
    resolve_manip_restore h vp (issued w2) = Some (tt, w') /\
    w' = Build_world (plug (issued w2)) (restored_gl h vp (issued w2))
           (calls (issued w2) ++ restore_calls h vp (issued w2)).
Proof.
  unfold resolve_manip. intros Hr.
  apply bind_inv in Hr. destruct Hr as (vp & w2 & Hrender & Hr).
  apply bind_inv in Hr. destruct Hr as ([] & w3 & Hread & Hrestore).
  pose proof (wp_post _ _ _ _ _ (render_post h mouse_x mouse_y w) Hrender)
    as (-> & Hlen & w1 & Hd & Hf & Ho & F).
  rewrite readback_eq in Hread.
  destruct (cursor_pbo (plug w2) =? 0) eqn:Hp; [discriminate|].
  inversion Hread; subst w3; clear Hread.
  exists w1, w2. cbv zeta.
  rewrite readback_eq, Hp.
  rewrite restore_eq in Hrestore |- *.
  inversion Hrestore; subst w'; clear Hrestore.
  apply Z.eqb_neq in Hp. rewrite (rf_plug _ _ _ _ _ F) in Hp.
  repeat match goal with |- _ /\ _ => split end; auto.
Qed.

Lemma resolve_manip_returns (h : host) (mouse_x mouse_y : Z) (w : world) :
  (4 <= length (dr_viewport h))%nat ->
  cursor_fbo (plug w) <> 0 -> cursor_pbo (plug w) <> 0 ->
  obj (plug w) = true ->
  exists w', resolve_manip h mouse_x mouse_y w = Some (tt, w').
Proof.
  intros Hv Hf Hp Ho.
  destruct (render_returns h mouse_x mouse_y w Hv Hf Hp Ho)
    as (vp & w2 & Hrender).
  pose proof (wp_post _ _ _ _ _ (render_post h mouse_x mouse_y w) Hrender)
    as (-> & Hlen & w1 & Hd & _ & _ & F).
  pose proof (drain_frame_intro _ _ _ _ Hd) as D.
  unfold resolve_manip.
  rewrite (bind_eq _ _ _ _ _ Hrender).
  assert ((cursor_pbo (plug w2) =? 0) = false) as Hp2.
  { apply Z.eqb_neq. rewrite (rf_plug _ _ _ _ _ F), (df_pbo _ _ D). exact Hp. }
  erewrite bind_eq by (rewrite readback_eq, Hp2; reflexivity).
  rewrite restore_eq. eauto.
Qed.

(** ** The paint pass and the callback *)

Lemma paint_post (h : host) (w : world) :
  wp True (paint_manip h) w
    (fun _ w' => length (dr_getvi (dr_viewport h) 0 4) = 4%nat /\
                 obj (plug w) = true /\ paint_facts h w w').
Proof.
  unfold paint_manip.
  repeat wp_step; try exact I.
  all: (split; [now apply Nat.eqb_eq|]); (split; [assumption|]).
  all: constructor; unfold paint_calls; norm_state; flatten_calls;
       try reflexivity.
  symmetry. now apply Z.eqb_eq, negb_false_iff.
Qed.

Lemma paint_returns (h : host) (w : world) :
  (4 <= length (dr_viewport h))%nat -> obj (plug w) = true ->
  exists w', paint_manip h w = Some (tt, w').
Proof.
  intros Hv Ho.
  enough (wp False (paint_manip h) w (fun _ _ => True)) as Hwp.
  { apply wp_returns in Hwp. destruct Hwp as ([] & w' & E & _). eauto. }
  unfold paint_manip.
  repeat wp_step; try exact I; try congruence.
  all: match goal with
       | H : (_ =? _)%nat = false |- _ =>
           apply Nat.eqb_neq in H; apply H; unfold dr_getvi; cbn [skipn];
           rewrite length_firstn; lia
       end.
Qed.

Lemma draw_cb_eq (h : host) (w : world) :
  draw_cb h w =
  let vp := dr_getvi (dr_viewport h) 0 4 in
  if negb (length vp =? 4)%nat then None
  else if mouse_off_screen vp (fst (mouse_location h))
                           (snd (mouse_location h))
  then Some (1, w)
  else match resolve_manip h (fst (mouse_location h))
               (snd (mouse_location h)) (reloaded w) with
       | Some (_, wp) =>
           match paint_manip h wp with
           | Some (_, wq) =>
               Some (1, Build_world (plug wq) (gl wq)
                          (calls wq ++ [GlUseProgram 0]))
           | None => None
           end
       | None => None
       end.
Proof.
  unfold draw_cb, reloaded. destruct (mouse_location h) as [mx my].
  cbn [fst snd]. cbv zeta. unfold bind at 1. unfold ASSERT at 1.
  destruct (length _ =? 4)%nat; cbn [negb]; [|reflexivity].
  destruct (mouse_off_screen _ mx my); [reflexivity|].
  unfold bind at 1. unfold shader_obj_reload_check at 1. unfold call at 1.
  cbn [plug gl calls].
  unfold bind at 1. unfold shader_obj_reload_check at 1. unfold call at 1.
  cbn [plug gl calls]. flatten_calls.
  unfold bind at 1.
  destruct (resolve_manip h mx my _) as [[[] wp]|]; [|reflexivity].
  unfold bind at 1.
  destruct (paint_manip h wp) as [[[] wq]|]; reflexivity.
Qed.

Lemma pick_then_paint_facts (h : host) (mouse_x mouse_y : Z)
    (w wp wq : world) :
  resolve_manip h mouse_x mouse_y w = Some (tt, wp) ->
  paint_manip h wp = Some (tt, wq) ->
  exists w1,
    resolve_manip_complete h w = Some (tt, w1) /\
    frame_facts h w1
      (Build_world (plug wq) (gl wq) (calls wq ++ [GlUseProgram 0])).
Proof.
  intros Hpick Hpaint.
  apply resolve_manip_inv in Hpick.
  destruct Hpick as (w1 & w2 & Hd & _ & _ & _ & _ & _ & F & _ & _ & ->).
  pose proof (wp_post _ _ _ _ _ (paint_post h _) Hpaint) as (_ & _ & P).
  destruct F as [Fplug Ffb _ Ftexel _ _ _ Fcalls].
  destruct P as [Pc Pv Pf Pp Px Pm Pr Po _ _ _ _ Pbuf _ Pcalls].
  cbn [plug gl calls issued] in *.
  exists w1. split; [exact Hd|].
  constructor; cbn [plug gl calls].
  - now rewrite Pm, Fplug.
  - now rewrite Pr, Fplug.
  - now rewrite Pc, Fplug.
  - now rewrite Px.
  - now rewrite Pf, Fplug.
  - now rewrite Pp, Fplug.
  - now rewrite Po, Fplug.
  - now rewrite Pv, Fplug.
  - unfold transferred. cbn [plug gl]. rewrite Pbuf, Pp.
    unfold restored_gl. cbv zeta. cbn [plug gl].
    destruct (rev_float_z _ _); unfold issued; simpl;
      rewrite upd_same, Ffb; exact Ftexel.
  - rewrite Pcalls. cbn [calls]. rewrite Fcalls.
    rewrite <- !app_assoc. eexists. split; [reflexivity|].
    unfold paint_calls, render_calls. cbv zeta.
    unfold set_cursor_xfer. cbn [plug indexToPaint]. rewrite Fplug.
    rewrite !in_app_iff. cbn [In].
    repeat split; find_in.
Qed.

Lemma draw_cb_inv (h : host) (w w' : world) (r : Z) :
  draw_cb h w = Some (r, w') ->
  r = 1 /\ length (dr_getvi (dr_viewport h) 0 4) = 4%nat /\
  ((off_screen h = true /\ w' = w) \/
   (off_screen h = false /\
    exists w1, resolve_manip_complete h (reloaded w) = Some (tt, w1) /\
               frame_facts h w1 w')).
Proof.
  rewrite draw_cb_eq. cbv zeta. unfold off_screen, pointer_x, pointer_y.
  destruct (length _ =? 4)%nat eqn:Hl; cbn [negb]; [|discriminate].
  apply Nat.eqb_eq in Hl.
  destruct (mouse_off_screen _ _ _) eqn:Hoff.
  - intros E. inversion E. auto.
  - destruct (resolve_manip h _ _ _) as [[[] wp]|] eqn:Hpick; [|discriminate].
    destruct (paint_manip h wp) as [[[] wq]|] eqn:Hpaint; [|discriminate].
    intros E. inversion E. subst r.
    split; [reflexivity|]. split; [assumption|]. right.
    split; [reflexivity|].
    eapply pick_then_paint_facts; eassumption.
Qed.

Lemma draw_cb_returns (h : host) (w : world) :
  length (dr_viewport h) = 4%nat -> enabled w ->
  exists w', draw_cb h w = Some (1, w').
Proof.
  intros Hl (Hf & Hp & Ho).
  rewrite draw_cb_eq. cbv zeta.
  assert (dr_getvi (dr_viewport h) 0 4 = dr_viewport h) as ->.
  { unfold dr_getvi. cbn [skipn]. rewrite <- Hl. apply firstn_all. }
  rewrite Hl. cbn [Nat.eqb negb].
  destruct (mouse_off_screen _ _ _); [eauto|].
  destruct (resolve_manip_returns h (fst (mouse_location h))
              (snd (mouse_location h)) (reloaded w))
    as [wp Hpick]; auto; [lia|].
  rewrite Hpick.
  pose proof (resolve_manip_inv _ _ _ _ _ _ Hpick)
    as (w1 & w2 & Hd & _ & _ & _ & _ & Ho1 & F & _ & _ & Ewp).
  destruct (paint_returns h wp) as [wq Hpaint]; [lia| |].
  { rewrite Ewp. cbn [plug issued]. norm_state.
    now rewrite (rf_plug _ _ _ _ _ F). }
  rewrite Hpaint. eauto.
Qed.

(** * The claims *)

(** ** C1 *)

(** C1, as stated, fails: with a transfer pending and the map attempt
    failing, the drain of the session [xp_pending] leaves the pending flag
    cleared, not set. *)
Lemma drain_map_failure_clears_pending_flag :
  cursor_xfer (plug xp_pending) = true /\
  map_ready (xp_frame (100, 100) None false 10) = false /\
  exists w',
    resolve_manip_complete (xp_frame (100, 100) None false 10) xp_pending
    = Some (tt, w') /\
    cursor_xfer (plug w') = false.
Proof.
  split; [reflexivity|]. split; [reflexivity|].
  eexists. split; reflexivity.
Qed.

(** C1, amended: in every drain with a transfer pending and a failing map
    attempt, the pending flag is cleared (the protocol is back in Idle),
    the resolved index, the previously recorded index and the click log
    are as before, and the transfer is not retried: a further drain is a
    no-op whatever the driver would answer. *)
Theorem drain_map_failure_abandons_transfer (h : host) (w : world) :
  cursor_xfer (plug w) = true ->
  cursor_pbo (plug w) <> 0 ->
  map_ready h = false ->
  exists w',
    resolve_manip_complete h w = Some (tt, w') /\
    cursor_xfer (plug w') = false /\
    manip_idx (plug w') = manip_idx (plug w) /\
    prev_manip_idx (plug w') = prev_manip_idx (plug w) /\
    manip_clicks (plug w') = manip_clicks (plug w) /\
    forall h', resolve_manip_complete h' w' = Some (tt, w').
Proof.
  intros Hx Hp Hm.
  eexists. split; [now apply drain_map_failed|].
  cbn [plug].
  split; [reflexivity|]. split; [reflexivity|].
  split; [reflexivity|]. split; [reflexivity|].
  intros h'. now apply drain_idle.
Qed.

Lemma drain_map_failure_abandons_transfer_witness :
  exists w',
    resolve_manip_complete (xp_frame (100, 100) None false 10) xp_pending
    = Some (tt, w') /\
    cursor_xfer (plug w') = false /\
    manip_idx (plug w') = manip_idx (plug xp_pending) /\
    prev_manip_idx (plug w') = prev_manip_idx (plug xp_pending) /\
    manip_clicks (plug w') = manip_clicks (plug xp_pending) /\
    forall h', resolve_manip_complete h' w' = Some (tt, w').
Proof.
  apply (drain_map_failure_abandons_transfer
           (xp_frame (100, 100) None false 10) xp_pending).
  - reflexivity.
  - vm_compute. discriminate.
  - reflexivity.
Defined.

(** ** C2 *)

(** C2: whenever a pick pass runs, it first drains, and the drain leaves
    no transfer pending; the flag is still clear in the state in which the
    copy is issued, and set right after.  When a transfer was pending on
    entry, the map attempt of the drain is among the calls made before the
    copy. *)
Theorem pick_pass_issues_with_nothing_pending
    (h : host) (mx my : Z) (w w' : world) :
  resolve_manip h mx my w = Some (tt, w') ->
  exists w1 w2 vp,
    resolve_manip_complete h w = Some (tt, w1) /\
    cursor_xfer (plug w1) = false /\
    resolve_manip_render h mx my w = Some (vp, w2) /\
    cursor_xfer (plug w2) = false /\
    resolve_manip_readback w2 = Some (tt, issued w2) /\
    cursor_xfer (plug (issued w2)) = true /\
    resolve_manip_restore h vp (issued w2) = Some (tt, w') /\
    cursor_xfer (plug w') = true /\
    (cursor_xfer (plug w) = true ->
     exists rest,
       calls w2 = calls w ++ GlBindBuffer (cursor_pbo (plug w))
                             :: GlMapBuffer :: rest).
Proof.
  intros Hpick.
  destruct (resolve_manip_inv _ _ _ _ _ _ Hpick)
    as (w1 & w2 & Hd & Hrender & _ & _ & _ & _ & F & Hread & Hrestore & Ew').
  pose proof (drain_frame_intro _ _ _ _ Hd) as D.
  exists w1, w2, (dr_getvi (dr_viewport h) 0 4).
  repeat match goal with |- _ /\ _ => split end; auto.
  - apply (df_xfer _ _ D).
  - rewrite (rf_plug _ _ _ _ _ F). apply (df_xfer _ _ D).
  - now rewrite Ew'.
  - intros Hx. destruct (df_calls _ _ D) as (dc & Edc & Hpre & _).
    destruct (Hpre Hx) as (dc' & ->).
    rewrite (rf_calls _ _ _ _ _ F), Edc.
    rewrite <- app_assoc. cbn [app]. eauto.
Qed.

Lemma pick_pass_issues_with_nothing_pending_witness :
  exists w',
    resolve_manip (xp_frame (100, 100) (Some 3) true 10) 100 100 xp_pending
    = Some (tt, w') /\
    exists w1 w2 vp,
      resolve_manip_complete (xp_frame (100, 100) (Some 3) true 10)
        xp_pending = Some (tt, w1) /\
      cursor_xfer (plug w1) = false /\
      resolve_manip_render (xp_frame (100, 100) (Some 3) true 10) 100 100
        xp_pending = Some (vp, w2) /\
      cursor_xfer (plug w2) = false /\
      resolve_manip_readback w2 = Some (tt, issued w2) /\
      cursor_xfer (plug (issued w2)) = true /\
      resolve_manip_restore (xp_frame (100, 100) (Some 3) true 10) vp
        (issued w2) = Some (tt, w') /\
      cursor_xfer (plug w') = true /\
      (cursor_xfer (plug xp_pending) = true ->
       exists rest,
         calls w2 = calls xp_pending
                    ++ GlBindBuffer (cursor_pbo (plug xp_pending))
                       :: GlMapBuffer :: rest).
Proof.
  eexists. split.
  - vm_compute. reflexivity.
  - apply (pick_pass_issues_with_nothing_pending
             (xp_frame (100, 100) (Some 3) true 10) 100 100 xp_pending).
    vm_compute. reflexivity.
Defined.

(** ** C3 *)

Lemma is_new_click_true (d : Z) (w : world) :
  is_new_click d w = true <->
  d <> UINT16_MAX /\ d <> prev_manip_idx (plug w).
Proof.
  unfold is_new_click.
  rewrite andb_true_iff, !negb_true_iff, !Z.eqb_neq. tauto.
Qed.

Lemma drain_click_step (h : host) (w w1 : world) (u : unit) :
  resolve_manip_complete h w = Some (u, w1) -> click_step h w w1.
Proof.
  intros Hd. apply drain_inv in Hd.
  destruct Hd as [[Hx ->] | [Hx [Hp [[Hm ->] | [[Hm [Hn ->]] | [Hm [Hn ->]]]]]]].
  - left. auto.
  - left. auto.
  - right. apply is_new_click_true in Hn. simpl. tauto.
  - left. auto.
Qed.

Lemma frame_click_step (h : host) (w w' : world) (r : Z) :
  draw_cb h w = Some (r, w') -> click_step h w w'.
Proof.
  intros Hf. apply draw_cb_inv in Hf.
  destruct Hf as (_ & _ & [[_ ->] | (_ & w1 & Hd & F)]).
  - left. auto.
  - apply drain_click_step in Hd. unfold click_step in *.
    cbn [plug reloaded] in Hd.
    rewrite (ff_manip_idx _ _ _ F), (ff_prev _ _ _ F), (ff_clicks _ _ _ F).
    exact Hd.
Qed.

Lemma no_equal_neighbours_snoc (l : list manip_click) (c : manip_click)
    (i : Z) :
  no_equal_neighbours l -> last_index_is l i -> index c <> i ->
  no_equal_neighbours (l ++ [c]).
Proof.
  intros Hn Hl Hc l1 a b l2 E.
  destruct l2 as [|x l2'] using rev_ind.
  - change (l1 ++ [a; b]) with (l1 ++ [a] ++ [b]) in E.
    rewrite app_assoc in E. apply app_inj_tail in E. destruct E as [E ->].
    rewrite (Hl _ _ E). auto.
  - clear IHl2'.
    change (l1 ++ a :: b :: l2' ++ [x])
      with (l1 ++ (a :: b :: l2') ++ [x]) in E.
    rewrite app_assoc in E. apply app_inj_tail in E. destruct E as [E _].
    exact (Hn _ _ _ _ E).
Qed.

Lemma click_step_dedup_inv (h : host) (w w' : world) :
  click_step h w w' -> dedup_inv w -> dedup_inv w'.
Proof.
  intros [[Ec Ep] | (Hs & Hp & Ep & Ec)] [Hn Hl]; unfold dedup_inv.
  - now rewrite Ec, Ep.
  - rewrite Ec, Ep. split.
    + eapply no_equal_neighbours_snoc; eauto.
    + intros l1 a E. apply app_inj_tail in E. destruct E as [_ <-].
      reflexivity.
Qed.

Lemma empty_log_dedup_inv (w : world) :
  manip_clicks (plug w) = [] -> dedup_inv w.
Proof.
  intros E. unfold dedup_inv. rewrite E. split.
  - intros l1 a b l2 E'. destruct l1; discriminate.
  - intros l1 a E'. destruct l1; discriminate.
Qed.

Lemma run_frames_dedup_inv (hs : list host) (w w' : world) :
  run_frames hs w = Some w' -> dedup_inv w -> dedup_inv w'.
Proof.
  revert w. induction hs as [|h hs IH]; intros w Hrun Hinv.
  - inversion Hrun. now subst.
  - cbn [run_frames] in Hrun.
    destruct (draw_cb h w) as [[r w1]|] eqn:Hf; [|discriminate].
    apply (IH w1 Hrun).
    eapply click_step_dedup_inv; [|exact Hinv].
    eapply frame_click_step; eassumption.
Qed.

(** C3: run any number of frames from an empty log, then one more.  That
    frame leaves the log alone or appends one entry, and it appends only
    the index it has just resolved, only when that is not the sentinel and
    differs from the index recorded before; and the log, before and after,
    has no two neighbours with the same index. *)
Theorem click_log_has_no_equal_neighbours
    (hs : list host) (h : host) (w w' w'' : world) (r : Z) :
  manip_clicks (plug w) = [] ->
  run_frames hs w = Some w' ->
  draw_cb h w' = Some (r, w'') ->
  (manip_clicks (plug w'') = manip_clicks (plug w') \/
   (manip_idx (plug w'') <> UINT16_MAX /\
    manip_idx (plug w'') <> prev_manip_idx (plug w') /\
    manip_clicks (plug w'') =
    manip_clicks (plug w') ++ [{| index := manip_idx (plug w'');
                                  start_t := clock_resolve h |}])) /\
  no_equal_neighbours (manip_clicks (plug w')) /\
  no_equal_neighbours (manip_clicks (plug w'')).
Proof.
  intros Hempty Hrun Hf.
  pose proof (run_frames_dedup_inv _ _ _ Hrun (empty_log_dedup_inv _ Hempty))
    as Hinv.
  pose proof (frame_click_step _ _ _ _ Hf) as Hstep.
  pose proof (click_step_dedup_inv _ _ _ Hstep Hinv) as Hinv'.
  split; [|split; [apply Hinv | apply Hinv']].
  destruct Hstep as [[Ec _] | (Hs & Hp & _ & Ec)]; [left | right]; auto.
Qed.

Lemma click_log_has_no_equal_neighbours_witness :
  exists w' w'',
    run_frames [xp_frame (100, 100) (Some 3) true 10;
                xp_frame (100, 100) (Some 7) true 20] xp_world = Some w' /\
    draw_cb (xp_frame (100, 100) (Some 7) true 30) w' = Some (1, w'') /\
    manip_clicks (plug w'') =
    [{| index := 3; start_t := 20 |}; {| index := 7; start_t := 30 |}] /\
    no_equal_neighbours (manip_clicks (plug w'')).
Proof.
  eexists. eexists.
  split; [vm_compute; reflexivity|].
  split; [vm_compute; reflexivity|].
  split; [vm_compute; reflexivity|].
  eapply (click_log_has_no_equal_neighbours
            [xp_frame (100, 100) (Some 3) true 10;
             xp_frame (100, 100) (Some 7) true 20]
            (xp_frame (100, 100) (Some 7) true 30) xp_world _ _ 1).
  - reflexivity.
  - vm_compute. reflexivity.
  - vm_compute. reflexivity.
Defined.

(** ** C9 *)

Lemma drain_map_failed_manip_idx (h : host) (w w1 : world) (u : unit) :
  map_ready h = false ->
  resolve_manip_complete h w = Some (u, w1) ->
  manip_idx (plug w1) = manip_idx (plug w).
Proof.
  intros Hm Hd. apply drain_inv in Hd.
  destruct Hd as [[Hx ->] | [Hx [Hp [[_ ->] | [[Hm' _] | [Hm' _]]]]]];
    try reflexivity; congruence.
Qed.

Lemma frame_map_failed_manip_idx (h : host) (w w' : world) (r : Z) :
  map_ready h = false ->
  draw_cb h w = Some (r, w') ->
  manip_idx (plug w') = manip_idx (plug w).
Proof.
  intros Hm Hf. apply draw_cb_inv in Hf.
  destruct Hf as (_ & _ & [[_ ->] | (_ & w1 & Hd & F)]); [reflexivity|].
  rewrite (ff_manip_idx _ _ _ F).
  exact (drain_map_failed_manip_idx _ _ _ _ Hm Hd).
Qed.

Lemma run_frames_map_failed_manip_idx (hs : list host) (w w' : world) :
  Forall (fun h => map_ready h = false) hs ->
  run_frames hs w = Some w' ->
  manip_idx (plug w') = manip_idx (plug w).
Proof.
  intros Hall. revert w. induction Hall as [|h hs Hm _ IH]; intros w Hrun.
  - inversion Hrun. reflexivity.
  - cbn [run_frames] in Hrun.
    destruct (draw_cb h w) as [[r w1]|] eqn:Hf; [|discriminate].
    rewrite (IH _ Hrun). eapply frame_map_failed_manip_idx; eassumption.
Qed.

(** C9: a drain whose map attempt fails leaves [manip_idx] as it was, and
    so does any number of frames in each of which the map attempt fails:
    after them, and after one more failing drain, [manip_idx] is still the
    index read last. *)
Theorem failed_map_keeps_manip_idx
    (hs : list host) (h : host) (w w' w1 : world) :
  Forall (fun h => map_ready h = false) hs ->
  run_frames hs w = Some w' ->
  map_ready h = false ->
  resolve_manip_complete h w' = Some (tt, w1) ->
  manip_idx (plug w') = manip_idx (plug w) /\
  manip_idx (plug w1) = manip_idx (plug w').
Proof.
  intros Hall Hrun Hm Hd. split.
  - exact (run_frames_map_failed_manip_idx _ _ _ Hall Hrun).
  - exact (drain_map_failed_manip_idx _ _ _ _ Hm Hd).
Qed.

Lemma failed_map_keeps_manip_idx_witness :
  exists w' w1,
    run_frames [xp_frame (100, 100) (Some 7) false 10;
                xp_frame (120, 100) (Some 8) false 20;
                xp_frame (140, 100) None false 30] xp_read_3 = Some w' /\
    resolve_manip_complete (xp_frame (160, 100) None false 40) w'
    = Some (tt, w1) /\
    manip_idx (plug w') = 3 /\
    manip_idx (plug w1) = 3.
Proof.
  eexists. eexists.
  split; [vm_compute; reflexivity|].
  split; [vm_compute; reflexivity|].
  pose proof (failed_map_keeps_manip_idx
                [xp_frame (100, 100) (Some 7) false 10;
                 xp_frame (120, 100) (Some 8) false 20;
                 xp_frame (140, 100) None false 30]
                (xp_frame (160, 100) None false 40) xp_read_3 _ _
                ltac:(repeat constructor)
                ltac:(vm_compute; reflexivity)
                ltac:(reflexivity)
                ltac:(vm_compute; reflexivity)) as [E1 E2].
  split; [exact E1 | rewrite E2; exact E1].
Defined.

(** ** Frames with the pointer on the screen *)

Lemma frame_on_screen (h : host) (w : world) :
  on_screen_frame h -> enabled w ->
  exists w1 w',
    resolve_manip_complete h (reloaded w) = Some (tt, w1) /\
    draw_cb h w = Some (1, w') /\
    frame_facts h w1 w' /\ enabled w'.
Proof.
  intros [Hl Hon] Hen.
  destruct (draw_cb_returns h w Hl Hen) as [w' Hf].
  destruct (draw_cb_inv _ _ _ _ Hf) as (_ & _ & [[Hoff _] | (_ & w1 & Hd & F)]).
  { congruence. }
  exists w1, w'. unfold enabled.
  repeat match goal with |- _ /\ _ => split end; auto.
  - rewrite (ff_fbo _ _ _ F).
    rewrite (df_fbo _ _ (drain_frame_intro _ _ _ _ Hd)). apply Hen.
  - rewrite (ff_pbo _ _ _ F).
    rewrite (df_pbo _ _ (drain_frame_intro _ _ _ _ Hd)). apply Hen.
  - rewrite (ff_obj _ _ _ F).
    rewrite (df_obj _ _ (drain_frame_intro _ _ _ _ Hd)). apply Hen.
Qed.

(** A frame that finds no transfer pending only issues one. *)
Lemma frame_idle (h : host) (w : world) :
  on_screen_frame h -> enabled w -> cursor_xfer (plug w) = false ->
  exists w',
    draw_cb h w = Some (1, w') /\ enabled w' /\
    cursor_xfer (plug w') = true /\ transferred w' = pick_texel h /\
    manip_idx (plug w') = manip_idx (plug w) /\
    prev_manip_idx (plug w') = prev_manip_idx (plug w) /\
    manip_clicks (plug w') = manip_clicks (plug w).
Proof.
  intros Hon Hen Hx.
  destruct (frame_on_screen h w Hon Hen) as (w1 & w' & Hd & Hf & F & Hen').
  rewrite drain_idle in Hd by exact Hx. inversion Hd; subst w1.
  exists w'. destruct F. cbn [plug reloaded] in *. auto 10.
Qed.

(** A frame that finds a transfer pending and gets the mapping resolves
    the transferred index. *)
Lemma frame_resolves (h : host) (w : world) :
  on_screen_frame h -> enabled w -> cursor_xfer (plug w) = true ->
  map_ready h = true ->
  exists w',
    draw_cb h w = Some (1, w') /\ enabled w' /\
    cursor_xfer (plug w') = true /\ transferred w' = pick_texel h /\
    manip_idx (plug w') = transferred w /\
    (is_new_click (transferred w) w = true ->
     prev_manip_idx (plug w') = transferred w /\
     manip_clicks (plug w') =
     manip_clicks (plug w) ++ [{| index := transferred w;
                                  start_t := clock_resolve h |}]) /\
    (is_new_click (transferred w) w = false ->
     prev_manip_idx (plug w') = prev_manip_idx (plug w) /\
     manip_clicks (plug w') = manip_clicks (plug w)).
Proof.
  intros Hon Hen Hx Hm.
  destruct (frame_on_screen h w Hon Hen) as (w1 & w' & Hd & Hf & F & Hen').
  exists w'. destruct F as [Fm Fp Fc Fx _ _ _ _ Ft _].
  destruct Hen as (_ & Hp & _).
  change (transferred w) with (transferred (reloaded w)).
  change (is_new_click (transferred (reloaded w)) w)
    with (is_new_click (transferred (reloaded w)) (reloaded w)).
  change (manip_clicks (plug w)) with (manip_clicks (plug (reloaded w))).
  change (prev_manip_idx (plug w))
    with (prev_manip_idx (plug (reloaded w))).
  destruct (is_new_click (transferred (reloaded w)) (reloaded w)) eqn:Hn.
  - rewrite drain_map_new in Hd by assumption.
    inversion Hd; subst w1. rewrite Fm, Fp, Fc.
    repeat match goal with |- _ /\ _ => split end; auto; discriminate.
  - rewrite drain_map_old in Hd by assumption.
    inversion Hd; subst w1. rewrite Fm, Fp, Fc.
    repeat match goal with |- _ /\ _ => split end; auto; discriminate.
Qed.

(** ** C4 *)

(** C4, as stated, fails: four frames of the session [xp_world], drawing
    index 3, nothing, index 3 and nothing, resolve 3, the sentinel and 3
    again, and the log holds one entry for index 3, not two. *)
Lemma revisit_after_sentinel_logs_one_click :
  exists w1 w2 w3 w4,
    draw_cb (xp_frame (100, 100) (Some 3) true 10) xp_world = Some (1, w1) /\
    draw_cb (xp_frame (100, 100) None true 20) w1 = Some (1, w2) /\
    manip_idx (plug w2) = 3 /\
    draw_cb (xp_frame (100, 100) (Some 3) true 30) w2 = Some (1, w3) /\
    manip_idx (plug w3) = UINT16_MAX /\
    draw_cb (xp_frame (100, 100) None true 40) w3 = Some (1, w4) /\
    manip_idx (plug w4) = 3 /\
    manip_clicks (plug w4) = [{| index := 3; start_t := 20 |}].
Proof.
  do 4 eexists.
  split; [vm_compute; reflexivity|].
  split; [vm_compute; reflexivity|].
  split; [vm_compute; reflexivity|].
  split; [vm_compute; reflexivity|].
  split; [vm_compute; reflexivity|].
  split; [vm_compute; reflexivity|].
  split; vm_compute; reflexivity.
Qed.

(** C4, amended: when one frame's readback resolves an index that is
    neither the sentinel nor the index recorded before, the next frame's
    readback resolves the sentinel and the following frame's readback
    resolves the first index again, exactly one ClickEvent is appended, at
    the first occurrence: the sentinel does not reset the recorded index,
    so the second occurrence is no new entry. *)
Theorem revisit_after_sentinel_appends_one_click
    (h1 h2 h3 h4 : host) (w : world) (k : Z) :
  enabled w -> cursor_xfer (plug w) = false ->
  on_screen_frame h1 -> on_screen_frame h2 ->
  on_screen_frame h3 -> on_screen_frame h4 ->
  manip_hit h1 = Some k -> manip_hit h2 = None -> manip_hit h3 = Some k ->
  map_ready h2 = true -> map_ready h3 = true -> map_ready h4 = true ->
  k <> UINT16_MAX -> k <> prev_manip_idx (plug w) ->
  exists w1 w2 w3 w4,
    draw_cb h1 w = Some (1, w1) /\
    draw_cb h2 w1 = Some (1, w2) /\ manip_idx (plug w2) = k /\
    draw_cb h3 w2 = Some (1, w3) /\ manip_idx (plug w3) = UINT16_MAX /\
    draw_cb h4 w3 = Some (1, w4) /\ manip_idx (plug w4) = k /\
    manip_clicks (plug w4) =
    manip_clicks (plug w) ++ [{| index := k; start_t := clock_resolve h2 |}].
Proof.
  intros Hen Hx S1 S2 S3 S4 Hit1 Hit2 Hit3 M2 M3 M4 Hk Hprev.
  destruct (frame_idle h1 w S1 Hen Hx)
    as (w1 & F1 & En1 & X1 & T1 & _ & P1 & C1).
  destruct (frame_resolves h2 w1 S2 En1 X1 M2)
    as (w2 & F2 & En2 & X2 & T2 & I2 & New2 & _).
  unfold pick_texel in T1, T2. rewrite Hit1 in T1. rewrite Hit2 in T2.
  rewrite T1 in *.
  destruct New2 as [P2 C2].
  { apply is_new_click_true. rewrite P1. auto. }
  destruct (frame_resolves h3 w2 S3 En2 X2 M3)
    as (w3 & F3 & En3 & X3 & T3 & I3 & _ & Old3).
  unfold pick_texel in T3. rewrite Hit3 in T3. rewrite T2 in *.
  destruct Old3 as [P3 C3].
  { unfold is_new_click. now rewrite Z.eqb_refl. }
  destruct (frame_resolves h4 w3 S4 En3 X3 M4)
    as (w4 & F4 & En4 & X4 & T4 & I4 & _ & Old4).
  rewrite T3 in *.
  destruct Old4 as [P4 C4].
  { unfold is_new_click. rewrite P3, P2, Z.eqb_refl.
    now rewrite andb_false_r. }
  exists w1, w2, w3, w4.
  repeat match goal with |- _ /\ _ => split end; auto.
  now rewrite C4, C3, C2, C1.
Qed.

Lemma revisit_after_sentinel_appends_one_click_witness :
  exists w1 w2 w3 w4,
    draw_cb (xp_frame (100, 100) (Some 3) true 10) xp_world = Some (1, w1) /\
    draw_cb (xp_frame (100, 100) None true 20) w1 = Some (1, w2) /\
    manip_idx (plug w2) = 3 /\
    draw_cb (xp_frame (100, 100) (Some 3) true 30) w2 = Some (1, w3) /\
    manip_idx (plug w3) = UINT16_MAX /\
    draw_cb (xp_frame (100, 100) None true 40) w3 = Some (1, w4) /\
    manip_idx (plug w4) = 3 /\
    manip_clicks (plug w4) =
    manip_clicks (plug xp_world) ++ [{| index := 3; start_t := 20 |}].
Proof.
  apply (revisit_after_sentinel_appends_one_click
           (xp_frame (100, 100) (Some 3) true 10)
           (xp_frame (100, 100) None true 20)
           (xp_frame (100, 100) (Some 3) true 30)
           (xp_frame (100, 100) None true 40) xp_world 3).
  - vm_compute. repeat split; discriminate.
  - reflexivity.
  - split; reflexivity.
  - split; reflexivity.
  - split; reflexivity.
  - split; reflexivity.
  - reflexivity.
  - reflexivity.
  - reflexivity.
  - reflexivity.
  - reflexivity.
  - reflexivity.
  - vm_compute. discriminate.
  - vm_compute. discriminate.
Defined.

(** ** C5 *)

(** The pick pass from the state its drain left to its end. *)
Lemma resolve_manip_end (h : host) (mx my : Z) (w w' : world) :
  resolve_manip h mx my w = Some (tt, w') ->
  exists w1,
    resolve_manip_complete h w = Some (tt, w1) /\
    cursor_fbo (plug w1) <> 0 /\ cursor_pbo (plug w1) <> 0 /\
    plug w' = set_cursor_xfer true (plug w1) /\
    gl_fb_texel (gl w') (cursor_fbo (plug w1)) = pick_texel h /\
    transferred w' = pick_texel h /\
    calls w' =
    calls w1 ++ render_calls h mx my w1
    ++ [GlBindBuffer (cursor_pbo (plug w1)); GlReadPixels; GlBindBuffer 0]
    ++ restore_calls h (dr_getvi (dr_viewport h) 0 4) w1.
Proof.
  intros Hpick.
  destruct (resolve_manip_inv _ _ _ _ _ _ Hpick)
    as (w1 & w2 & Hd & _ & _ & Hf & Hp & _ & F & _ & _ & ->).
  destruct F as [Fplug Ffb _ Ftexel _ _ _ Fcalls].
  exists w1.
  repeat match goal with |- _ /\ _ => split end; auto.
  - cbn [plug issued]. now rewrite Fplug.
  - cbn [gl]. unfold restored_gl. cbv zeta.
    destruct (rev_float_z _ _); unfold issued; simpl; exact Ftexel.
  - unfold transferred. cbn [gl plug]. unfold restored_gl. cbv zeta.
    destruct (rev_float_z _ _); unfold issued; simpl;
      rewrite upd_same, Ffb; exact Ftexel.
  - cbn [calls issued]. rewrite Fcalls, <- !app_assoc, Fplug.
    unfold restore_calls.
    change (rev_float_z h (issued w2)) with (rev_float_z h w2).
    unfold rev_float_z. rewrite Fplug. reflexivity.
Qed.

(** C5: every pick pass clears with the colour (1,0,0,1) while the cursor
    framebuffer is bound and before the manipulator geometry is drawn; the
    red component 1 is the texel 0xFFFF, the largest 16-bit value and the
    sentinel.  When no manipulator covers the texel, the texel and the
    transfer buffer hold the sentinel at the end of the pass, and the next
    successful drain resolves it. *)
Theorem pick_pass_clears_to_sentinel (h : host) (mx my : Z) (w : world) :
  (4 <= length (dr_viewport h))%nat ->
  enabled w ->
  exists w1 w',
    resolve_manip_complete h w = Some (tt, w1) /\
    resolve_manip h mx my w = Some (tt, w') /\
    (exists setup rest,
        calls w' =
        calls w1 ++ GlBindFramebuffer (cursor_fbo (plug w)) :: setup
        ++ GlClearColor 1 0 0 1 :: GlClear :: rest /\
        (forall c, In c setup ->
                   (forall f, c <> GlBindFramebuffer f) /\
                   (forall s, c <> Obj8DrawGroup s)) /\
        In (Obj8DrawGroup resolve_shader) rest) /\
    unorm16 1 = UINT16_MAX /\
    UINT16_MAX = 2 ^ 16 - 1 /\
    (manip_hit h = None ->
     gl_fb_texel (gl w') (cursor_fbo (plug w)) = UINT16_MAX /\
     transferred w' = UINT16_MAX /\
     forall h', map_ready h' = true ->
       exists w'', resolve_manip_complete h' w' = Some (tt, w'') /\
                   manip_idx (plug w'') = UINT16_MAX).
Proof.
  intros Hv (Hf & Hp & Ho).
  destruct (resolve_manip_returns h mx my w Hv Hf Hp Ho) as [w' Hpick].
  destruct (resolve_manip_end _ _ _ _ _ Hpick)
    as (w1 & Hd & Hf1 & Hp1 & Eplug & Etexel & Etrans & Ecalls).
  pose proof (drain_frame_intro _ _ _ _ Hd) as D.
  exists w1, w'.
  split; [exact Hd|]. split; [exact Hpick|].
  split; [|split; [reflexivity|split; [reflexivity|]]].
  - rewrite Ecalls. unfold render_calls. cbv zeta.
    rewrite (df_fbo _ _ D).
    destruct (rev_float_z h w1); cbn [app].
    + eexists [_; _; _; _; _]. eexists. split; [reflexivity|]. split.
      * intros c Hc. cbn [In] in Hc.
        repeat (destruct Hc as [<- | Hc]; [split; discriminate|]).
        destruct Hc.
      * cbn [In]. find_in.
    + eexists [_; _; _]. eexists. split; [reflexivity|]. split.
      * intros c Hc. cbn [In] in Hc.
        repeat (destruct Hc as [<- | Hc]; [split; discriminate|]).
        destruct Hc.
      * cbn [In]. find_in.
  - intros Hhit. unfold pick_texel in *. rewrite Hhit in *.
    rewrite <- (df_fbo _ _ D).
    split; [exact Etexel|]. split; [exact Etrans|].
    intros h' Hm.
    assert (cursor_xfer (plug w') = true) as Hx by now rewrite Eplug.
    assert (cursor_pbo (plug w') <> 0) as Hp' by now rewrite Eplug.
    eexists. split.
    + apply drain_map_old; auto.
      unfold is_new_click. now rewrite Etrans, Z.eqb_refl.
    + cbn [plug]. simpl. exact Etrans.
Qed.

Lemma pick_pass_clears_to_sentinel_witness :
  exists w1 w',
    resolve_manip_complete (xp_frame (100, 100) None true 10) xp_pending
    = Some (tt, w1) /\
    resolve_manip (xp_frame (100, 100) None true 10) 100 100 xp_pending
    = Some (tt, w') /\
    (exists setup rest,
        calls w' =
        calls w1 ++ GlBindFramebuffer (cursor_fbo (plug xp_pending)) :: setup
        ++ GlClearColor 1 0 0 1 :: GlClear :: rest /\
        (forall c, In c setup ->
                   (forall f, c <> GlBindFramebuffer f) /\
                   (forall s, c <> Obj8DrawGroup s)) /\
        In (Obj8DrawGroup resolve_shader) rest) /\
    unorm16 1 = UINT16_MAX /\
    UINT16_MAX = 2 ^ 16 - 1 /\
    (manip_hit (xp_frame (100, 100) None true 10) = None ->
     gl_fb_texel (gl w') (cursor_fbo (plug xp_pending)) = UINT16_MAX /\
     transferred w' = UINT16_MAX /\
     forall h', map_ready h' = true ->
       exists w'', resolve_manip_complete h' w' = Some (tt, w'') /\
                   manip_idx (plug w'') = UINT16_MAX).
Proof.
  apply (pick_pass_clears_to_sentinel
           (xp_frame (100, 100) None true 10) 100 100 xp_pending).
  - cbn. lia.
  - vm_compute. repeat split; discriminate.
Defined.

(** ** C6 *)

Lemma Qfloor_shift (n : Z) (q : Q) :
  Qfloor (inject_Z n + q) = n + Qfloor q.
Proof.
  destruct q as [a b]. unfold Qfloor, Qplus, inject_Z. cbn [Qnum Qden].
  rewrite Z.mul_1_r, Pos.mul_1_l. apply Z.div_add_l. discriminate.
Qed.

Lemma pixel_of_offset (vx vy vw vh mx my : Z) (xd yd : Q) :
  pixel_of (Build_rect (vx - mx) (vy - my) vw vh) xd yd =
  (fst (pixel_of (Build_rect vx vy vw vh) xd yd) - mx,
   snd (pixel_of (Build_rect vx vy vw vh) xd yd) - my).
Proof.
  unfold pixel_of, window_coord. cbn [rect_x rect_y rect_w rect_h fst snd].
  rewrite !Qfloor_shift. f_equal; lia.
Qed.

(** A point one eighth of the way across and five twelfths of the way up
    a window of 800x600 is drawn to the pixel (100, 250), and to the pixel
    (0, 0) once the viewport is moved by the pointer at (100, 250). *)
Example pixel_under_pointer :
  pixel_of (Build_rect 0 0 800 600) (- 3 # 4) (- 1 # 6) = (100, 250) /\
  pixel_of (Build_rect (0 - 100) (0 - 250) 800 600) (- 3 # 4) (- 1 # 6)
  = (0, 0).
Proof. split; reflexivity. Qed.

Lemma dr_getvi_4 (vx vy vw vh : Z) :
  dr_getvi [vx; vy; vw; vh] 0 4 = [vx; vy; vw; vh].
Proof. reflexivity. Qed.

(** C6: with the host viewport (vx, vy, vw, vh) and the pointer at
    (mx, my), the pick pass binds the cursor framebuffer and sets the
    viewport to (vx - mx, vy - my, vw, vh); this is the viewport in force
    when the copy is issued.  Under it a point falls on the pixel (0,0)
    exactly when under the host viewport it falls on the pixel of the
    pointer. *)
Theorem pick_pass_viewport_offset
    (h : host) (w : world) (mx my vx vy vw vh : Z) :
  dr_viewport h = [vx; vy; vw; vh] ->
  enabled w ->
  is_int (vx - mx) -> is_int (vy - my) ->
  exists w2,
    resolve_manip_render h mx my w = Some ([vx; vy; vw; vh], w2) /\
    gl_framebuffer (gl w2) = cursor_fbo (plug w) /\
    gl_viewport (gl w2) = Build_rect (vx - mx) (vy - my) vw vh /\
    In (GlViewport (vx - mx) (vy - my) vw vh) (calls w2) /\
    gl_viewport (gl (issued w2)) = Build_rect (vx - mx) (vy - my) vw vh /\
    forall xd yd,
      pixel_of (gl_viewport (gl w2)) xd yd = (0, 0) <->
      pixel_of (Build_rect vx vy vw vh) xd yd = (mx, my).
Proof.
  intros Hvp (Hf & Hp & Ho) Hix Hiy.
  destruct (render_returns h mx my w) as (vp & w2 & Hrender); auto.
  { rewrite Hvp. cbn. lia. }
  pose proof (wp_post _ _ _ _ _ (render_post h mx my w) Hrender)
    as (-> & _ & w1 & Hd & _ & _ & F).
  pose proof (drain_frame_intro _ _ _ _ Hd) as D.
  destruct F as [_ Ffb Fvp _ _ _ _ Fcalls].
  cbv zeta in Fvp. rewrite Hvp, dr_getvi_4 in *.
  change (at_ [vx; vy; vw; vh] 0) with vx in *.
  change (at_ [vx; vy; vw; vh] 1) with vy in *.
  change (at_ [vx; vy; vw; vh] 2) with vw in *.
  change (at_ [vx; vy; vw; vh] 3) with vh in *.
  unfold int_sub in Fvp. rewrite !int_wrap_id in Fvp by assumption.
  exists w2.
  split; [exact Hrender|].
  split; [now rewrite Ffb, (df_fbo _ _ D)|].
  split; [exact Fvp|].
  split.
  { rewrite Fcalls. apply in_or_app. right.
    unfold render_calls. cbv zeta. rewrite Hvp, dr_getvi_4.
    change (at_ [vx; vy; vw; vh] 0) with vx.
    change (at_ [vx; vy; vw; vh] 1) with vy.
    change (at_ [vx; vy; vw; vh] 2) with vw.
    change (at_ [vx; vy; vw; vh] 3) with vh.
    unfold int_sub. rewrite !int_wrap_id by assumption.
    cbn [app In]. auto. }
  split; [exact Fvp|].
  intros xd yd. rewrite Fvp, pixel_of_offset.
  destruct (pixel_of (Build_rect vx vy vw vh) xd yd) as [px py].
  cbn [fst snd]. split; intros E; inversion E; f_equal; lia.
Qed.

Lemma pick_pass_viewport_offset_witness :
  exists w2,
    resolve_manip_render (xp_frame (100, 250) (Some 3) true 10) 100 250
      xp_world = Some ([0; 0; 800; 600], w2) /\
    gl_framebuffer (gl w2) = cursor_fbo (plug xp_world) /\
    gl_viewport (gl w2) = Build_rect (0 - 100) (0 - 250) 800 600 /\
    In (GlViewport (0 - 100) (0 - 250) 800 600) (calls w2) /\
    gl_viewport (gl (issued w2)) = Build_rect (0 - 100) (0 - 250) 800 600 /\
    forall xd yd,
      pixel_of (gl_viewport (gl w2)) xd yd = (0, 0) <->
      pixel_of (Build_rect 0 0 800 600) xd yd = (100, 250).
Proof.
  apply (pick_pass_viewport_offset
           (xp_frame (100, 250) (Some 3) true 10) xp_world
           100 250 0 0 800 600).
  - reflexivity.
  - vm_compute. repeat split; discriminate.
  - unfold is_int. lia.
  - unfold is_int. lia.
Defined.

(** ** C7 and C10 *)

(** The test of lines 404-405 on a four-entry viewport whose far edges
    are representable. *)
Lemma off_screen_eq (h : host) (mx my vx vy vw vh : Z) :
  dr_viewport h = [vx; vy; vw; vh] ->
  mouse_location h = (mx, my) ->
  is_int (vx + vw) -> is_int (vy + vh) ->
  off_screen h =
  (mx <? vx) || (mx >? vx + vw) || (my <? vy) || (my >? vy + vh).
Proof.
  intros Hvp Hm Hx Hy.
  unfold off_screen, pointer_x, pointer_y, mouse_off_screen.
  rewrite Hvp, Hm, dr_getvi_4. cbn [fst snd].
  change (at_ [vx; vy; vw; vh] 0) with vx.
  change (at_ [vx; vy; vw; vh] 1) with vy.
  change (at_ [vx; vy; vw; vh] 2) with vw.
  change (at_ [vx; vy; vw; vh] 3) with vh.
  unfold int_add. now rewrite !int_wrap_id by assumption.
Qed.

(** Off the screen the callback returns at once: the world, the log of
    calls included, is as before. *)
Lemma draw_cb_off_screen (h : host) (w : world) :
  length (dr_viewport h) = 4%nat -> off_screen h = true ->
  draw_cb h w = Some (1, w).
Proof.
  intros Hl Hoff. rewrite draw_cb_eq. cbv zeta.
  unfold off_screen, pointer_x, pointer_y in Hoff. rewrite Hoff.
  assert (dr_getvi (dr_viewport h) 0 4 = dr_viewport h) as ->.
  { unfold dr_getvi. cbn [skipn]. rewrite <- Hl. apply firstn_all. }
  now rewrite Hl.
Qed.

(** On the screen both passes run, the pick pass first. *)
Lemma draw_cb_on_screen (h : host) (w : world) :
  on_screen_frame h -> enabled w ->
  exists wp wq,
    resolve_manip h (pointer_x h) (pointer_y h) (reloaded w)
    = Some (tt, wp) /\
    paint_manip h wp = Some (tt, wq) /\
    draw_cb h w =
    Some (1, Build_world (plug wq) (gl wq) (calls wq ++ [GlUseProgram 0])) /\
    In GlReadPixels (calls wp) /\
    In (Obj8DrawGroupByCmdidx (indexToPaint (plug w)) paint_shader)
       (calls wq).
Proof.
  intros [Hl Hon] Hen.
  destruct (draw_cb_returns h w Hl Hen) as [w' Hf].
  pose proof Hf as Hf'.
  rewrite draw_cb_eq in Hf. cbv zeta in Hf.
  unfold off_screen, pointer_x, pointer_y in *. rewrite Hon in Hf.
  destruct (negb _); [discriminate|].
  destruct (resolve_manip h _ _ _) as [[[] wp]|] eqn:Hpick; [|discriminate].
  destruct (paint_manip h wp) as [[[] wq]|] eqn:Hpaint; [|discriminate].
  exists wp, wq.
  split; [reflexivity|]. split; [exact Hpaint|]. split; [congruence|].
  destruct (resolve_manip_end _ _ _ _ _ Hpick)
    as (w1 & Hd & _ & _ & Eplug & _ & _ & Ecalls).
  pose proof (wp_post _ _ _ _ _ (paint_post h wp) Hpaint) as (_ & _ & P).
  split.
  - rewrite Ecalls, !in_app_iff. cbn [In]. right; right; left. auto.
  - rewrite (pf_calls _ _ _ P), in_app_iff. right.
    unfold paint_calls. cbv zeta. rewrite Eplug.
    unfold set_cursor_xfer. cbn [indexToPaint].
    rewrite (df_paint _ _ (drain_frame_intro _ _ _ _ Hd)).
    cbn [In plug reloaded]. find_in.
Qed.

(** C7: with the pointer outside the viewport rectangle the callback
    returns 1 and leaves the world untouched, so that neither pass issues
    a call; with the pointer inside, the pick pass runs to its end and
    issues its copy, and the paint pass follows. *)
Theorem draw_cb_skips_off_screen_pointer
    (h : host) (w : world) (mx my vx vy vw vh : Z) :
  dr_viewport h = [vx; vy; vw; vh] ->
  mouse_location h = (mx, my) ->
  is_int (vx + vw) -> is_int (vy + vh) ->
  (mx < vx \/ vx + vw < mx \/ my < vy \/ vy + vh < my ->
   draw_cb h w = Some (1, w)) /\
  (vx <= mx <= vx + vw -> vy <= my <= vy + vh -> enabled w ->
   exists wp wq,
     resolve_manip h mx my (reloaded w) = Some (tt, wp) /\
     paint_manip h wp = Some (tt, wq) /\
     draw_cb h w =
     Some (1, Build_world (plug wq) (gl wq) (calls wq ++ [GlUseProgram 0])) /\
     In GlReadPixels (calls wp) /\
     In (Obj8DrawGroupByCmdidx (indexToPaint (plug w)) paint_shader)
        (calls wq)).
Proof.
  intros Hvp Hm Hx Hy.
  pose proof (off_screen_eq h mx my vx vy vw vh Hvp Hm Hx Hy) as Eoff.
  assert (length (dr_viewport h) = 4%nat) as Hl by now rewrite Hvp.
  split.
  - intros Hout. apply draw_cb_off_screen; [exact Hl|].
    rewrite Eoff, !orb_true_iff, !Z.ltb_lt, !Z.gtb_lt. tauto.
  - intros Hin_x Hin_y Hen.
    destruct (draw_cb_on_screen h w) as (wp & wq & Hpick & Hrest); auto.
    { split; [exact Hl|].
      rewrite Eoff, !orb_false_iff, !Z.ltb_ge, !Z.gtb_ltb, !Z.ltb_ge. lia. }
    unfold pointer_x, pointer_y in Hpick. rewrite Hm in Hpick.
    exists wp, wq. auto.
Qed.

Lemma draw_cb_skips_off_screen_pointer_witness :
  draw_cb (xp_frame (-5, 100) (Some 3) true 10) xp_pending
  = Some (1, xp_pending) /\
  exists wp wq,
    resolve_manip (xp_frame (100, 100) (Some 3) true 10) 100 100
      (reloaded xp_pending) = Some (tt, wp) /\
    paint_manip (xp_frame (100, 100) (Some 3) true 10) wp = Some (tt, wq) /\
    draw_cb (xp_frame (100, 100) (Some 3) true 10) xp_pending =
    Some (1, Build_world (plug wq) (gl wq) (calls wq ++ [GlUseProgram 0])) /\
    In GlReadPixels (calls wp) /\
    In (Obj8DrawGroupByCmdidx (indexToPaint (plug xp_pending)) paint_shader)
       (calls wq).
Proof.
  split.
  - apply (proj1 (draw_cb_skips_off_screen_pointer
                    (xp_frame (-5, 100) (Some 3) true 10) xp_pending
                    (-5) 100 0 0 800 600
                    eq_refl eq_refl
                    ltac:(unfold is_int; lia) ltac:(unfold is_int; lia))).
    lia.
  - apply (proj2 (draw_cb_skips_off_screen_pointer
                    (xp_frame (100, 100) (Some 3) true 10) xp_pending
                    100 100 0 0 800 600
                    eq_refl eq_refl
                    ltac:(unfold is_int; lia) ltac:(unfold is_int; lia))).
    + lia.
    + lia.
    + vm_compute. repeat split; discriminate.
Defined.

(** C10: a pointer on the right or on the top edge of the viewport
    rectangle passes the bounds test, which rejects only coordinates
    strictly beyond the edges, and both passes run. *)
Theorem draw_cb_edge_is_on_screen
    (h : host) (w : world) (mx my vx vy vw vh : Z) :
  dr_viewport h = [vx; vy; vw; vh] ->
  mouse_location h = (mx, my) ->
  0 <= vw -> 0 <= vh ->
  is_int (vx + vw) -> is_int (vy + vh) ->
  (mx = vx + vw /\ vy <= my <= vy + vh) \/
  (my = vy + vh /\ vx <= mx <= vx + vw) ->
  enabled w ->
  mouse_off_screen [vx; vy; vw; vh] mx my = false /\
  exists wp wq,
    resolve_manip h mx my (reloaded w) = Some (tt, wp) /\
    paint_manip h wp = Some (tt, wq) /\
    draw_cb h w =
    Some (1, Build_world (plug wq) (gl wq) (calls wq ++ [GlUseProgram 0])) /\
    In GlReadPixels (calls wp) /\
    In (Obj8DrawGroupByCmdidx (indexToPaint (plug w)) paint_shader)
       (calls wq).
Proof.
  intros Hvp Hm Hw Hh Hx Hy Hedge Hen.
  pose proof (off_screen_eq h mx my vx vy vw vh Hvp Hm Hx Hy) as Eoff.
  assert (off_screen h = false) as Hon.
  { rewrite Eoff, !orb_false_iff, !Z.ltb_ge, !Z.gtb_ltb, !Z.ltb_ge. lia. }
  split.
  - rewrite <- Hon. unfold off_screen, pointer_x, pointer_y.
    now rewrite Hvp, Hm, dr_getvi_4.
  - destruct (draw_cb_on_screen h w) as (wp & wq & Hpick & Hrest); auto.
    { split; [now rewrite Hvp | exact Hon]. }
    unfold pointer_x, pointer_y in Hpick. rewrite Hm in Hpick.
    exists wp, wq. auto.
Qed.

Lemma draw_cb_edge_is_on_screen_witness :
  mouse_off_screen [0; 0; 800; 600] 800 600 = false /\
  exists wp wq,
    resolve_manip (xp_frame (800, 600) None true 10) 800 600
      (reloaded xp_world) = Some (tt, wp) /\
    paint_manip (xp_frame (800, 600) None true 10) wp = Some (tt, wq) /\
    draw_cb (xp_frame (800, 600) None true 10) xp_world =
    Some (1, Build_world (plug wq) (gl wq) (calls wq ++ [GlUseProgram 0])) /\
    In GlReadPixels (calls wp) /\
    In (Obj8DrawGroupByCmdidx (indexToPaint (plug xp_world)) paint_shader)
       (calls wq).
Proof.
  apply (draw_cb_edge_is_on_screen
           (xp_frame (800, 600) None true 10) xp_world
           800 600 0 0 800 600).
  - reflexivity.
  - reflexivity.
  - lia.
  - lia.
  - unfold is_int. lia.
  - unfold is_int. lia.
  - left. lia.
  - vm_compute. repeat split; discriminate.
Defined.

(** ** C8 *)

Lemma rev_float_z_xpver (h : host) (a b : world) :
  xpver (plug a) = xpver (plug b) -> rev_float_z h a = rev_float_z h b.
Proof. unfold rev_float_z. now intros ->. Qed.

(** C8, as stated, fails: the pick pass does not put back the depth test
    it found enabled. *)
Lemma pick_pass_leaves_depth_test_disabled :
  gl_depth_test (gl xp_depth_tested) = true /\
  exists w',
    resolve_manip (xp_frame (100, 100) None true 10) 100 100 xp_depth_tested
    = Some (tt, w') /\
    gl_depth_test (gl w') = false.
Proof.
  split; [reflexivity|].
  eexists. split; [vm_compute; reflexivity|]. reflexivity.
Qed.

(** C8, amended: the pick pass saves nothing of the state it finds.  At
    its end the framebuffer binding is the host's [current_gl_fbo] dataref
    and the viewport the host's [viewport] dataref, the depth test is
    disabled and depth writes are off; under reversed Z the depth function
    is GL_LESS and the clear depth 1, otherwise both are as before.  These
    are the values from before the pass when the binding and the viewport
    agreed with the datarefs, the depth test and depth writes were off
    and, under reversed Z, the depth function was GL_LESS with clear
    depth 1. *)
Theorem pick_pass_leaves_window_phase_state
    (h : host) (mx my : Z) (w : world) (vx vy vw vh : Z) :
  dr_viewport h = [vx; vy; vw; vh] ->
  enabled w ->
  exists w',
    resolve_manip h mx my w = Some (tt, w') /\
    gl_framebuffer (gl w') = dr_fbo h /\
    gl_viewport (gl w') = Build_rect vx vy vw vh /\
    gl_depth_test (gl w') = false /\
    gl_depth_mask (gl w') = false /\
    (rev_float_z h w = true ->
     gl_depth_func (gl w') = GL_LESS /\ gl_clear_depth (gl w') = 1%Q) /\
    (rev_float_z h w = false ->
     gl_depth_func (gl w') = gl_depth_func (gl w) /\
     gl_clear_depth (gl w') = gl_clear_depth (gl w)) /\
    (gl_framebuffer (gl w) = dr_fbo h ->
     gl_viewport (gl w) = Build_rect vx vy vw vh ->
     gl_depth_test (gl w) = false ->
     gl_depth_mask (gl w) = false ->
     (rev_float_z h w = true ->
      gl_depth_func (gl w) = GL_LESS /\ gl_clear_depth (gl w) = 1%Q) ->
     gl_framebuffer (gl w') = gl_framebuffer (gl w) /\
     gl_viewport (gl w') = gl_viewport (gl w) /\
     gl_depth_test (gl w') = gl_depth_test (gl w) /\
     gl_depth_mask (gl w') = gl_depth_mask (gl w) /\
     gl_depth_func (gl w') = gl_depth_func (gl w) /\
     gl_clear_depth (gl w') = gl_clear_depth (gl w)).
Proof.
  intros Hvp (Hf & Hp & Ho).
  destruct (resolve_manip_returns h mx my w) as [w' Hpick]; auto.
  { rewrite Hvp. cbn. lia. }
  destruct (resolve_manip_inv _ _ _ _ _ _ Hpick)
    as (w1 & w2 & Hd & _ & _ & _ & _ & _ & F & _ & _ & Ew').
  pose proof (drain_frame_intro _ _ _ _ Hd) as D.
  destruct F as [Fplug _ _ _ _ Ffunc Fdepth _].
  assert (rev_float_z h (issued w2) = rev_float_z h w) as Erev.
  { apply rev_float_z_xpver. cbn [plug issued]. unfold set_cursor_xfer.
    cbn [xpver]. now rewrite Fplug, (df_xpver _ _ D). }
  assert (rev_float_z h w1 = rev_float_z h w) as Erev1.
  { apply rev_float_z_xpver. apply (df_xpver _ _ D). }
  rewrite Erev1 in Ffunc, Fdepth.
  rewrite (df_depth_func _ _ D) in Ffunc.
  rewrite (df_clear_depth _ _ D) in Fdepth.
  rewrite Hvp, dr_getvi_4 in Ew'.
  assert (gl_framebuffer (gl w') = dr_fbo h /\
          gl_viewport (gl w') = Build_rect vx vy vw vh /\
          gl_depth_test (gl w') = false /\
          gl_depth_mask (gl w') = false /\
          (rev_float_z h w = true ->
           gl_depth_func (gl w') = GL_LESS /\
           gl_clear_depth (gl w') = 1%Q) /\
          (rev_float_z h w = false ->
           gl_depth_func (gl w') = gl_depth_func (gl w) /\
           gl_clear_depth (gl w') = gl_clear_depth (gl w)))
    as (E1 & E2 & E3 & E4 & E5 & E6).
  { rewrite Ew'. cbn [gl]. unfold restored_gl. cbv zeta. rewrite Erev.
    destruct (rev_float_z h w); unfold issued; simpl.
    - repeat split; discriminate.
    - rewrite Ffunc, Fdepth. repeat split; discriminate. }
  exists w'.
  repeat match goal with |- _ /\ _ => split end; auto.
  intros B1 B2 B3 B4 B5.
  repeat match goal with |- _ /\ _ => split end; try congruence.
  - destruct (rev_float_z h w).
    + destruct (E5 eq_refl), (B5 eq_refl). congruence.
    + now destruct (E6 eq_refl).
  - destruct (rev_float_z h w).
    + destruct (E5 eq_refl), (B5 eq_refl). congruence.
    + now destruct (E6 eq_refl).
Qed.

Lemma pick_pass_leaves_window_phase_state_witness :
  exists w',
    resolve_manip (xp_frame (100, 100) None true 10) 100 100 xp_depth_tested
    = Some (tt, w') /\
    gl_framebuffer (gl w') = 0 /\
    gl_viewport (gl w') = Build_rect 0 0 800 600 /\
    gl_depth_test (gl w') = false /\
    gl_depth_mask (gl w') = false.
Proof.
  destruct (pick_pass_leaves_window_phase_state
              (xp_frame (100, 100) None true 10) 100 100 xp_depth_tested
              0 0 800 600 eq_refl)
    as (w' & E & E1 & E2 & E3 & E4 & _).
  - vm_compute. repeat split; discriminate.
  - exists w'. auto.
Defined.

(** * Further properties of the callback *)

(** ** Runs *)

Lemma run_frames_app (hs1 hs2 : list host) (w : world) :
  run_frames (hs1 ++ hs2) w =
  match run_frames hs1 w with
  | Some w1 => run_frames hs2 w1
  | None => None
  end.
Proof.
  revert w. induction hs1 as [|h hs1 IH]; intros w; [reflexivity|].
  cbn [app run_frames]. destruct (draw_cb h w) as [[r w1]|]; auto.
Qed.

Lemma run_frames_snoc (hs : list host) (h : host) (w w' : world) :
  run_frames (hs ++ [h]) w = Some w' ->
  exists w1 r, run_frames hs w = Some w1 /\ draw_cb h w1 = Some (r, w').
Proof.
  rewrite run_frames_app.
  destruct (run_frames hs w) as [w1|]; [|discriminate].
  cbn [run_frames].
  destruct (draw_cb h w1) as [[r w2]|] eqn:Hf; [|discriminate].
  intros E. inversion E. subst. eauto.
Qed.


(** ** The latency of one frame *)

Lemma drain_ignores_manip_hit (h : host) (k : option Z) (w : world) :
  resolve_manip_complete (with_manip_hit k h) w = resolve_manip_complete h w.
Proof. reflexivity. Qed.

(** The index, the recorded index and the click log that a frame leaves do
    not depend on what that frame draws: its own pick is not yet part of
    them. *)
Theorem resolved_index_ignores_the_frames_own_draw
    (h : host) (k : option Z) (w w1 w2 : world) (r1 r2 : Z) :
  draw_cb h w = Some (r1, w1) ->
  draw_cb (with_manip_hit k h) w = Some (r2, w2) ->
  manip_idx (plug w1) = manip_idx (plug w2) /\
  prev_manip_idx (plug w1) = prev_manip_idx (plug w2) /\
  manip_clicks (plug w1) = manip_clicks (plug w2).
Proof.
  intros H1 H2.
  apply draw_cb_inv in H1. apply draw_cb_inv in H2.
  change (off_screen (with_manip_hit k h)) with (off_screen h) in H2.
  rewrite drain_ignores_manip_hit in H2.
  destruct H1 as (_ & _ & [[Hoff ->] | (Hon & wa & Hda & Fa)]);
    destruct H2 as (_ & _ & [[Hoff' ->] | (Hon' & wb & Hdb & Fb)]);
    try congruence; auto.
  assert (wa = wb) by congruence. subst wb.
  rewrite (ff_manip_idx _ _ _ Fa), (ff_manip_idx _ _ _ Fb).
  rewrite (ff_prev _ _ _ Fa), (ff_prev _ _ _ Fb).
  rewrite (ff_clicks _ _ _ Fa), (ff_clicks _ _ _ Fb). auto.
Qed.

Lemma resolved_index_ignores_the_frames_own_draw_witness :
  exists w1 w2,
    draw_cb (xp_frame (100, 100) (Some 3) true 10) xp_read_3 = Some (1, w1) /\
    draw_cb (with_manip_hit (Some 9) (xp_frame (100, 100) (Some 3) true 10))
      xp_read_3 = Some (1, w2) /\
    manip_idx (plug w1) = manip_idx (plug w2) /\
    prev_manip_idx (plug w1) = prev_manip_idx (plug w2) /\
    manip_clicks (plug w1) = manip_clicks (plug w2).
Proof.
  eexists. eexists.
  split; [vm_compute; reflexivity|].
  split; [vm_compute; reflexivity|].
  eapply (resolved_index_ignores_the_frames_own_draw
            (xp_frame (100, 100) (Some 3) true 10) (Some 9) xp_read_3 _ _ 1 1).
  - vm_compute. reflexivity.
  - vm_compute. reflexivity.
Defined.



(** ** The click log over a run *)

Lemma logged_by_cons (h : host) (hs : list host) (c : manip_click) :
  logged_by hs c -> logged_by (h :: hs) c.
Proof.
  intros (Hs & h' & Hin & Ht). split; [exact Hs|].
  exists h'. split; [now right | exact Ht].
Qed.

(** The log is never cut, reordered or rewritten: a run only appends to
    it, at most one entry per frame, and every entry it appends carries an
    index other than the sentinel and the clock reading of one of its
    frames. *)
Theorem click_log_only_grows (hs : list host) (w w' : world) :
  run_frames hs w = Some w' ->
  exists added,
    manip_clicks (plug w') = manip_clicks (plug w) ++ added /\
    (length added <= length hs)%nat /\
    Forall (logged_by hs) added.
Proof.
  revert w. induction hs as [|h hs IH]; intros w Hrun.
  - inversion Hrun. subst. exists []. rewrite app_nil_r. auto.
  - cbn [run_frames] in Hrun.
    destruct (draw_cb h w) as [[r w1]|] eqn:Hf; [|discriminate].
    destruct (IH w1 Hrun) as (added & Eadd & Hlen & Hall).
    assert (Forall (logged_by (h :: hs)) added) as Hall'.
    { eapply Forall_impl; [|exact Hall]. intros c. apply logged_by_cons. }
    destruct (frame_click_step _ _ _ _ Hf) as [[Ec _] | (Hs & _ & _ & Ec)].
    + exists added. rewrite Eadd, Ec. cbn [length]. auto.
    + eexists (_ :: added). rewrite Eadd, Ec, <- app_assoc. cbn [app length].
      split; [reflexivity|]. split; [lia|].
      constructor; [|exact Hall'].
      split; [exact Hs|]. exists h. split; [now left | reflexivity].
Qed.

Lemma click_log_only_grows_witness :
  exists w' added,
    run_frames [xp_frame (100, 100) (Some 3) true 10;
                xp_frame (100, 100) (Some 7) true 20;
                xp_frame (100, 100) None true 30] xp_world = Some w' /\
    manip_clicks (plug w') = manip_clicks (plug xp_world) ++ added /\
    (length added <= 3)%nat /\
    added = [{| index := 3; start_t := 20 |};
             {| index := 7; start_t := 30 |}].
Proof.
  eassert (run_frames [xp_frame (100, 100) (Some 3) true 10;
                       xp_frame (100, 100) (Some 7) true 20;
                       xp_frame (100, 100) None true 30] xp_world = Some _)
    as Hrun by (vm_compute; reflexivity).
  destruct (click_log_only_grows _ _ _ Hrun) as (added & Eadd & Hlen & _).
  eexists. exists added. split; [exact Hrun|]. split; [exact Eadd|].
  split; [exact Hlen|]. exact (eq_sym Eadd).
Defined.

(** From an empty log on, [prev_manip_idx] is the index of the newest
    entry; while the log is empty it is what it was at the start. *)
Theorem prev_manip_idx_is_the_newest_entry (hs : list host) (w w' : world) :
  manip_clicks (plug w) = [] ->
  run_frames hs w = Some w' ->
  match rev (manip_clicks (plug w')) with
  | c :: _ => prev_manip_idx (plug w') = index c
  | [] => prev_manip_idx (plug w') = prev_manip_idx (plug w)
  end.
Proof.
  intros Hempty. revert w'.
  induction hs as [|h hs IH] using rev_ind; intros w' Hrun.
  - inversion Hrun. subst. now rewrite Hempty.
  - apply run_frames_snoc in Hrun. destruct Hrun as (w1 & r & Hrun & Hf).
    specialize (IH w1 Hrun).
    destruct (frame_click_step _ _ _ _ Hf) as [[Ec Ep] | (_ & _ & Ep & Ec)].
    + now rewrite Ec, Ep.
    + rewrite Ec, rev_app_distr. cbn [rev app]. exact Ep.
Qed.

Lemma prev_manip_idx_is_the_newest_entry_witness :
  exists w',
    run_frames [xp_frame (100, 100) (Some 3) true 10;
                xp_frame (100, 100) (Some 7) true 20;
                xp_frame (100, 100) None true 30;
                xp_frame (100, 100) None true 40] xp_world = Some w' /\
    manip_idx (plug w') = UINT16_MAX /\
    prev_manip_idx (plug w') = 7.
Proof.
  eexists. split; [vm_compute; reflexivity|].
  split; [vm_compute; reflexivity|].
  exact (prev_manip_idx_is_the_newest_entry
           [xp_frame (100, 100) (Some 3) true 10;
            xp_frame (100, 100) (Some 7) true 20;
            xp_frame (100, 100) None true 30;
            xp_frame (100, 100) None true 40] xp_world _
           eq_refl ltac:(vm_compute; reflexivity)).
Defined.

(** ** The drain and the assertions *)

(** Whatever a drain has done, a further drain with no pick pass between
    the two does nothing: there is one attempt per transfer. *)
Theorem drain_twice_is_drain_once (h h' : host) (w w1 : world) :
  resolve_manip_complete h w = Some (tt, w1) ->
  resolve_manip_complete h' w1 = Some (tt, w1).
Proof.
  intros Hd. apply drain_idle.
  exact (df_xfer _ _ (drain_frame_intro _ _ _ _ Hd)).
Qed.

Lemma drain_twice_is_drain_once_witness :
  exists w1,
    resolve_manip_complete (xp_frame (100, 100) None true 10) xp_read_3
    = Some (tt, w1) /\
    resolve_manip_complete (xp_frame (100, 100) None true 20) w1
    = Some (tt, w1).
Proof.
  eexists. split; [vm_compute; reflexivity|].
  apply (drain_twice_is_drain_once
           (xp_frame (100, 100) None true 10)
           (xp_frame (100, 100) None true 20) xp_read_3).
  vm_compute. reflexivity.
Defined.

Lemma draw_cb_on_screen_enabled (h : host) (w w' : world) (r : Z) :
  on_screen_frame h -> draw_cb h w = Some (r, w') -> enabled w.
Proof.
  intros Hon Hf. rewrite draw_cb_eq in Hf. cbv zeta in Hf.
  destruct Hon as [_ Hon]. unfold off_screen, pointer_x, pointer_y in Hon.
  rewrite Hon in Hf.
  destruct (negb _); [discriminate|].
  destruct (resolve_manip h _ _ _) as [[[] wp]|] eqn:Hpick; [|discriminate].
  destruct (resolve_manip_inv _ _ _ _ _ _ Hpick)
    as (w1 & w2 & Hd & _ & _ & Hf1 & Hp1 & Ho1 & _).
  pose proof (drain_frame_intro _ _ _ _ Hd) as D.
  rewrite (df_fbo _ _ D) in Hf1. rewrite (df_pbo _ _ D) in Hp1.
  rewrite (df_obj _ _ D) in Ho1.
  repeat split; assumption.
Qed.

(** With the pointer on the screen the callback gets past its assertions
    exactly when the cursor framebuffer and the transfer buffer exist and
    the object is loaded. *)
Theorem on_screen_frame_returns_iff_enabled (h : host) (w : world) :
  on_screen_frame h ->
  (exists w', draw_cb h w = Some (1, w')) <-> enabled w.
Proof.
  intros Hon. split.
  - intros [w' Hf]. exact (draw_cb_on_screen_enabled h w w' 1 Hon Hf).
  - intros Hen. destruct Hon as [Hl _].
    exact (draw_cb_returns h w Hl Hen).
Qed.

Lemma on_screen_frame_returns_iff_enabled_witness :
  (exists w', draw_cb (xp_frame (100, 100) None true 10) xp_world
              = Some (1, w')) /\
  draw_cb (xp_frame (100, 100) None true 10)
    (Build_world plugin_init xp_gl []) = None.
Proof.
  split.
  - apply (proj2 (on_screen_frame_returns_iff_enabled
                    (xp_frame (100, 100) None true 10) xp_world
                    ltac:(split; reflexivity))).
    vm_compute. repeat split; discriminate.
  - vm_compute. reflexivity.
Defined.

(** ** The context in which the passes draw and which they leave *)

Lemma render_context_post (h : host) (mx my : Z) (w : world) :
  wp True (resolve_manip_render h mx my) w
    (fun _ w2 =>
       gl_depth_test (gl w2) = true /\ gl_depth_mask (gl w2) = true /\
       gl_clear_color (gl w2) = Build_color 0 0 0 0).
Proof.
  unfold resolve_manip_render.
  repeat wp_step; try exact I.
  all: destruct (manip_hit h); norm_state; auto.
Qed.

Lemma paint_context_post (h : host) (w : world) :
  wp True (paint_manip h) w
    (fun _ w' =>
       gl_framebuffer (gl w') = gl_framebuffer (gl w) /\
       gl_viewport (gl w') =
       (let vp := dr_getvi (dr_viewport h) 0 4 in
        Build_rect (at_ vp 0) (at_ vp 1) (at_ vp 2) (at_ vp 3)) /\
       gl_depth_test (gl w') = gl_depth_test (gl w) /\
       gl_depth_mask (gl w') = gl_depth_mask (gl w) /\
       gl_depth_func (gl w') = gl_depth_func (gl w) /\
       gl_clear_depth (gl w') = gl_clear_depth (gl w) /\
       gl_clear_color (gl w') = gl_clear_color (gl w) /\
       gl_pixel_pack_buffer (gl w') = gl_pixel_pack_buffer (gl w) /\
       gl_blend (gl w') = true).
Proof.
  unfold paint_manip.
  repeat wp_step; try exact I.
  all: repeat split; reflexivity.
Qed.

(** The manipulator geometry is drawn with the depth test and depth writes
    switched on.  Under reversed Z the depth function is GL_GREATER and
    the clear depth 0; otherwise the pass sets neither, and draws with the
    depth function and the clear depth it found. *)
Theorem pick_pass_draws_under_depth_test
    (h : host) (mx my : Z) (w w2 : world) (vp : list Z) :
  resolve_manip_render h mx my w = Some (vp, w2) ->
  gl_depth_test (gl w2) = true /\
  gl_depth_mask (gl w2) = true /\
  (rev_float_z h w = true ->
   gl_depth_func (gl w2) = GL_GREATER /\ gl_clear_depth (gl w2) = 0%Q) /\
  (rev_float_z h w = false ->
   gl_depth_func (gl w2) = gl_depth_func (gl w) /\
   gl_clear_depth (gl w2) = gl_clear_depth (gl w)).
Proof.
  intros Hrender.
  pose proof (wp_post _ _ _ _ _ (render_context_post h mx my w) Hrender)
    as (Ht & Hm & _).
  pose proof (wp_post _ _ _ _ _ (render_post h mx my w) Hrender)
    as (_ & _ & w1 & Hd & _ & _ & F).
  pose proof (drain_frame_intro _ _ _ _ Hd) as D.
  pose proof (rf_depth_func _ _ _ _ _ F) as Ef.
  pose proof (rf_clear_depth _ _ _ _ _ F) as Ec.
  rewrite (rev_float_z_xpver h w1 w (df_xpver _ _ D)) in Ef, Ec.
  rewrite (df_depth_func _ _ D) in Ef. rewrite (df_clear_depth _ _ D) in Ec.
  split; [exact Ht|]. split; [exact Hm|].
  split; intros Hrev; rewrite Hrev in Ef, Ec; auto.
Qed.

Lemma pick_pass_draws_under_depth_test_witness :
  exists vp w2,
    resolve_manip_render (xp_frame (100, 100) None true 10) 100 100
      (Build_world xp_plugin (set_gl_depth_func GL_ALWAYS xp_gl) [])
    = Some (vp, w2) /\
    gl_depth_test (gl w2) = true /\
    gl_depth_func (gl w2) = GL_ALWAYS.
Proof.
  eexists. eexists. split; [vm_compute; reflexivity|].
  destruct (pick_pass_draws_under_depth_test
              (xp_frame (100, 100) None true 10) 100 100
              (Build_world xp_plugin (set_gl_depth_func GL_ALWAYS xp_gl) [])
              _ _ ltac:(vm_compute; reflexivity))
    as (Ht & _ & _ & Hfwd).
  split; [exact Ht|]. exact (proj1 (Hfwd eq_refl)).
Defined.

(** An on-screen frame hands the context back with the host's framebuffer
    and viewport, no depth test and no depth writes, the pack target
    unbound, and with two settings it has not put back: blending is
    enabled and the clear colour is (0,0,0,0), whatever they were. *)
Theorem on_screen_frame_leaves_blending_enabled
    (h : host) (w : world) (vx vy vw vh : Z) :
  dr_viewport h = [vx; vy; vw; vh] ->
  off_screen h = false ->
  enabled w ->
  exists w',
    draw_cb h w = Some (1, w') /\
    gl_blend (gl w') = true /\
    gl_clear_color (gl w') = Build_color 0 0 0 0 /\
    gl_pixel_pack_buffer (gl w') = 0 /\
    gl_framebuffer (gl w') = dr_fbo h /\
    gl_viewport (gl w') = Build_rect vx vy vw vh /\
    gl_depth_test (gl w') = false /\
    gl_depth_mask (gl w') = false.
Proof.
  intros Hvp Hon Hen.
  destruct (draw_cb_on_screen h w) as (wp & wq & Hpick & Hpaint & Hf & _).
  { split; [now rewrite Hvp | exact Hon]. }
  exact Hen.
  destruct (resolve_manip_inv _ _ _ _ _ _ Hpick)
    as (w1 & w2 & _ & Hrender & _ & _ & _ & _ & _ & _ & _ & Ewp).
  pose proof (wp_post _ _ _ _ _ (render_context_post h _ _ _) Hrender)
    as (_ & _ & Hcc).
  pose proof (wp_post _ _ _ _ _ (paint_context_post h wp) Hpaint)
    as (Pfb & Pvp & Pdt & Pdm & _ & _ & Pcc & Ppack & Pblend).
  cbv zeta in Pvp. rewrite Hvp, dr_getvi_4 in *.
  change (at_ [vx; vy; vw; vh] 0) with vx in *.
  change (at_ [vx; vy; vw; vh] 1) with vy in *.
  change (at_ [vx; vy; vw; vh] 2) with vw in *.
  change (at_ [vx; vy; vw; vh] 3) with vh in *.
  assert (gl_clear_color (gl wp) = Build_color 0 0 0 0 /\
          gl_pixel_pack_buffer (gl wp) = 0 /\
          gl_framebuffer (gl wp) = dr_fbo h /\
          gl_depth_test (gl wp) = false /\
          gl_depth_mask (gl wp) = false) as (Wcc & Wpack & Wfb & Wdt & Wdm).
  { rewrite Ewp. cbn [gl]. unfold restored_gl. cbv zeta.
    destruct (rev_float_z _ _); unfold issued; simpl; auto. }
  eexists. split; [exact Hf|]. cbn [gl].
  repeat match goal with |- _ /\ _ => split end; congruence.
Qed.

Lemma on_screen_frame_leaves_blending_enabled_witness :
  exists w',
    draw_cb (xp_frame (100, 100) None true 10)
      (Build_world xp_plugin
         (set_gl_clear_color (Build_color 1 1 1 1) xp_gl) [])
    = Some (1, w') /\
    gl_blend (gl w') = true /\
    gl_clear_color (gl w') = Build_color 0 0 0 0.
Proof.
  destruct (on_screen_frame_leaves_blending_enabled
              (xp_frame (100, 100) None true 10)
              (Build_world xp_plugin
                 (set_gl_clear_color (Build_color 1 1 1 1) xp_gl) [])
              0 0 800 600 eq_refl eq_refl)
    as (w' & Hf & Hb & Hc & _).
  - vm_compute. repeat split; discriminate.
  - exists w'. auto.
Defined.

(** * Properties of the entry points *)

(** ** C strings *)

Lemma strcmp_eq_iff (a b : cstring) : strcmp_eq a b = true <-> a = b.
Proof.
  revert b. induction a as [|x a IH]; intros [|y b]; cbn [strcmp_eq];
    try (split; [discriminate | congruence]); [tauto|].
  rewrite andb_true_iff, Ascii.eqb_eq, IH.
  split; [intros [-> ->]; reflexivity | intros E; inversion E; auto].
Qed.

Lemma strrchr_absent (s : cstring) (c : Ascii.ascii) :
  ~ In c s -> strrchr s c = None.
Proof.
  induction s as [|a s IH]; intros Hn; [reflexivity|].
  cbn [strrchr]. rewrite IH by (intros H; apply Hn; now right).
  destruct (Ascii.eqb a c) eqn:E; [|reflexivity].
  apply Ascii.eqb_eq in E. subst. exfalso. apply Hn. now left.
Qed.

Lemma strrchr_last (s t : cstring) (c : Ascii.ascii) :
  ~ In c t -> strrchr (s ++ c :: t) c = Some (length s).
Proof.
  intros Hn. induction s as [|a s IH].
  - cbn [app strrchr length]. rewrite (strrchr_absent t c Hn).
    now rewrite Ascii.eqb_refl.
  - cbn [app strrchr length]. now rewrite IH.
Qed.

Lemma strrchr_bound (s : cstring) (c : Ascii.ascii) (p : nat) :
  strrchr s c = Some p -> (p < length s)%nat.
Proof.
  revert p. induction s as [|a s IH]; intros p; [discriminate|].
  cbn [strrchr length]. destruct (strrchr s c) as [q|].
  - intros E. inversion E. specialize (IH q eq_refl). lia.
  - destruct (Ascii.eqb a c); [|discriminate]. intros E. inversion E. lia.
Qed.

Lemma firstn_app_exact {A : Type} (l1 l2 : list A) :
  firstn (length l1) (l1 ++ l2) = l1.
Proof.
  rewrite firstn_app, Nat.sub_diag, firstn_all. cbn [firstn].
  apply app_nil_r.
Qed.

Lemma skipn_app_exact {A : Type} (l1 l2 : list A) (a : A) :
  skipn (S (length l1)) (l1 ++ a :: l2) = l2.
Proof.
  induction l1 as [|x l1 IH]; [reflexivity|]. exact IH.
Qed.

Lemma arch_dir_test (tail : cstring) :
  strcmp_eq tail Names.dir_64 || strcmp_eq tail Names.dir_32
  || strcmp_eq tail Names.dir_win_x64 || strcmp_eq tail Names.dir_mac_x64
  || strcmp_eq tail Names.dir_lin_x64 = true
  <-> In tail arch_dirs.
Proof.
  rewrite !orb_true_iff, !strcmp_eq_iff. unfold arch_dirs. cbn [In].
  intuition congruence.
Qed.

Lemma arch_dir_no_dirsep (sep : Ascii.ascii) (d : cstring) :
  is_dirsep sep -> In d arch_dirs -> ~ In sep d.
Proof.
  intros [-> | ->] Hd Hin; unfold arch_dirs in Hd; cbn [In] in Hd;
    repeat (destruct Hd as [<- | Hd];
            [vm_compute in Hin; intuition discriminate|]);
    destruct Hd.
Qed.

(** ** [XPluginStart] *)

(** For a binary in a per-architecture directory, [root/64/win.xpl] and
    the like, the plugin directory is [root]: the file name and the
    directory "64", "32", "win_x64", "mac_x64" or "lin_x64" are cut
    off, and nothing more, whatever [root] ends in. *)
Theorem plugindir_of_binary_in_arch_dir
    (sep : Ascii.ascii) (root arch file : cstring) :
  is_dirsep sep ->
  In arch arch_dirs ->
  ~ In sep file ->
  cut_plugindir sep (root ++ sep :: arch ++ sep :: file) = root.
Proof.
  intros Hsep Harch Hfile.
  pose proof (arch_dir_no_dirsep sep arch Hsep Harch) as Hna.
  unfold cut_plugindir.
  replace (root ++ sep :: arch ++ sep :: file)
    with ((root ++ sep :: arch) ++ sep :: file)
    by (rewrite <- app_assoc; reflexivity).
  rewrite (strrchr_last _ file sep Hfile), firstn_app_exact.
  rewrite (strrchr_last root arch sep Hna). cbv zeta.
  rewrite skipn_app_exact, firstn_app_exact.
  now rewrite (proj2 (arch_dir_test arch) Harch).
Qed.

Lemma plugindir_of_binary_in_arch_dir_witness :
  cut_plugindir Names.slash Paths.binary_in_64 = Paths.plugin_root.
Proof.
  apply (plugindir_of_binary_in_arch_dir Names.slash
           Paths.plugin_root Names.dir_64 Paths.lin_xpl).
  - left. reflexivity.
  - left. reflexivity.
  - vm_compute. intuition discriminate.
Defined.

(** For a binary placed in the plugin's root itself, [root/lin.xpl], only
    the file name is cut off, provided the last component of [root] is not
    one of the five directory names. *)
Theorem plugindir_of_binary_in_root
    (sep : Ascii.ascii) (root file : cstring) :
  ~ In sep file ->
  (~ In sep root \/
   exists parent name,
     root = parent ++ sep :: name /\ ~ In sep name /\ ~ In name arch_dirs) ->
  cut_plugindir sep (root ++ sep :: file) = root.
Proof.
  intros Hfile Hroot.
  unfold cut_plugindir.
  rewrite (strrchr_last root file sep Hfile), firstn_app_exact.
  destruct Hroot as [Hn | (parent & name & -> & Hn & Hna)].
  - now rewrite (strrchr_absent root sep Hn).
  - rewrite (strrchr_last parent name sep Hn). cbv zeta.
    rewrite skipn_app_exact.
    destruct (_ || _) eqn:E; [|reflexivity].
    apply arch_dir_test in E. contradiction.
Qed.

Lemma plugindir_of_binary_in_root_witness :
  cut_plugindir Names.slash Paths.binary_in_root = Paths.plugin_root.
Proof.
  apply (plugindir_of_binary_in_root Names.slash
           Paths.plugin_root Paths.lin_xpl).
  - vm_compute. intuition discriminate.
  - right. exists Paths.plugins, Paths.manipdraw.
    split; [reflexivity|]. split.
    + vm_compute. intuition discriminate.
    + vm_compute. intuition discriminate.
Defined.

Lemma firstn_is_prefix {A : Type} (n : nat) (l : list A) :
  exists rest, l = firstn n l ++ rest.
Proof. exists (skipn n l). now rewrite firstn_skipn. Qed.

Lemma prefix_of_prefix {A : Type} (a b c : list A) :
  (exists r, b = a ++ r) -> (exists r, c = b ++ r) -> exists r, c = a ++ r.
Proof.
  intros [r1 ->] [r2 ->]. exists (r1 ++ r2). now rewrite app_assoc.
Qed.

(** Cutting never reaches past the string: the directory is a prefix of
    the path, and a path without a separator is kept whole. *)
Theorem cut_plugindir_is_a_prefix (sep : Ascii.ascii) (path : cstring) :
  (exists rest, path = cut_plugindir sep path ++ rest) /\
  (~ In sep path -> cut_plugindir sep path = path).
Proof.
  split.
  - unfold cut_plugindir. cbv zeta.
    set (dir := match strrchr path sep with
                | Some p => firstn p path
                | None => path
                end).
    apply prefix_of_prefix with (b := dir).
    + destruct (strrchr dir sep) as [q|];
        [destruct (_ || _); [apply firstn_is_prefix|]|];
        exists []; now rewrite app_nil_r.
    + subst dir. destruct (strrchr path sep) as [p|];
        [apply firstn_is_prefix|].
      exists []. now rewrite app_nil_r.
  - intros Hn. unfold cut_plugindir.
    now rewrite !(strrchr_absent path sep Hn).
Qed.

Lemma cut_plugindir_is_a_prefix_witness :
  cut_plugindir Names.slash Paths.lin_xpl = Paths.lin_xpl.
Proof.
  apply (proj2 (cut_plugindir_is_a_prefix Names.slash Paths.lin_xpl)).
  vm_compute. intuition discriminate.
Defined.

(** ** The cursor objects *)

Lemma destroy_cursor_objects_eq (s : session) :
  destroy_cursor_objects s =
  Build_session
    (set_cursor_fbo 0 (set_cursor_pbo 0 (plugin_of s)))
    (if fst (cursor_tex s) =? 0 then cursor_tex s else (0, 0))
    (object_calls s ++
     (if cursor_pbo (plugin_of s) =? 0 then []
      else [GlDeleteBuffers (cursor_pbo (plugin_of s))]) ++
     (if cursor_fbo (plugin_of s) =? 0 then []
      else [GlDeleteFramebuffers (cursor_fbo (plugin_of s))]) ++
     (if fst (cursor_tex s) =? 0 then []
      else [GlDeleteTextures (fst (cursor_tex s)) (snd (cursor_tex s))])).
Proof.
  destruct s as [p [t0 t1] c]. destruct p.
  unfold destroy_cursor_objects.
  cbn beta iota delta [plugin_of cursor_tex object_calls cursor_pbo
                       cursor_fbo fst snd].
  destruct (cursor_pbo0 =? 0) eqn:Ep;
    cbn beta iota zeta delta [negb plugin_of cursor_tex object_calls
                              cursor_pbo cursor_fbo fst snd logged
                              with_plugin set_cursor_pbo];
    (destruct (cursor_fbo0 =? 0) eqn:Ef;
     cbn beta iota zeta delta [negb plugin_of cursor_tex object_calls
                               cursor_pbo cursor_fbo fst snd logged
                               with_plugin with_cursor_tex set_cursor_fbo];
     (destruct (t0 =? 0) eqn:Et;
      cbn beta iota zeta delta [negb plugin_of cursor_tex object_calls fst snd
                                logged with_plugin with_cursor_tex];
      cbv beta iota delta [with_cursor_tex logged with_plugin plugin_of
                           cursor_tex object_calls set_cursor_fbo
                           set_cursor_pbo manip_clicks xpver cursor_fbo
                           cursor_pbo cursor_xfer manip_idx last_draw_t
                           prev_manip_idx obj indexToPaint countup todraw];
      rewrite ?Z.eqb_eq in *; subst;
      rewrite <- ?app_assoc; cbn [app]; rewrite ?app_nil_r; reflexivity)).
Qed.

(** After [destroy_cursor_objects] the buffer, the framebuffer and the
    first texture name are 0, and destroying again deletes nothing and
    changes nothing: the function may be called at any stage of creation
    and any number of times. *)
Theorem destroy_cursor_objects_is_idempotent (s : session) :
  cursor_pbo (plugin_of (destroy_cursor_objects s)) = 0 /\
  cursor_fbo (plugin_of (destroy_cursor_objects s)) = 0 /\
  fst (cursor_tex (destroy_cursor_objects s)) = 0 /\
  destroy_cursor_objects (destroy_cursor_objects s) = destroy_cursor_objects s.
Proof.
  rewrite (destroy_cursor_objects_eq (destroy_cursor_objects s)).
  rewrite (destroy_cursor_objects_eq s).
  cbn [plugin_of cursor_tex object_calls].
  unfold set_cursor_fbo, set_cursor_pbo.
  cbn [manip_clicks xpver cursor_fbo cursor_pbo cursor_xfer manip_idx
       last_draw_t prev_manip_idx obj indexToPaint countup todraw].
  assert (fst (if fst (cursor_tex s) =? 0 then cursor_tex s else (0, 0)) = 0)
    as Ht.
  { destruct (fst (cursor_tex s) =? 0) eqn:Et; [|reflexivity].
    now apply Z.eqb_eq. }
  repeat split; auto.
  rewrite Ht. cbn [Z.eqb app]. rewrite !app_nil_r. reflexivity.
Qed.

(** The session that [create_cursor_objects] returns. *)
Lemma create_cursor_objects_inv (n : gl_names) (s s1 : session) :
  create_cursor_objects n s = Some s1 ->
  fst (gen_textures n) <> 0 /\ gen_framebuffer n <> 0 /\ gen_buffer n <> 0 /\
  s1 = Build_session
         (set_cursor_pbo (gen_buffer n)
            (set_cursor_fbo (gen_framebuffer n) (plugin_of s)))
         (gen_textures n)
         (object_calls s ++
          [GlGenTextures (fst (gen_textures n)) (snd (gen_textures n));
           SetupTexture (fst (gen_textures n)) GL_R16;
           SetupTexture (snd (gen_textures n)) GL_DEPTH_COMPONENT32F;
           GlGenFramebuffers (gen_framebuffer n);
           SetupColorFboForTex (gen_framebuffer n) (fst (gen_textures n))
             (snd (gen_textures n));
           GlGenBuffers (gen_buffer n);
           BindPixelPackBuffer (gen_buffer n); GlBufferData 2;
           BindPixelPackBuffer 0]).
Proof.
  unfold create_cursor_objects, with_plugin, with_cursor_tex, logged.
  cbv zeta. cbn [plugin_of cursor_tex object_calls].
  destruct (fst (gen_textures n) =? 0) eqn:Et; [discriminate|].
  unfold set_cursor_fbo at 1. cbn [cursor_fbo].
  destruct (gen_framebuffer n =? 0) eqn:Ef; [discriminate|].
  unfold set_cursor_pbo at 1. cbn [cursor_pbo].
  destruct (gen_buffer n =? 0) eqn:Ep; [discriminate|].
  intros E. inversion E; clear E.
  apply Z.eqb_neq in Et, Ef, Ep.
  repeat split; auto.
  unfold set_cursor_pbo, set_cursor_fbo. cbn [cursor_pbo cursor_fbo].
  rewrite <- !app_assoc. reflexivity.
Qed.

Lemma create_cursor_objects_returns (n : gl_names) (s : session) :
  fst (gen_textures n) <> 0 -> gen_framebuffer n <> 0 -> gen_buffer n <> 0 ->
  exists s1, create_cursor_objects n s = Some s1.
Proof.
  intros Ht Hf Hp. apply Z.eqb_neq in Ht, Hf, Hp.
  unfold create_cursor_objects, with_plugin, with_cursor_tex, logged.
  cbv zeta. cbn [plugin_of cursor_tex object_calls].
  rewrite Ht.
  unfold set_cursor_fbo at 1. cbn [cursor_fbo]. rewrite Hf.
  unfold set_cursor_pbo at 1. cbn [cursor_pbo]. rewrite Hp.
  eauto.
Qed.

(** Every object [create_cursor_objects] has made is deleted by
    [destroy_cursor_objects], once and under the name it was given: the
    buffer, the framebuffer, and both textures in one call; afterwards
    all four names are 0. *)
Theorem created_cursor_objects_are_deleted (n : gl_names) (s s1 : session) :
  create_cursor_objects n s = Some s1 ->
  object_calls (destroy_cursor_objects s1) =
  object_calls s1 ++
  [GlDeleteBuffers (gen_buffer n);
   GlDeleteFramebuffers (gen_framebuffer n);
   GlDeleteTextures (fst (gen_textures n)) (snd (gen_textures n))] /\
  cursor_pbo (plugin_of (destroy_cursor_objects s1)) = 0 /\
  cursor_fbo (plugin_of (destroy_cursor_objects s1)) = 0 /\
  cursor_tex (destroy_cursor_objects s1) = (0, 0).
Proof.
  intros Hc. apply create_cursor_objects_inv in Hc.
  destruct Hc as (Ht & Hf & Hp & ->).
  apply Z.eqb_neq in Ht, Hf, Hp.
  unfold destroy_cursor_objects. destruct s as [p t c]. destruct p.
  simpl. rewrite Hp. simpl. rewrite Hf. simpl. rewrite Ht. simpl.
  rewrite <- !app_assoc. auto.
Qed.

Lemma created_cursor_objects_are_deleted_witness :
  exists s1,
    create_cursor_objects (Build_gl_names (7, 8) 3 5)
      (Build_session plugin_init (0, 0) []) = Some s1 /\
    object_calls (destroy_cursor_objects s1) =
    object_calls s1 ++
    [GlDeleteBuffers 5; GlDeleteFramebuffers 3; GlDeleteTextures 7 8] /\
    cursor_tex (destroy_cursor_objects s1) = (0, 0).
Proof.
  eexists. split; [vm_compute; reflexivity|].
  destruct (created_cursor_objects_are_deleted
              (Build_gl_names (7, 8) 3 5)
              (Build_session plugin_init (0, 0) []) _
              ltac:(vm_compute; reflexivity))
    as (E1 & _ & _ & E2).
  split; [exact E1 | exact E2].
Defined.

(** ** [XPluginEnable] and [XPluginDisable] *)

Lemma XPluginEnable_inv (e : enable_host) (s s' : session) (r : Z) :
  XPluginEnable e s = Some (r, s') ->
  exists s1 shaders,
    create_cursor_objects (names e) s = Some s1 /\
    s' = logged shaders s1 /\
    ((r = 0 /\ resolve_shader_builds e = false /\
      shaders = [ShaderObjInit resolve_shader]) \/
     (r = 0 /\ resolve_shader_builds e = true /\
      paint_shader_builds e = false /\
      shaders = [ShaderObjInit resolve_shader; ShaderObjInit paint_shader]) \/
     (r = 1 /\ resolve_shader_builds e = true /\
      paint_shader_builds e = true /\
      shaders = [ShaderObjInit resolve_shader; ShaderObjInit paint_shader])).
Proof.
  unfold XPluginEnable.
  destruct (negb (found_view_datarefs e)); [discriminate|].
  destruct (_ && _); [discriminate|].
  destruct (create_cursor_objects (names e) s) as [s1|]; [|discriminate].
  cbv zeta.
  destruct (resolve_shader_builds e); cbn [negb].
  - destruct (paint_shader_builds e); cbn [negb];
      intros E; inversion E; subst;
      exists s1, [ShaderObjInit resolve_shader; ShaderObjInit paint_shader];
      (split; [reflexivity|]);
      (split; [unfold logged; cbn [plugin_of cursor_tex object_calls];
               now rewrite <- app_assoc|]);
      auto 10.
  - intros E; inversion E; subst.
    exists s1, [ShaderObjInit resolve_shader]. auto 10.
Qed.

(** When a shader program does not build, [XPluginEnable] returns 0 with
    the cursor objects made and none of them deleted; after a failure of
    the resolve program the paint program is not tried. *)
Theorem failed_enable_keeps_the_cursor_objects
    (e : enable_host) (s s' : session) :
  XPluginEnable e s = Some (0, s') ->
  cursor_fbo (plugin_of s') = gen_framebuffer (names e) /\
  cursor_pbo (plugin_of s') = gen_buffer (names e) /\
  cursor_tex s' = gen_textures (names e) /\
  cursor_fbo (plugin_of s') <> 0 /\ cursor_pbo (plugin_of s') <> 0 /\
  (exists made,
      object_calls s' = object_calls s ++ made /\
      (forall b, ~ In (GlDeleteBuffers b) made) /\
      (forall f, ~ In (GlDeleteFramebuffers f) made) /\
      (forall t0 t1, ~ In (GlDeleteTextures t0 t1) made) /\
      (resolve_shader_builds e = false ->
       ~ In (ShaderObjInit paint_shader) made)).
Proof.
  intros He. apply XPluginEnable_inv in He.
  destruct He as (s1 & shaders & Hc & -> & Hcases).
  apply create_cursor_objects_inv in Hc.
  destruct Hc as (Ht & Hf & Hp & ->).
  cbn [logged plugin_of cursor_tex object_calls].
  unfold set_cursor_pbo, set_cursor_fbo. cbn [cursor_fbo cursor_pbo].
  repeat match goal with |- _ /\ _ => split end; auto.
  eexists. rewrite <- app_assoc. split; [reflexivity|].
  destruct Hcases as [(_ & Hr & ->) | [(_ & Hr & _ & ->) | (E & _)]];
    [| |discriminate].
  - repeat split; try (intros; cbn [app In]; intuition discriminate).
  - repeat split; try (intros; cbn [app In]; intuition discriminate).
    congruence.
Qed.

Lemma failed_enable_keeps_the_cursor_objects_witness :
  exists s',
    XPluginEnable
      (Build_enable_host true true true (Build_gl_names (7, 8) 3 5)
         false true)
      (Build_session plugin_init (0, 0) []) = Some (0, s') /\
    cursor_fbo (plugin_of s') = 3 /\ cursor_pbo (plugin_of s') = 5 /\
    cursor_tex s' = (7, 8).
Proof.
  eexists. split; [vm_compute; reflexivity|].
  destruct (failed_enable_keeps_the_cursor_objects
              (Build_enable_host true true true (Build_gl_names (7, 8) 3 5)
                 false true)
              (Build_session plugin_init (0, 0) []) _
              ltac:(vm_compute; reflexivity))
    as (E1 & E2 & E3 & _).
  auto.
Defined.


Lemma XPluginEnable_returns (e : enable_host) (s : session) :
  found_view_datarefs e = true ->
  found_rev_float_z e && found_modern_drv e = true \/
  12000 <= xpver (plugin_of s) ->
  fst (gen_textures (names e)) <> 0 ->
  gen_framebuffer (names e) <> 0 -> gen_buffer (names e) <> 0 ->
  exists r s', XPluginEnable e s = Some (r, s').
Proof.
  intros Hv Hd Ht Hf Hp. unfold XPluginEnable. rewrite Hv. cbn [negb].
  assert ((negb (found_rev_float_z e) || negb (found_modern_drv e))
          && negb (12000 <=? xpver (plugin_of s)) = false) as ->.
  { destruct Hd as [Hd | Hd].
    - apply andb_prop in Hd. destruct Hd as [-> ->]. reflexivity.
    - apply Z.leb_le in Hd. rewrite Hd. apply andb_false_r. }
  destruct (create_cursor_objects_returns (names e) s Ht Hf Hp) as [s1 ->].
  cbv zeta.
  destruct (resolve_shader_builds e); cbn [negb]; eauto.
  destruct (paint_shader_builds e); cbn [negb]; eauto.
Qed.

(** [XPluginEnable] returns, with 0 or 1, exactly when the five view
    datarefs exist, the driver has handed out non-zero names for the
    texture, the framebuffer and the buffer, and either both optional
    datarefs exist or the version of the host is at least 12000;
    otherwise an assertion stops it. *)
Theorem enable_returns_iff (e : enable_host) (s : session) :
  (exists r s', XPluginEnable e s = Some (r, s')) <->
  found_view_datarefs e = true /\
  (found_rev_float_z e && found_modern_drv e = true \/
   12000 <= xpver (plugin_of s)) /\
  fst (gen_textures (names e)) <> 0 /\
  gen_framebuffer (names e) <> 0 /\ gen_buffer (names e) <> 0.
Proof.
  split.
  - intros (r & s' & He). pose proof He as He'.
    apply XPluginEnable_inv in He'.
    destruct He' as (s1 & _ & Hc & _).
    apply create_cursor_objects_inv in Hc. destruct Hc as (Ht & Hf & Hp & _).
    unfold XPluginEnable in He.
    destruct (found_view_datarefs e); cbn [negb] in He; [|discriminate].
    split; [reflexivity|]. split; [|auto].
    destruct (found_rev_float_z e); destruct (found_modern_drv e);
      cbn [negb orb andb] in *; auto;
      destruct (12000 <=? xpver (plugin_of s)) eqn:Hx;
      cbn [negb] in He; try discriminate;
      right; apply Z.leb_le; exact Hx.
  - intros (Hv & Hd & Ht & Hf & Hp).
    exact (XPluginEnable_returns e s Hv Hd Ht Hf Hp).
Qed.

(** ** [new_aircraft_loaded] *)

Lemma is_prefix_refl (k : cstring) : is_prefix k k = true.
Proof.
  induction k as [|x k IH]; [reflexivity|].
  cbn [is_prefix]. rewrite Ascii.eqb_refl. exact IH.
Qed.

Lemma is_prefix_length (k s : cstring) :
  is_prefix k s = true -> (length k <= length s)%nat.
Proof.
  revert s. induction k as [|x k IH]; intros [|y s] H; cbn [length];
    try lia; cbn [is_prefix] in H; [discriminate|].
  apply andb_prop in H. destruct H as [_ H]. apply IH in H. lia.
Qed.

Lemma rfind_bound (s k : cstring) (p : nat) :
  rfind s k = Some p -> (p + length k <= length s)%nat.
Proof.
  revert p. induction s as [|x s IH]; intros p; cbn [rfind].
  - destruct (is_prefix k []) eqn:Hk; [|discriminate].
    intros E. inversion E. apply is_prefix_length in Hk. lia.
  - destruct (rfind s k) as [q|].
    + intros E. inversion E. specialize (IH q eq_refl). cbn [length]. lia.
    + destruct (is_prefix k (x :: s)) eqn:Hk; [|discriminate].
      intros E. inversion E. apply is_prefix_length in Hk. lia.
Qed.

Lemma rfind_of_prefix (s k : cstring) :
  is_prefix k s = true -> exists p, rfind s k = Some p.
Proof.
  intros H. destruct s as [|x s]; cbn [rfind].
  - rewrite H. eauto.
  - destruct (rfind s k); [eauto|]. rewrite H. eauto.
Qed.

Lemma rfind_app (a k : cstring) : rfind (a ++ k) k = Some (length a).
Proof.
  induction a as [|x a IH].
  - cbn [app length].
    destruct (rfind_of_prefix k k (is_prefix_refl k)) as [p Hp].
    pose proof (rfind_bound _ _ _ Hp). rewrite Hp. f_equal. lia.
  - cbn [app rfind length]. rewrite IH. reflexivity.
Qed.

(** The folder of the aircraft is its path without the name of its file
    at the end, also when that name occurs in the folder's own name: it
    is the last occurrence that is cut out. *)
Theorem aircraft_folder_cuts_the_file_name (folder file : cstring) :
  aircraft_folder (folder ++ file) file = Some folder.
Proof.
  unfold aircraft_folder, erase. rewrite rfind_app.
  rewrite firstn_app_exact.
  rewrite <- length_app, skipn_all, app_nil_r. reflexivity.
Qed.

Lemma uint_wrap_succ (n : nat) :
  Z.of_nat (S n) < 2 ^ 32 -> uint_wrap (Z.of_nat n + 1) = Z.of_nat (S n).
Proof.
  intros H. unfold uint_wrap. rewrite Z.mod_small; lia.
Qed.

Lemma find_cockpit_object_from (acf : acf_file) (folder : cstring)
    (d j fuel : nat) (r : option cockpit_object) :
  (forall i, (j <= i < j + d)%nat -> passed_over acf (Z.of_nat i)) ->
  Z.of_nat (j + d) < 2 ^ 32 ->
  (d < fuel)%nat ->
  find_cockpit_object 1 acf folder (Z.of_nat (j + d)) = Returns r ->
  find_cockpit_object fuel acf folder (Z.of_nat j) = Returns r.
Proof.
  revert j fuel. induction d as [|d IH]; intros j fuel Hpass Hlt Hfuel Hend.
  - rewrite Nat.add_0_r in Hend. destruct fuel as [|fuel]; [lia|].
    cbn [find_cockpit_object] in *.
    destruct (acf _) as [o|]; [|exact Hend].
    destruct (contains o Names.knobs_obj); [exact Hend|discriminate].
  - destruct fuel as [|fuel]; [lia|].
    cbn [find_cockpit_object].
    destruct (Hpass j ltac:(lia)) as (o & -> & ->).
    rewrite uint_wrap_succ by lia.
    apply IH; try lia.
    + intros i Hi. apply Hpass. lia.
    + replace (S j + d)%nat with (j + S d)%nat by lia. exact Hend.
Qed.



(** The search ends at the first object index the aircraft does not use:
    a cockpit object behind such a gap is not found, whatever the file
    lists there. *)
Theorem cockpit_object_search_stops_at_a_gap (acf : acf_file)
    (folder : cstring) (k fuel : nat) :
  (forall i, (i < k)%nat -> passed_over acf (Z.of_nat i)) ->
  acf (obja_key (Z.of_nat k) Names.att_file_stl) = None ->
  Z.of_nat k < 2 ^ 32 -> (k < fuel)%nat ->
  find_cockpit_object fuel acf folder 0 = Returns None.
Proof.
  intros Hpass Ho Hlt Hfuel.
  apply (find_cockpit_object_from acf folder k 0 fuel); auto.
  - intros i Hi. apply Hpass. lia.
  - cbn [Nat.add find_cockpit_object]. rewrite Ho. reflexivity.
Qed.

Lemma cockpit_object_search_stops_at_a_gap_witness :
  xp_acf_gap (obja_key 2 Names.att_file_stl) = Some Aircraft.knobs /\
  find_cockpit_object 5 xp_acf_gap Aircraft.folder 0 = Returns None.
Proof.
  split; [reflexivity|].
  apply (cockpit_object_search_stops_at_a_gap xp_acf_gap Aircraft.folder
           1 5).
  - intros [|i] Hi; [|lia].
    exists Aircraft.fuselage. split; reflexivity.
  - reflexivity.
  - reflexivity.
  - lia.
Defined.

Lemma paint_target_snoc (cmds : list obj8_cmd) (c : obj8_cmd) (i0 : Z) :
  paint_target (cmds ++ [c]) i0 =
  if is_pushbutton c then cmd_nearest_tris c else paint_target cmds i0.
Proof.
  unfold paint_target, is_pushbutton. rewrite fold_left_app. reflexivity.
Qed.

(** After the loop over the commands [indexToPaint] is the nearest-tris
    index of the last command on the dataref "ckpt/pushbutton/39"; when
    the object has no such command it keeps the value it had before the
    aircraft was loaded. *)
Theorem paint_target_is_the_last_match (cmds : list obj8_cmd) (i0 : Z) :
  paint_target cmds i0 =
  match find is_pushbutton (rev cmds) with
  | Some c => cmd_nearest_tris c
  | None => i0
  end.
Proof.
  induction cmds as [|c cmds IH] using rev_ind; [reflexivity|].
  rewrite paint_target_snoc, rev_app_distr. cbn [rev app find].
  destruct (is_pushbutton c); [reflexivity|exact IH].
Qed.

Lemma new_aircraft_loaded_inv (fuel : nat) (l : load_host)
    (s s2 : session) :
  new_aircraft_loaded fuel l s = Returns s2 ->
  exists folder acf co cmds,
    aircraft_folder (aircraft_path l) (aircraft_file_name l) = Some folder /\
    acf_read l = Some acf /\
    find_cockpit_object fuel acf folder 0 = Returns (Some co) /\
    obj8_parse l (co_path co) = Some cmds /\
    s2 = Build_session
           (set_indexToPaint (paint_target cmds (indexToPaint (plugin_of s)))
              (set_obj true (plugin_of s)))
           (cursor_tex s)
           (object_calls s ++
            [XPLMRegisterDrawCallback; Obj8Parse (co_path co)]).
Proof.
  unfold new_aircraft_loaded.
  destruct (register_ok l); cbn [negb]; [|discriminate].
  destruct (aircraft_folder _ _) as [folder|]; [|discriminate].
  cbv zeta.
  destruct (acf_read l) as [acf|]; [|discriminate].
  destruct (find_cockpit_object fuel acf folder 0) as [[co|]| |] eqn:Hfind;
    try discriminate.
  destruct (obj8_parse l (co_path co)) as [cmds|] eqn:Hparse;
    [|discriminate].
  intros E. inversion E; clear E.
  exists folder, acf, co, cmds.
  repeat match goal with |- _ /\ _ => split end; auto.
  unfold with_plugin, logged. cbn [plugin_of cursor_tex object_calls].
  rewrite <- app_assoc. reflexivity.
Qed.

(** Loading a second aircraft registers the draw callback a second time
    and parses a second object without freeing the first: between the two
    loads and after them no object is freed and no cursor object is
    touched. *)
Theorem second_load_registers_again_and_frees_nothing
    (fuel fuel' : nat) (l l' : load_host) (s s1 s2 : session) :
  new_aircraft_loaded fuel l s = Returns s1 ->
  new_aircraft_loaded fuel' l' s1 = Returns s2 ->
  exists path path',
    object_calls s2 =
    object_calls s ++
    [XPLMRegisterDrawCallback; Obj8Parse path;
     XPLMRegisterDrawCallback; Obj8Parse path'] /\
    obj (plugin_of s1) = true /\ obj (plugin_of s2) = true /\
    cursor_fbo (plugin_of s2) = cursor_fbo (plugin_of s) /\
    cursor_pbo (plugin_of s2) = cursor_pbo (plugin_of s) /\
    cursor_tex s2 = cursor_tex s.
Proof.
  intros H1 H2.
  apply new_aircraft_loaded_inv in H1.
  destruct H1 as (f1 & a1 & co1 & c1 & _ & _ & _ & _ & ->).
  apply new_aircraft_loaded_inv in H2.
  destruct H2 as (f2 & a2 & co2 & c2 & _ & _ & _ & _ & ->).
  exists (co_path co1), (co_path co2).
  cbn [plugin_of cursor_tex object_calls].
  rewrite <- app_assoc. destruct s as [p t c]. destruct p.
  repeat split.
Qed.

Lemma second_load_registers_again_and_frees_nothing_witness :
  exists s1 s2 path path',
    new_aircraft_loaded 5 xp_load xp_session = Returns s1 /\
    new_aircraft_loaded 5 xp_load s1 = Returns s2 /\
    object_calls s2 =
    object_calls xp_session ++
    [XPLMRegisterDrawCallback; Obj8Parse path;
     XPLMRegisterDrawCallback; Obj8Parse path'] /\
    obj (plugin_of s2) = true.
Proof.
  do 2 eexists.
  eassert (new_aircraft_loaded 5 xp_load xp_session = Returns _) as H1
    by (vm_compute; reflexivity).
  eassert (new_aircraft_loaded 5 xp_load _ = Returns _) as H2.
  2: { destruct (second_load_registers_again_and_frees_nothing
                   5 5 xp_load xp_load xp_session _ _ H1 H2)
         as (p & p' & E & _ & Ho & _).
       exists p, p'. split; [exact H1|]. split; [exact H2|].
       split; [exact E | exact Ho]. }
  vm_compute. reflexivity.
Defined.

(** ** The life cycle *)

Lemma enabled_and_loaded (e : enable_host) (l : load_host) (fuel : nat)
    (s s1 s2 : session) (r : Z) :
  XPluginEnable e s = Some (r, s1) ->
  new_aircraft_loaded fuel l s1 = Returns s2 ->
  exists cmds made path,
    plugin_of s2 =
    set_indexToPaint (paint_target cmds (indexToPaint (plugin_of s)))
      (set_obj true
         (set_cursor_pbo (gen_buffer (names e))
            (set_cursor_fbo (gen_framebuffer (names e)) (plugin_of s)))) /\
    cursor_tex s2 = gen_textures (names e) /\
    object_calls s2 =
    object_calls s ++ made ++ [XPLMRegisterDrawCallback; Obj8Parse path] /\
    fst (gen_textures (names e)) <> 0 /\
    gen_framebuffer (names e) <> 0 /\ gen_buffer (names e) <> 0.
Proof.
  intros He Hl.
  apply XPluginEnable_inv in He.
  destruct He as (s0 & shaders & Hc & -> & _).
  apply create_cursor_objects_inv in Hc. destruct Hc as (Ht & Hf & Hp & ->).
  apply new_aircraft_loaded_inv in Hl.
  destruct Hl as (f & a & co & cmds & _ & _ & _ & _ & ->).
  exists cmds.
  exists ([GlGenTextures (fst (gen_textures (names e)))
             (snd (gen_textures (names e)));
           SetupTexture (fst (gen_textures (names e))) GL_R16;
           SetupTexture (snd (gen_textures (names e))) GL_DEPTH_COMPONENT32F;
           GlGenFramebuffers (gen_framebuffer (names e));
           SetupColorFboForTex (gen_framebuffer (names e))
             (fst (gen_textures (names e))) (snd (gen_textures (names e)));
           GlGenBuffers (gen_buffer (names e));
           BindPixelPackBuffer (gen_buffer (names e)); GlBufferData 2;
           BindPixelPackBuffer 0] ++ shaders).
  exists (co_path co).
  unfold logged. cbn [plugin_of cursor_tex object_calls].
  repeat match goal with |- _ /\ _ => split end; auto.
  rewrite <- !app_assoc. reflexivity.
Qed.



(** Once [XPluginEnable] and [new_aircraft_loaded] have returned, the
    draw callback gets past all its assertions on every frame whose
    viewport dataref has four entries, in whatever OpenGL context it is
    called, and returns 1. *)
Theorem callback_runs_after_enable_and_load
    (e : enable_host) (l : load_host) (fuel : nat)
    (s s1 s2 : session) (r : Z)
    (h : host) (g : gl_state) (c : list gl_call) :
  XPluginEnable e s = Some (r, s1) ->
  new_aircraft_loaded fuel l s1 = Returns s2 ->
  length (dr_viewport h) = 4%nat ->
  exists w', draw_cb h (in_context s2 g c) = Some (1, w').
Proof.
  intros He Hl Hvp.
  destruct (enabled_and_loaded e l fuel s s1 s2 r He Hl)
    as (cmds & made & path & Hplug & _ & _ & _ & Hf & Hp).
  apply draw_cb_returns; [exact Hvp|].
  unfold enabled, in_context. cbn [plug]. rewrite Hplug.
  destruct s as [p t c0]. destruct p. simpl. auto.
Qed.

Lemma callback_runs_after_enable_and_load_witness :
  exists s1 s2 w',
    XPluginEnable xp_enable xp_session = Some (1, s1) /\
    new_aircraft_loaded 5 xp_load s1 = Returns s2 /\
    draw_cb (xp_frame (100, 100) (Some 7) true 10) (in_context s2 xp_gl [])
    = Some (1, w').
Proof.
  do 2 eexists.
  eassert (XPluginEnable xp_enable xp_session = Some (1, _)) as H1
    by (vm_compute; reflexivity).
  eassert (new_aircraft_loaded 5 xp_load _ = Returns _) as H2.
  2: { destruct (callback_runs_after_enable_and_load
                   xp_enable xp_load 5 xp_session _ _ 1
                   (xp_frame (100, 100) (Some 7) true 10) xp_gl [] H1 H2
                   eq_refl) as [w' Hw].
       exists w'. split; [exact H1|]. split; [exact H2|]. exact Hw. }
  vm_compute. reflexivity.
Defined.



(** ** What the paint pass draws *)

Lemma paint_keeps_indexToPaint (h : host) (w : world) :
  wp True (paint_manip h) w
    (fun _ w' => indexToPaint (plug w') = indexToPaint (plug w)).
Proof.
  unfold paint_manip.
  repeat wp_step; try exact I.
  all: reflexivity.
Qed.

Lemma paints_only_nil (i : Z) : paints_only i [].
Proof. intros j s []. Qed.

Lemma paints_only_app (i : Z) (l1 l2 : list gl_call) :
  paints_only i l1 -> paints_only i l2 -> paints_only i (l1 ++ l2).
Proof.
  intros H1 H2 j s Hin. apply in_app_or in Hin.
  destruct Hin as [Hin | Hin]; [exact (H1 j s Hin) | exact (H2 j s Hin)].
Qed.

Ltac paints_only_step Hin :=
  cbn [app In] in Hin;
  repeat (destruct Hin as [Hin | Hin];
          [first [discriminate | inversion Hin; split; congruence]|]);
  destruct Hin.

Lemma frame_paints (h : host) (w w' : world) (r : Z) :
  draw_cb h w = Some (r, w') ->
  indexToPaint (plug w') = indexToPaint (plug w) /\
  exists post,
    calls w' = calls w ++ post /\ paints_only (indexToPaint (plug w)) post.
Proof.
  rewrite draw_cb_eq. cbv zeta.
  destruct (negb _); [discriminate|].
  destruct (mouse_off_screen _ _ _).
  { intros E. inversion E. split; [reflexivity|].
    exists []. rewrite app_nil_r. split; [reflexivity|].
    apply paints_only_nil. }
  destruct (resolve_manip h _ _ _) as [[[] wp]|] eqn:Hpick; [|discriminate].
  destruct (paint_manip h wp) as [[[] wq]|] eqn:Hpaint; [|discriminate].
  intros E. inversion E; subst r w'; clear E. cbn [plug calls].
  destruct (resolve_manip_inv _ _ _ _ _ _ Hpick)
    as (w1 & w2 & Hd & _ & _ & _ & _ & _ & F & _ & _ & Ewp).
  pose proof (drain_frame_intro _ _ _ _ Hd) as D.
  pose proof (wp_post _ _ _ _ _ (paint_post h wp) Hpaint) as (_ & _ & P).
  pose proof (wp_post _ _ _ _ _ (paint_keeps_indexToPaint h wp) Hpaint)
    as Hq.
  assert (indexToPaint (plug wp) = indexToPaint (plug w)) as Hi.
  { rewrite Ewp. cbn [plug issued]. simpl.
    rewrite (rf_plug _ _ _ _ _ F), (df_paint _ _ D). reflexivity. }
  split; [congruence|].
  destruct (df_calls _ _ D) as (dc & Edc & _ & Hdc).
  assert (calls wp =
          calls w ++
          [ShaderObjReloadCheck resolve_shader;
           ShaderObjReloadCheck paint_shader] ++ dc ++
          render_calls h (fst (mouse_location h)) (snd (mouse_location h)) w1
          ++ [GlBindBuffer (cursor_pbo (plug w2)); GlReadPixels;
              GlBindBuffer 0] ++
          restore_calls h (dr_getvi (dr_viewport h) 0 4) (issued w2)) as Ec.
  { rewrite Ewp. cbn [calls issued].
    rewrite (rf_calls _ _ _ _ _ F), Edc. cbn [calls reloaded].
    rewrite <- !app_assoc. reflexivity. }
  exists ([ShaderObjReloadCheck resolve_shader;
           ShaderObjReloadCheck paint_shader] ++ dc ++
          render_calls h (fst (mouse_location h)) (snd (mouse_location h)) w1
          ++ [GlBindBuffer (cursor_pbo (plug w2)); GlReadPixels;
              GlBindBuffer 0] ++
          restore_calls h (dr_getvi (dr_viewport h) 0 4) (issued w2) ++
          paint_calls h wp ++ [GlUseProgram 0]).
  rewrite (pf_calls _ _ _ P), Ec.
  split; [rewrite <- !app_assoc; reflexivity|].
  repeat apply paints_only_app.
  all: intros j s Hin.
  all: try (apply Hdc in Hin; destruct Hin as [Hin | [Hin | [b Hin]]];
            discriminate).
  all: try destruct (rev_float_z h w1).
  all: try destruct (rev_float_z h (issued w2)).
  all: paints_only_step Hin.
Qed.

(** What the paint pass highlights does not follow the pointer: over any
    run of frames [indexToPaint] keeps its value, and every call that
    draws a single command draws the command [indexToPaint], with the
    paint program, whatever index the pick passes resolve. *)
Theorem paint_pass_draws_indexToPaint (hs : list host) (w w' : world) :
  run_frames hs w = Some w' ->
  indexToPaint (plug w') = indexToPaint (plug w) /\
  exists post,
    calls w' = calls w ++ post /\ paints_only (indexToPaint (plug w)) post.
Proof.
  revert w. induction hs as [|h hs IH]; intros w Hrun.
  - inversion Hrun. split; [reflexivity|].
    exists []. rewrite app_nil_r. split; [reflexivity|].
    apply paints_only_nil.
  - cbn [run_frames] in Hrun.
    destruct (draw_cb h w) as [[r w1]|] eqn:Hf; [|discriminate].
    destruct (frame_paints h w w1 r Hf) as (Hi & p1 & E1 & P1).
    destruct (IH w1 Hrun) as (Hi' & p2 & E2 & P2).
    split; [congruence|].
    exists (p1 ++ p2). rewrite E2, E1, <- app_assoc.
    split; [reflexivity|].
    apply paints_only_app; [exact P1|]. rewrite <- Hi. exact P2.
Qed.

Lemma paint_pass_draws_indexToPaint_witness :
  exists w' post,
    run_frames [xp_frame (100, 100) (Some 3) true 10;
                xp_frame (100, 100) (Some 7) true 20;
                xp_frame (100, 100) None true 30] xp_world = Some w' /\
    manip_idx (plug w') = 7 /\
    indexToPaint (plug w') = 5 /\
    calls w' = calls xp_world ++ post /\
    paints_only 5 post.
Proof.
  eexists.
  eassert (run_frames [xp_frame (100, 100) (Some 3) true 10;
                       xp_frame (100, 100) (Some 7) true 20;
                       xp_frame (100, 100) None true 30] xp_world = Some _)
    as Hrun by (vm_compute; reflexivity).
  destruct (paint_pass_draws_indexToPaint _ _ _ Hrun) as (Hi & post & E & P).
  exists post. split; [exact Hrun|]. split; [reflexivity|].
  split; [exact Hi|]. split; [exact E | exact P].
Defined.
